(** * quantifai: the attribution engine, the bucket analyzer, the review
    scorer and the configuration validator, embedded in Rocq.

    Sources embedded here (paths inside the repository):
    - [core/src/services/AIDetectionEngine.ts]  (class [AIDetectionEngine])
    - [core/src/utils/BucketAnalyzer.ts]        (class [BucketAnalyzer])
    - [core/src/utils/validation.ts]            ([validateAIDetectionConfig])
    - [extension/src/services/ReviewAnalyzer.ts] (class [ReviewAnalyzer])
    - [core/src/types/*.ts]                     (the records)

    Numbers.  The numeric fields of events and configurations are typed
    [number] in the source.  Two models of them are used.
    - Rationals [Q] with exact arithmetic: finite values, no rounding.
      Comparisons are the boolean ones of the source ([<], [>], [>=]);
      [Math.min]/[Math.max] are [Qmin]/[Qmax].  This model carries the
      properties that rounding does not touch: what is counted, filtered
      and listed, which way a result moves, the bounds that [Math.min]
      enforces, and arithmetic on integers that the doubles represent.
    - IEEE 754 binary64, the numbers of JavaScript (module [Double] and
      the engine of module [DoubleEngine]).  Where the engine compares a
      computed sum with a cut-off, the branch it takes depends on the
      rounding of each operation, and a division by zero is [Infinity],
      not an error; the classification, the mixed-signal override and the
      typing-speed score are stated on this model.
    Only the validator, whose argument is typed [any], sees [NaN] and the
    infinities as inputs (module [Validation]).

    Text.  Strings are byte strings; [length] and [substring] count bytes
    where the source counts UTF-16 code units.

    State.  The engine object holds one configuration; every method reads
    [this.config].  The model passes that configuration explicitly.  The
    decision trace is an array local to [analyze], written by each step and
    neither read nor returned: it is left out. *)

From Stdlib Require Import QArith Qminmax Qround Lqa Lia ZArith List String Ascii Bool.
From Stdlib Require Import DecimalString.
From Stdlib Require Import Permutation.
From Stdlib Require Floats.
From stdpp Require gmap strings.
Import ListNotations.
Open Scope string_scope.
Open Scope list_scope.
Open Scope Q_scope.

(** ** Numbers of the source *)

Module Num.

Definition ltb (a b : Q) : bool := negb (Qle_bool b a).
Definition gtb (a b : Q) : bool := ltb b a.
Definition leb (a b : Q) : bool := Qle_bool a b.
Definition geb (a b : Q) : bool := Qle_bool b a.

(** [x || 0] on a number: [0] is the only falsy finite number. *)
Definition orZero (x : Q) : Q := if Qeq_bool x 0 then 0 else x.

(** [arr.length] as a number. *)
Definition len {A : Type} (l : list A) : Q := inject_Z (Z.of_nat (List.length l)).

(** [arr.reduce((sum, x) => sum + f(x), 0)] *)
Definition sumBy {A : Type} (f : A -> Q) (l : list A) : Q :=
  fold_left (fun sum x => sum + f x) l 0.

End Num.

Declare Scope js_scope.
Delimit Scope js_scope with js.
Infix "<?" := Num.ltb (at level 70, no associativity) : js_scope.
Infix ">?" := Num.gtb (at level 70, no associativity) : js_scope.
Infix "<=?" := Num.leb (at level 70, no associativity) : js_scope.
Infix ">=?" := Num.geb (at level 70, no associativity) : js_scope.
Open Scope js_scope.

(** Conversion of a number to text, as a template literal does it
    ([`[${n} chars]`]).  The decimal text of a JavaScript double is not part
    of the model; the engine is stated for any such conversion. *)
Class NumberFormat := numberToString : Q -> string.

(** The conversion on whole numbers: their decimal digits.  It serves to
    run the engine on examples. *)
Definition wholeNumberFormat : NumberFormat :=
  fun n => NilZero.string_of_int (Z.to_int (Qfloor n)).

(** ** The records of [types/ChangeEvent.ts] *)

Inductive ChangeType := insert | delete | replace.
Inductive EventSource := live | history | external.
Inductive ToolType := claude_code | copilot | cursor | unknown_tool.

Definition ChangeType_eqb (a b : ChangeType) : bool :=
  match a, b with
  | insert, insert | delete, delete | replace, replace => true
  | _, _ => false
  end.

Module Position.
Record t := mk { line : Q; character : Q }.
End Position.

Module SelectionRange.
Record t := mk { start : Position.t; end_ : Position.t }.
End SelectionRange.

Module ExternalToolSignature.
Record t := mk {
  detected : bool;
  toolType : ToolType;
  confidence : Q;
  indicators : list string
}.
End ExternalToolSignature.

Module ChangeEvent.
Record t := mk {
  timestamp : Q;
  sessionId : string;
  fileUri : string;
  eventId : string;
  changeType : ChangeType;
  position : Position.t;
  content : option string;
  contentLength : Q;
  timeSinceLastChange : Q;
  timeSinceSessionStart : Q;
  timeSinceFileOpen : Q;
  source : EventSource;
  vsCodeActive : bool;
  cursorPosition : Position.t;
  selectionRange : option SelectionRange.t;
  instantTypingSpeed : Q;
  rollingTypingSpeed : Q;
  burstDetected : bool;
  pauseBeforeChange : Q;
  isCodeBlock : bool;
  isComment : bool;
  isWhitespace : bool;
  languageConstruct : string;
  indentationLevel : Q;
  externalToolSignature : option ExternalToolSignature.t
}.

(** [change.externalToolSignature?.detected] used as a condition *)
Definition signatureDetected (change : t) : bool :=
  match externalToolSignature change with
  | Some s => ExternalToolSignature.detected s
  | None => false
  end.

(** [change.externalToolSignature?.confidence || 0] *)
Definition signatureConfidence (change : t) : Q :=
  match externalToolSignature change with
  | Some s => Num.orZero (ExternalToolSignature.confidence s)
  | None => 0
  end.

(** [change.externalToolSignature?.toolType || 'unknown'] *)
Definition signatureToolType (change : t) : ToolType :=
  match externalToolSignature change with
  | Some s => ExternalToolSignature.toolType s
  | None => unknown_tool
  end.

(** [change.externalToolSignature?.indicators || []] *)
Definition signatureIndicators (change : t) : list string :=
  match externalToolSignature change with
  | Some s => ExternalToolSignature.indicators s
  | None => []
  end.

End ChangeEvent.

(** ** The records of [types/AIDetection.ts] *)

Inductive AttributionSource := human | ai_assisted | ai_generated | mixed.

Definition isHuman (s : AttributionSource) : bool :=
  match s with human => true | _ => false end.

Inductive ExternalChangeType := bulk_insert | bulk_replace | structured_edit.

Module BulkChange.
Record t := mk { size : Q; timespan : Q; content : string }.
End BulkChange.

Module TypingBurst.
Record t := mk { speed : Q; duration : Q; content : string }.
End TypingBurst.

Module AIEvidence.
Record t := mk {
  externalToolSignature : bool;
  bulkChangePattern : bool;
  timingAnomalies : bool;
  contentCharacteristics : list string;
  bulkChanges : list BulkChange.t;
  typingBursts : list TypingBurst.t;
  externalIndicators : list string;
  suspiciousPatterns : list string
}.
End AIEvidence.

Module ExternalChangeEvent.
Record t := mk {
  timestamp : Q;
  fileUri : string;
  changeType : ExternalChangeType;
  contentLength : Q;
  detectedTool : ToolType;
  confidence : Q
}.
End ExternalChangeEvent.

Module TimeGap.
Record t := mk {
  startTime : Q;
  endTime : Q;
  duration : Q;
  likelyActivity : string
}.
End TimeGap.

Module AITimeline.
Record t := mk {
  vsCodeEvents : list ChangeEvent.t;
  externalEvents : list ExternalChangeEvent.t;
  gaps : list TimeGap.t
}.
End AITimeline.

Module AIAttribution.
Record t := mk {
  source : AttributionSource;
  confidence : Q;
  aiProbability : Q;
  evidence : AIEvidence.t;
  timeline : AITimeline.t
}.
End AIAttribution.

(** The six heuristics: the keys shared by [HeuristicScores] and
    [config.weights]. *)
Module Heuristic.
Inductive t :=
| bulkInsertionScore
| typingSpeedScore
| pastePatternScore
| externalToolScore
| contentPatternScore
| timingAnomalyScore.

Definition eqb (a b : t) : bool :=
  match a, b with
  | bulkInsertionScore, bulkInsertionScore
  | typingSpeedScore, typingSpeedScore
  | pastePatternScore, pastePatternScore
  | externalToolScore, externalToolScore
  | contentPatternScore, contentPatternScore
  | timingAnomalyScore, timingAnomalyScore => true
  | _, _ => false
  end.
End Heuristic.

Module HeuristicScores.
Record t := mk {
  bulkInsertionScore : Q;
  typingSpeedScore : Q;
  pastePatternScore : Q;
  externalToolScore : Q;
  contentPatternScore : Q;
  timingAnomalyScore : Q
}.

(** [Object.entries(heuristicScores)]: the keys in the order in which the
    object literal of [calculateHeuristicScores] lists them. *)
Definition entries (s : t) : list (Heuristic.t * Q) :=
  [ (Heuristic.bulkInsertionScore, bulkInsertionScore s);
    (Heuristic.typingSpeedScore, typingSpeedScore s);
    (Heuristic.pastePatternScore, pastePatternScore s);
    (Heuristic.externalToolScore, externalToolScore s);
    (Heuristic.contentPatternScore, contentPatternScore s);
    (Heuristic.timingAnomalyScore, timingAnomalyScore s) ].
End HeuristicScores.

Module Weights.
Record t := mk {
  bulkInsertionScore : Q;
  typingSpeedScore : Q;
  pastePatternScore : Q;
  externalToolScore : Q;
  contentPatternScore : Q;
  timingAnomalyScore : Q
}.

(** [weights[heuristic]] *)
Definition get (w : t) (h : Heuristic.t) : Q :=
  match h with
  | Heuristic.bulkInsertionScore => bulkInsertionScore w
  | Heuristic.typingSpeedScore => typingSpeedScore w
  | Heuristic.pastePatternScore => pastePatternScore w
  | Heuristic.externalToolScore => externalToolScore w
  | Heuristic.contentPatternScore => contentPatternScore w
  | Heuristic.timingAnomalyScore => timingAnomalyScore w
  end.
End Weights.

Module WeightedScore.
Record t := mk { rawScore : Q; weight : Q; weightedScore : Q }.
End WeightedScore.

Module Thresholds.
Record t := mk {
  bulkInsertionSize : Q;
  fastTypingSpeed : Q;
  pasteTimeThreshold : Q;
  longPauseThreshold : Q;
  rapidSequenceThreshold : Q
}.
End Thresholds.

Module Classification.
Record t := mk {
  humanThreshold : Q;
  aiAssistedThreshold : Q;
  aiGeneratedThreshold : Q
}.
End Classification.

Inductive AggregationMethod := average | maximum | weighted.

Module BucketConfig.
Record t := mk {
  intervalMinutes : Q;
  aggregationMethod : AggregationMethod;
  minEventsPerBucket : Q
}.
End BucketConfig.

Module AIDetectionConfig.
Record t := mk {
  weights : Weights.t;
  thresholds : Thresholds.t;
  classification : Classification.t;
  bucketConfig : BucketConfig.t
}.
End AIDetectionConfig.

Definition DEFAULT_AI_DETECTION_CONFIG : AIDetectionConfig.t :=
  {| AIDetectionConfig.weights :=
       {| Weights.bulkInsertionScore := 0.25;
          Weights.typingSpeedScore := 0.20;
          Weights.pastePatternScore := 0.15;
          Weights.externalToolScore := 0.25;
          Weights.contentPatternScore := 0.10;
          Weights.timingAnomalyScore := 0.05 |};
     AIDetectionConfig.thresholds :=
       {| Thresholds.bulkInsertionSize := 100;
          Thresholds.fastTypingSpeed := 300;
          Thresholds.pasteTimeThreshold := 100;
          Thresholds.longPauseThreshold := 30000;
          Thresholds.rapidSequenceThreshold := 100 |};
     AIDetectionConfig.classification :=
       {| Classification.humanThreshold := 0.3;
          Classification.aiAssistedThreshold := 0.6;
          Classification.aiGeneratedThreshold := 0.8 |};
     AIDetectionConfig.bucketConfig :=
       {| BucketConfig.intervalMinutes := 15;
          BucketConfig.aggregationMethod := average;
          BucketConfig.minEventsPerBucket := 1 |} |}.

(** ** [AIDetectionEngine] *)

Module AIDetectionEngine.
Import ChangeEvent.

(** [s.includes(c)] for a one-character needle *)
Fixpoint includesChar (c : ascii) (s : string) : bool :=
  match s with
  | EmptyString => false
  | String a rest => Ascii.eqb a c || includesChar c rest
  end.

Definition newline : ascii := Ascii.ascii_of_nat 10.

Section Engine.
Context {fmt : NumberFormat}.

(** [this.config] *)
Variable config : AIDetectionConfig.t.

Let thresholds := AIDetectionConfig.thresholds config.
Let classification := AIDetectionConfig.classification config.

Definition calculateBulkInsertionScore (changes : list ChangeEvent.t) : Q :=
  let bulkChanges := filter (fun change =>
    ChangeType_eqb (changeType change) insert &&
    (contentLength change >? Thresholds.bulkInsertionSize thresholds)) changes in
  Qmin (Num.len bulkChanges / Num.len changes) 1.

Definition calculateTypingSpeedScore (changes : list ChangeEvent.t) : Q :=
  let typingSpeeds :=
    map instantTypingSpeed
        (filter (fun change => instantTypingSpeed change >? 0) changes) in
  if Nat.eqb (List.length typingSpeeds) 0 then 0
  else
    let averageSpeed := Num.sumBy (fun speed => speed) typingSpeeds / Num.len typingSpeeds in
    let highSpeedCount :=
      Num.len (filter (fun speed => speed >? Thresholds.fastTypingSpeed thresholds) typingSpeeds) in
    let speedScore := Qmin (averageSpeed / (Thresholds.fastTypingSpeed thresholds * 1.5)) 1 in
    let frequencyScore := highSpeedCount / Num.len typingSpeeds in
    (speedScore + frequencyScore) / 2.

Definition calculatePastePatternScore (changes : list ChangeEvent.t) : Q :=
  let pasteIndicators := filter (fun change =>
    (timeSinceLastChange change <? Thresholds.pasteTimeThreshold thresholds) &&
    (contentLength change >? 50) &&
    ChangeType_eqb (changeType change) insert) changes in
  Qmin (Num.len pasteIndicators / Qmax (Num.len changes) 1) 1.

Definition calculateExternalToolScore (changes : list ChangeEvent.t) : Q :=
  let externalSignatures := filter signatureDetected changes in
  if Nat.eqb (List.length externalSignatures) 0 then 0
  else
    let averageConfidence :=
      Num.sumBy signatureConfidence externalSignatures / Num.len externalSignatures in
    let score := (Num.len externalSignatures / Num.len changes) * averageConfidence in
    Qmin score 1.

Definition calculateContentPatternScore (changes : list ChangeEvent.t) : Q :=
  let codeBlocks := filter isCodeBlock changes in
  let structuredCode := filter (fun change =>
    negb (String.eqb (languageConstruct change) "unknown") &&
    negb (String.eqb (languageConstruct change) "")) changes in
  let comments := filter isComment changes in
  let codeBlockRatio := Num.len codeBlocks / Qmax (Num.len changes) 1 in
  let structuredRatio := Num.len structuredCode / Qmax (Num.len changes) 1 in
  let commentRatio := Num.len comments / Qmax (Num.len changes) 1 in
  let score := codeBlockRatio * 0.4 + structuredRatio * 0.4 + commentRatio * 0.2 in
  Qmin score 1.

Definition calculateTimingAnomalyScore (changes : list ChangeEvent.t) : Q :=
  if Nat.ltb (List.length changes) 2 then 0
  else
    let longPauses := filter (fun change =>
      timeSinceLastChange change >? Thresholds.longPauseThreshold thresholds) changes in
    let rapidSequences := filter (fun change =>
      (timeSinceLastChange change <? Thresholds.rapidSequenceThreshold thresholds) &&
      (timeSinceLastChange change >? 0)) changes in
    let anomalyRatio := (Num.len longPauses + Num.len rapidSequences) / Num.len changes in
    Qmin anomalyRatio 1.

Definition calculateHeuristicScores (changes : list ChangeEvent.t) : HeuristicScores.t :=
  {| HeuristicScores.bulkInsertionScore := calculateBulkInsertionScore changes;
     HeuristicScores.typingSpeedScore := calculateTypingSpeedScore changes;
     HeuristicScores.pastePatternScore := calculatePastePatternScore changes;
     HeuristicScores.externalToolScore := calculateExternalToolScore changes;
     HeuristicScores.contentPatternScore := calculateContentPatternScore changes;
     HeuristicScores.timingAnomalyScore := calculateTimingAnomalyScore changes |}.

(** The object [weightedScores], keyed by heuristic name, as the list of
    its entries in insertion order. *)
Definition combineScores (heuristicScores : HeuristicScores.t)
  : list (Heuristic.t * WeightedScore.t) :=
  map (fun entry : Heuristic.t * Q =>
         let (heuristic, rawScore) := entry in
         let weight := Num.orZero (Weights.get (AIDetectionConfig.weights config) heuristic) in
         let weightedScore := rawScore * weight in
         (heuristic,
          {| WeightedScore.rawScore := rawScore;
             WeightedScore.weight := weight;
             WeightedScore.weightedScore := weightedScore |}))
      (HeuristicScores.entries heuristicScores).

(** [Object.values(weightedScores).reduce((sum, score) => sum + score.weightedScore, 0)] *)
Definition totalScoreOf (weightedScores : list (Heuristic.t * WeightedScore.t)) : Q :=
  Num.sumBy WeightedScore.weightedScore (map snd weightedScores).

(** [Pick<AIAttribution, 'source' | 'confidence' | 'aiProbability'>] *)
Record Decision := mkDecision {
  source : AttributionSource;
  confidence : Q;
  aiProbability : Q
}.

(** The [if] / [else if] chain of [makeFinalDecision] on [totalScore]
    (the assignments to [source], [confidence] and [aiProbability] that
    precede the check for mixed patterns). *)
Definition thresholdDecision (totalScore : Q) : Decision :=
  if totalScore <? Classification.humanThreshold classification then
    {| source := human; confidence := 1 - totalScore; aiProbability := totalScore |}
  else if totalScore <? Classification.aiAssistedThreshold classification then
    {| source := ai_assisted; confidence := 0.8; aiProbability := totalScore |}
  else if totalScore <? Classification.aiGeneratedThreshold classification then
    {| source := ai_generated; confidence := totalScore; aiProbability := totalScore |}
  else
    {| source := ai_generated; confidence := totalScore;
       aiProbability := Qmin (totalScore + 0.1) 1 |}.

Definition hasHumanIndicators (changes : list ChangeEvent.t) : bool :=
  existsb (fun change =>
    (instantTypingSpeed change >? 0) &&
    (instantTypingSpeed change <? Thresholds.fastTypingSpeed thresholds) &&
    (contentLength change <? 50)) changes.

Definition hasAIIndicators (changes : list ChangeEvent.t) : bool :=
  existsb (fun change =>
    signatureDetected change ||
    ((contentLength change >? Thresholds.bulkInsertionSize thresholds) &&
     (timeSinceLastChange change <? Thresholds.pasteTimeThreshold thresholds))) changes.

Definition makeFinalDecision (weightedScores : list (Heuristic.t * WeightedScore.t))
  (changes : list ChangeEvent.t) : Decision :=
  let totalScore := totalScoreOf weightedScores in
  let decided := thresholdDecision totalScore in
  if hasHumanIndicators changes && hasAIIndicators changes && negb (isHuman (source decided)) then
    {| source := mixed;
       confidence := Qmin (confidence decided) 0.8;
       aiProbability := aiProbability decided |}
  else decided.

(** [`[${change.contentLength} chars]`] *)
Definition placeholder (change : ChangeEvent.t) : string :=
  ("[" ++ numberToString (contentLength change) ++ " chars]")%string.

(** [change.content ? change.content.substring(0, n) +
     (change.content.length > n ? '...' : '') : placeholder];
    the empty string is falsy. *)
Definition preview (n : nat) (change : ChangeEvent.t) : string :=
  match content change with
  | Some (String _ _ as text) =>
      (String.substring 0 n text ++
       (if Nat.ltb n (String.length text) then "..." else ""))%string
  | _ => placeholder change
  end.

Definition extractContentCharacteristics (changes : list ChangeEvent.t) : list string :=
  ((if existsb isCodeBlock changes then ["contains-code-blocks"] else []) ++
   (if existsb isComment changes then ["contains-comments"] else []) ++
   (if existsb (fun change => String.eqb (languageConstruct change) "function") changes
    then ["contains-functions"] else []) ++
   (if existsb (fun change => String.eqb (languageConstruct change) "class") changes
    then ["contains-classes"] else [])).

Definition identifySuspiciousPatterns (changes : list ChangeEvent.t) : list string :=
  ((if existsb (fun change =>
        (contentLength change >? Thresholds.bulkInsertionSize thresholds) &&
        (timeSinceLastChange change <? Thresholds.pasteTimeThreshold thresholds)) changes
    then ["rapid-large-insertion"] else []) ++
   (if existsb (fun change =>
        (contentLength change >? Thresholds.bulkInsertionSize thresholds) &&
        match content change with
        | Some text => includesChar newline text
        | None => false
        end &&
        (indentationLevel change >? 0)) changes
    then ["formatted-bulk-code"] else [])).

Definition extractEvidence (changes : list ChangeEvent.t) : AIEvidence.t :=
  let bulkChanges :=
    map (fun change =>
           {| BulkChange.size := contentLength change;
              BulkChange.timespan := timeSinceLastChange change;
              BulkChange.content := preview 100 change |})
        (filter (fun change =>
           contentLength change >? Thresholds.bulkInsertionSize thresholds) changes) in
  let typingBursts :=
    map (fun change =>
           {| TypingBurst.speed := instantTypingSpeed change;
              TypingBurst.duration := timeSinceLastChange change;
              TypingBurst.content := preview 50 change |})
        (filter burstDetected changes) in
  let externalIndicators :=
    flat_map signatureIndicators (filter signatureDetected changes) in
  {| AIEvidence.externalToolSignature := existsb signatureDetected changes;
     AIEvidence.bulkChangePattern := Nat.ltb 0 (List.length bulkChanges);
     AIEvidence.timingAnomalies :=
       existsb (fun change =>
         (timeSinceLastChange change >? Thresholds.longPauseThreshold thresholds) ||
         ((timeSinceLastChange change <? Thresholds.rapidSequenceThreshold thresholds) &&
          (timeSinceLastChange change >? 0))) changes;
     AIEvidence.contentCharacteristics := extractContentCharacteristics changes;
     AIEvidence.bulkChanges := bulkChanges;
     AIEvidence.typingBursts := typingBursts;
     AIEvidence.externalIndicators := externalIndicators;
     AIEvidence.suspiciousPatterns := identifySuspiciousPatterns changes |}.

(** The projection of one event with a detected signature. *)
Definition toExternalChangeEvent (change : ChangeEvent.t) : ExternalChangeEvent.t :=
  {| ExternalChangeEvent.timestamp := timestamp change;
     ExternalChangeEvent.fileUri := fileUri change;
     ExternalChangeEvent.changeType :=
       if contentLength change >? 200 then bulk_insert else structured_edit;
     ExternalChangeEvent.contentLength := contentLength change;
     ExternalChangeEvent.detectedTool := signatureToolType change;
     ExternalChangeEvent.confidence := signatureConfidence change |}.

(** The loop [for (let i = 1; i < changes.length; i++)] over the pairs
    [changes[i - 1]], [changes[i]]. *)
Fixpoint gapsFrom (previous : ChangeEvent.t) (rest : list ChangeEvent.t) : list TimeGap.t :=
  match rest with
  | [] => []
  | current :: rest' =>
      let gap := timestamp current - timestamp previous in
      (if gap >? 10000 then
         [ {| TimeGap.startTime := timestamp previous;
              TimeGap.endTime := timestamp current;
              TimeGap.duration := gap;
              TimeGap.likelyActivity :=
                if gap >? 300000 then "extended-break" else "thinking-pause" |} ]
       else []) ++ gapsFrom current rest'
  end.

Definition extractTimeline (changes : list ChangeEvent.t) : AITimeline.t :=
  let externalEvents := map toExternalChangeEvent (filter signatureDetected changes) in
  let gaps := match changes with [] => [] | first :: rest => gapsFrom first rest end in
  {| AITimeline.vsCodeEvents := changes;
     AITimeline.externalEvents := externalEvents;
     AITimeline.gaps := gaps |}.

Definition createEmptyAttribution : AIAttribution.t :=
  {| AIAttribution.source := human;
     AIAttribution.confidence := 0;
     AIAttribution.aiProbability := 0;
     AIAttribution.evidence :=
       {| AIEvidence.externalToolSignature := false;
          AIEvidence.bulkChangePattern := false;
          AIEvidence.timingAnomalies := false;
          AIEvidence.contentCharacteristics := [];
          AIEvidence.bulkChanges := [];
          AIEvidence.typingBursts := [];
          AIEvidence.externalIndicators := [];
          AIEvidence.suspiciousPatterns := [] |};
     AIAttribution.timeline :=
       {| AITimeline.vsCodeEvents := [];
          AITimeline.externalEvents := [];
          AITimeline.gaps := [] |} |}.

Definition analyze (changes : list ChangeEvent.t) : AIAttribution.t :=
  if Nat.eqb (List.length changes) 0 then createEmptyAttribution
  else
    let heuristicScores := calculateHeuristicScores changes in
    let weightedScores := combineScores heuristicScores in
    let finalResult := makeFinalDecision weightedScores changes in
    {| AIAttribution.source := source finalResult;
       AIAttribution.confidence := confidence finalResult;
       AIAttribution.aiProbability := aiProbability finalResult;
       AIAttribution.evidence := extractEvidence changes;
       AIAttribution.timeline := extractTimeline changes |}.

(** [totalScore] of [makeFinalDecision] when [analyze] runs on [changes],
    and the classification by thresholds that [makeFinalDecision] reaches
    before its check for mixed patterns. *)
Definition totalScore (changes : list ChangeEvent.t) : Q :=
  totalScoreOf (combineScores (calculateHeuristicScores changes)).

Definition thresholdResult (changes : list ChangeEvent.t) : Decision :=
  thresholdDecision (totalScore changes).

(** The condition of the [if] that overrides the classification. *)
Definition overrideFires (changes : list ChangeEvent.t) : bool :=
  hasHumanIndicators changes && hasAIIndicators changes &&
  negb (isHuman (source (thresholdResult changes))).

End Engine.
End AIDetectionEngine.

(** ** The engine as its specification words it

    Definitions written from the sentences of the specification, to be
    compared with the code above. *)

Module Reference.
Import ChangeEvent.

(** The sum over the six heuristics of raw score times weight. *)
Definition weightedSum (scores : HeuristicScores.t) (weights : Weights.t) : Q :=
  HeuristicScores.bulkInsertionScore scores * Weights.bulkInsertionScore weights +
  HeuristicScores.typingSpeedScore scores * Weights.typingSpeedScore weights +
  HeuristicScores.pastePatternScore scores * Weights.pastePatternScore weights +
  HeuristicScores.externalToolScore scores * Weights.externalToolScore weights +
  HeuristicScores.contentPatternScore scores * Weights.contentPatternScore weights +
  HeuristicScores.timingAnomalyScore scores * Weights.timingAnomalyScore weights.

(** The outcome of the first rule of an ordered list whose condition
    holds. *)
Fixpoint firstMatch {A : Type} (rules : list (bool * A)) : option A :=
  match rules with
  | [] => None
  | (condition, outcome) :: rest => if condition then Some outcome else firstMatch rest
  end.

(** Non-negative weights: each of the six. *)
Definition weightsNonNegative (config : AIDetectionConfig.t) : Prop :=
  forall heuristic, 0 <= Weights.get (AIDetectionConfig.weights config) heuristic.

(** The sum of the six weights. *)
Definition weightSum (config : AIDetectionConfig.t) : Q :=
  let weights := AIDetectionConfig.weights config in
  Weights.bulkInsertionScore weights + Weights.typingSpeedScore weights +
  Weights.pastePatternScore weights + Weights.externalToolScore weights +
  Weights.contentPatternScore weights + Weights.timingAnomalyScore weights.


End Reference.

(** ** Counting loops over time

    Both [BucketAnalyzer.createBuckets] and
    [ReviewAnalyzer.calculateEditingVelocity] run
    [for (let time = startTime; time < endTime; time += step)].
    [forTimes] lists the values [time] takes in the loop body.  The loop
    need not end (a step that is not positive never reaches [endTime]), so
    the model counts iterations down from [fuel] and answers [None] when the
    fuel runs out before the loop condition fails. *)

Module Loop.

Fixpoint forTimes (fuel : nat) (time endTime step : Q) : option (list Q) :=
  if time <? endTime then
    match fuel with
    | O => None
    | S fuel' => option_map (cons time) (forTimes fuel' (time + step) endTime step)
    end
  else Some [].

(** The number of iterations of the loop when [step] is positive. *)
Definition iterations (startTime endTime step : Q) : nat :=
  Z.to_nat (Qceiling ((endTime - startTime) / step)).

(** The number of windows [[start, start + step)], for [start] in
    [starts], that contain [t]. *)
Definition windowCount (step t : Q) (starts : list Q) : nat :=
  List.length (filter (fun start => (t >=? start) && (t <? start + step)) starts).

End Loop.

(** ** [BucketAnalyzer] *)

Module TimeBucket.
Record t := mk {
  startTime : Q;
  endTime : Q;
  events : list ChangeEvent.t;
  aiProbability : option Q;
  heuristicScores : option HeuristicScores.t;
  eventCount : Q;
  isEmpty : bool;
  attribution : option AIAttribution.t
}.
End TimeBucket.

Definition DEFAULT_BUCKET_CONFIG : BucketConfig.t :=
  {| BucketConfig.intervalMinutes := 15;
     BucketConfig.aggregationMethod := average;
     BucketConfig.minEventsPerBucket := 1 |}.

Module BucketAnalyzer.
Import ChangeEvent.

(** The body of the loop of [createBuckets] at one value of [time]. *)
Definition bucketAt (events : list ChangeEvent.t) (config : BucketConfig.t)
  (intervalMs time : Q) : TimeBucket.t :=
  let bucketEvents := filter (fun e =>
    (timestamp e >=? time) && (timestamp e <? time + intervalMs)) events in
  {| TimeBucket.startTime := time;
     TimeBucket.endTime := time + intervalMs;
     TimeBucket.events := bucketEvents;
     TimeBucket.eventCount := Num.len bucketEvents;
     TimeBucket.isEmpty := Num.len bucketEvents <? BucketConfig.minEventsPerBucket config;
     TimeBucket.aiProbability := None;
     TimeBucket.heuristicScores := None;
     TimeBucket.attribution := None |}.

(** [None]: the loop has not ended within [fuel] iterations. *)
Definition createBuckets (fuel : nat) (events : list ChangeEvent.t)
  (config : BucketConfig.t) : option (list TimeBucket.t) :=
  match events with
  | [] => Some []
  | first :: _ =>
      let intervalMs := BucketConfig.intervalMinutes config * 60 * 1000 in
      let startTime := timestamp first in
      let endTime := timestamp (List.last events first) in
      option_map (map (bucketAt events config intervalMs))
                 (Loop.forTimes fuel startTime endTime intervalMs)
  end.

(** *** What bucket coverage means *)

(** [t] lies in the half-open window [[startTime, endTime)] of [bucket]. *)
Definition inWindow (t : Q) (bucket : TimeBucket.t) : bool :=
  (t >=? TimeBucket.startTime bucket) && (t <? TimeBucket.endTime bucket).

(** The number of buckets whose window contains [t]. *)
Definition windowsContaining (t : Q) (buckets : list TimeBucket.t) : nat :=
  List.length (filter (inWindow t) buckets).

(** Every event's timestamp lies in exactly one window. *)
Definition coversExactlyOnce (events : list ChangeEvent.t) (buckets : list TimeBucket.t) : Prop :=
  Forall (fun e => windowsContaining (timestamp e) buckets = 1%nat) events.

(** Timestamps in non-decreasing order. *)
Fixpoint nonDecreasing (events : list ChangeEvent.t) : Prop :=
  match events with
  | [] => True
  | e :: rest =>
      match rest with
      | [] => True
      | e' :: _ => timestamp e <= timestamp e'
      end /\ nonDecreasing rest
  end.

End BucketAnalyzer.

(** ** The records of [types/ReviewQuality.ts] *)

Inductive QualityLevel := immediate_commit | light_review | thorough_review | extensive_review.

Module ReviewScoreBreakdown.
Record t := mk {
  timeInvestment : Q;
  iterationCount : Q;
  externalToolUsage : Q;
  humanRefinement : Q;
  timeInvestmentScore : Q;
  iterationScore : Q;
  refinementScore : Q;
  thoughtfulnessScore : Q;
  finalScore : Q
}.
End ReviewScoreBreakdown.

Module ReviewPatterns.
Record t := mk {
  immediateCommit : bool;
  multiSessionReview : bool;
  crossToolCollaboration : bool;
  incrementalRefinement : bool;
  multipleEditSessions : bool;
  pausesForReflection : bool;
  commentaryAdded : bool;
  codeRestructuring : bool;
  testingEvidence : bool
}.
End ReviewPatterns.

Module EditTimelineEntry.
Record t := mk { timestamp : Q; editType : string; significance : Q }.
End EditTimelineEntry.

Module PauseAnalysisEntry.
Record t := mk { duration : Q; context : string; likelyActivity : string }.
End PauseAnalysisEntry.

Module ReviewEvidence.
Record t := mk {
  editTimeline : list EditTimelineEntry.t;
  pauseAnalysis : list PauseAnalysisEntry.t;
  refinementExamples : list string
}.
End ReviewEvidence.

Module ReviewQualityAssessment.
Record t := mk {
  overallScore : Q;
  breakdown : ReviewScoreBreakdown.t;
  patterns : ReviewPatterns.t;
  evidence : ReviewEvidence.t;
  qualityLevel : QualityLevel;
  confidence : Q
}.
End ReviewQualityAssessment.

Module TimeMetrics.
Record t := mk {
  totalDevelopmentTime : Q;
  timeBeforeFirstCommit : Q;
  numberOfEditSessions : Q;
  averageSessionLength : Q;
  longestPauseBetweenEdits : Q;
  editingVelocityOverTime : list Q
}.
End TimeMetrics.

Module EditPatterns.
Record t := mk {
  incrementalEdits : Q;
  bulkReplacements : Q;
  refinementEdits : Q;
  commentAdditions : Q;
  variableRenames : Q;
  structuralChanges : Q
}.
End EditPatterns.

Module ReviewIndicators.
Record t := mk {
  multipleEditSessions : bool;
  pausesForReflection : bool;
  incrementalRefinement : bool;
  commentaryAdded : bool;
  codeRestructuring : bool;
  testingEvidence : bool
}.
End ReviewIndicators.

Module ReviewQualityMetricsLog.
Record t := mk {
  timestamp : Q;
  sessionId : string;
  fileUri : string;
  analysisId : string;
  timeMetrics : TimeMetrics.t;
  editPatterns : EditPatterns.t;
  reviewIndicators : ReviewIndicators.t;
  scoreBreakdown : ReviewScoreBreakdown.t;
  qualityLevel : QualityLevel;
  confidence : Q;
  evidence : ReviewEvidence.t;
  _loggedAt : Q;
  _version : string
}.
End ReviewQualityMetricsLog.

Module CommitInfo.
Record t := mk { commitTime : Q }.
End CommitInfo.

Module EditSession.
Record t := mk { start : Q; end_ : Q; duration : Q; changeCount : Q }.
End EditSession.

(** ** [ReviewAnalyzer] *)

Module ReviewAnalyzer.
Import ChangeEvent.

(** *** Text helpers *)

Definition isUpper (c : ascii) : bool :=
  let n := nat_of_ascii c in Nat.leb 65 n && Nat.leb n 90.
Definition isLower (c : ascii) : bool :=
  let n := nat_of_ascii c in Nat.leb 97 n && Nat.leb n 122.
Definition isDigit (c : ascii) : bool :=
  let n := nat_of_ascii c in Nat.leb 48 n && Nat.leb n 57.
Definition isUnderscore (c : ascii) : bool := Nat.eqb (nat_of_ascii c) 95.

(** [\w] and the class [[a-zA-Z_]] *)
Definition isWordChar (c : ascii) : bool :=
  isUpper c || isLower c || isDigit c || isUnderscore c.
Definition isIdentifierStart (c : ascii) : bool :=
  isUpper c || isLower c || isUnderscore c.

(** [/\b[a-zA-Z_][a-zA-Z0-9_]*\b/.test(text)]: some maximal run of word
    characters starts with a letter or an underscore.  [afterWord] tells
    whether the previous character was a word character. *)
Fixpoint testIdentifierFrom (afterWord : bool) (text : string) : bool :=
  match text with
  | EmptyString => false
  | String c rest =>
      (negb afterWord && isIdentifierStart c) || testIdentifierFrom (isWordChar c) rest
  end.
Definition testIdentifier (text : string) : bool := testIdentifierFrom false text.

Definition toLowerChar (c : ascii) : ascii :=
  if isUpper c then ascii_of_nat (nat_of_ascii c + 32) else c.

Fixpoint toLowerCase (text : string) : string :=
  match text with
  | EmptyString => EmptyString
  | String c rest => String (toLowerChar c) (toLowerCase rest)
  end.

Fixpoint includes (needle text : string) : bool :=
  String.prefix needle text ||
  match text with
  | EmptyString => false
  | String _ rest => includes needle rest
  end.

(** [change.content?.toLowerCase().includes(word)] used as a condition *)
Definition contentMentions (word : string) (change : ChangeEvent.t) : bool :=
  match content change with
  | Some text => includes word (toLowerCase text)
  | None => false
  end.

(** [change.content] used as a condition: present and not empty *)
Definition hasContent (change : ChangeEvent.t) : bool :=
  match content change with
  | Some (String _ _) => true
  | _ => false
  end.

Definition ChangeType_toString (c : ChangeType) : string :=
  match c with insert => "insert" | delete => "delete" | replace => "replace" end.

(** *** Time metrics *)

(** The loop of [identifyEditSessions] from index [1] on, with its three
    loop variables; it ends by adding the final session. *)
Fixpoint sessionsFrom (gapThreshold : Q) (previous : ChangeEvent.t)
  (sessionStart sessionEnd sessionChangeCount : Q) (rest : list ChangeEvent.t)
  : list EditSession.t :=
  match rest with
  | [] =>
      [ {| EditSession.start := sessionStart;
           EditSession.end_ := sessionEnd;
           EditSession.duration := sessionEnd - sessionStart;
           EditSession.changeCount := sessionChangeCount |} ]
  | current :: rest' =>
      let gap := timestamp current - timestamp previous in
      if gap >? gapThreshold then
        {| EditSession.start := sessionStart;
           EditSession.end_ := sessionEnd;
           EditSession.duration := sessionEnd - sessionStart;
           EditSession.changeCount := sessionChangeCount |}
        :: sessionsFrom gapThreshold current (timestamp current) (timestamp current) 1 rest'
      else
        sessionsFrom gapThreshold current sessionStart (timestamp current)
                     (sessionChangeCount + 1) rest'
  end.

Definition identifyEditSessions (changes : list ChangeEvent.t) (gapThreshold : Q)
  : list EditSession.t :=
  match changes with
  | [] => []
  | first :: rest =>
      sessionsFrom gapThreshold first (timestamp first) (timestamp first) 1 rest
  end.

(** [changes[i].timestamp - changes[i - 1].timestamp] for [i] from [1] on *)
Fixpoint pausesFrom (previous : ChangeEvent.t) (rest : list ChangeEvent.t) : list Q :=
  match rest with
  | [] => []
  | current :: rest' => (timestamp current - timestamp previous) :: pausesFrom current rest'
  end.

Definition pausesOf (changes : list ChangeEvent.t) : list Q :=
  match changes with
  | [] => []
  | first :: rest => pausesFrom first rest
  end.

(** [Math.max(...values)] on a non-empty array *)
Definition maxOf (first : Q) (rest : list Q) : Q := fold_left Qmax rest first.

(** The window size is the positive constant [5 * 60 * 1000], so the loop
    ends after [Loop.iterations] rounds (lemma [forTimes_terminates]); the
    branch [None] is never taken. *)
Definition calculateEditingVelocity (changes : list ChangeEvent.t) : list Q :=
  match changes with
  | [] => []
  | first :: _ =>
      let windowSize := 5 * 60 * 1000 in
      let startTime := timestamp first in
      let endTime := timestamp (List.last changes first) in
      match Loop.forTimes (Loop.iterations startTime endTime windowSize)
                          startTime endTime windowSize with
      | Some windowStarts =>
          map (fun windowStart =>
                 let windowEnd := windowStart + windowSize in
                 Num.len (filter (fun change =>
                   (timestamp change >=? windowStart) && (timestamp change <? windowEnd))
                   changes))
              windowStarts
      | None => []
      end
  end.

Definition calculateTimeMetrics (changes : list ChangeEvent.t)
  (commitInfo : option CommitInfo.t) : TimeMetrics.t :=
  match changes with
  | [] =>
      {| TimeMetrics.totalDevelopmentTime := 0;
         TimeMetrics.timeBeforeFirstCommit := 0;
         TimeMetrics.numberOfEditSessions := 0;
         TimeMetrics.averageSessionLength := 0;
         TimeMetrics.longestPauseBetweenEdits := 0;
         TimeMetrics.editingVelocityOverTime := [] |}
  | first :: _ =>
      let firstChange := timestamp first in
      let lastChange := timestamp (List.last changes first) in
      let totalDevelopmentTime := lastChange - firstChange in
      let timeBeforeFirstCommit :=
        match commitInfo with
        | Some info => CommitInfo.commitTime info - lastChange
        | None => 0
        end in
      let sessionGapThreshold := 30 * 60 * 1000 in
      let sessions := identifyEditSessions changes sessionGapThreshold in
      let numberOfEditSessions := Num.len sessions in
      let averageSessionLength :=
        if Nat.ltb 0 (List.length sessions)
        then Num.sumBy EditSession.duration sessions / Num.len sessions
        else 0 in
      let longestPauseBetweenEdits :=
        match pausesOf changes with
        | [] => 0
        | pause :: pauses => maxOf pause pauses
        end in
      {| TimeMetrics.totalDevelopmentTime := totalDevelopmentTime;
         TimeMetrics.timeBeforeFirstCommit := timeBeforeFirstCommit;
         TimeMetrics.numberOfEditSessions := numberOfEditSessions;
         TimeMetrics.averageSessionLength := averageSessionLength;
         TimeMetrics.longestPauseBetweenEdits := longestPauseBetweenEdits;
         TimeMetrics.editingVelocityOverTime := calculateEditingVelocity changes |}
  end.

(** *** Edit patterns and review indicators *)

Definition analyzeEditPatterns (changes : list ChangeEvent.t) : EditPatterns.t :=
  {| EditPatterns.incrementalEdits :=
       Num.len (filter (fun change =>
         (contentLength change <? 50) && negb (ChangeType_eqb (changeType change) delete))
         changes);
     EditPatterns.bulkReplacements :=
       Num.len (filter (fun change =>
         ChangeType_eqb (changeType change) replace && (contentLength change >? 100))
         changes);
     EditPatterns.refinementEdits :=
       Num.len (filter (fun change =>
         (timeSinceLastChange change >? 10000) && (contentLength change <? 100))
         changes);
     EditPatterns.commentAdditions := Num.len (filter isComment changes);
     EditPatterns.variableRenames :=
       Num.len (filter (fun change =>
         ChangeType_eqb (changeType change) replace &&
         (contentLength change <? 50) &&
         match content change with
         | Some (String _ _ as text) => testIdentifier text
         | _ => false
         end) changes);
     EditPatterns.structuralChanges :=
       Num.len (filter (fun change =>
         negb (String.eqb (languageConstruct change) "unknown") &&
         ChangeType_eqb (changeType change) replace) changes) |}.

(** The callback of [incrementalRefinement] at the indices [1, 2, ...]:
    the number of changes after a gap of 5+ seconds that are smaller than
    the change before them. *)
Fixpoint smallerAfterGap (previous : ChangeEvent.t) (rest : list ChangeEvent.t) : nat :=
  match rest with
  | [] => O
  | current :: rest' =>
      Nat.add (if (timeSinceLastChange current >? 5000) &&
                 (contentLength current <? contentLength previous)
               then 1%nat else 0%nat)
              (smallerAfterGap current rest')
  end.

Definition identifyReviewIndicators (changes : list ChangeEvent.t)
  (timeMetrics : TimeMetrics.t) : ReviewIndicators.t :=
  {| ReviewIndicators.multipleEditSessions := TimeMetrics.numberOfEditSessions timeMetrics >? 1;
     ReviewIndicators.pausesForReflection :=
       existsb (fun change => timeSinceLastChange change >? 60000) changes;
     ReviewIndicators.incrementalRefinement :=
       match changes with
       | [] => false
       | first :: rest => Nat.ltb 2 (smallerAfterGap first rest)
       end;
     ReviewIndicators.commentaryAdded := existsb isComment changes;
     ReviewIndicators.codeRestructuring :=
       existsb (fun change =>
         ChangeType_eqb (changeType change) replace &&
         (contentLength change >? 50) &&
         negb (String.eqb (languageConstruct change) "unknown")) changes;
     ReviewIndicators.testingEvidence :=
       existsb (fun change =>
         contentMentions "test" change ||
         contentMentions "spec" change ||
         contentMentions "assert" change) changes |}.

(** *** Scoring *)

(** [if (condition) score += points] *)
Definition addIf (condition : bool) (points score : Q) : Q :=
  if condition then score + points else score.

Definition calculateScoreBreakdown (timeMetrics : TimeMetrics.t)
  (editPatterns : EditPatterns.t) (reviewIndicators : ReviewIndicators.t)
  : ReviewScoreBreakdown.t :=
  let timeInvestmentScore :=
    addIf (TimeMetrics.timeBeforeFirstCommit timeMetrics >? 10 * 60 * 1000) 1
      (addIf (TimeMetrics.totalDevelopmentTime timeMetrics >? 2 * 60 * 60 * 1000) 1
         (addIf (TimeMetrics.totalDevelopmentTime timeMetrics >? 30 * 60 * 1000) 1 0)) in
  let iterationScore :=
    addIf (ReviewIndicators.incrementalRefinement reviewIndicators) 1
      (addIf (EditPatterns.refinementEdits editPatterns >? 2) 1
         (addIf (ReviewIndicators.multipleEditSessions reviewIndicators) 1 0)) in
  let refinementScore :=
    addIf (ReviewIndicators.testingEvidence reviewIndicators) 0.5
      (addIf (ReviewIndicators.codeRestructuring reviewIndicators) 0.5
         (addIf (EditPatterns.variableRenames editPatterns >? 0) 0.5
            (addIf (EditPatterns.commentAdditions editPatterns >? 0) 0.5 0))) in
  let thoughtfulnessScore :=
    addIf (TimeMetrics.longestPauseBetweenEdits timeMetrics >? 5 * 60 * 1000) 1
      (addIf (ReviewIndicators.pausesForReflection reviewIndicators) 1 0) in
  let finalScore :=
    timeInvestmentScore + iterationScore + refinementScore + thoughtfulnessScore in
  {| ReviewScoreBreakdown.timeInvestment := TimeMetrics.totalDevelopmentTime timeMetrics;
     ReviewScoreBreakdown.iterationCount := TimeMetrics.numberOfEditSessions timeMetrics;
     ReviewScoreBreakdown.externalToolUsage := 0;
     ReviewScoreBreakdown.humanRefinement := EditPatterns.refinementEdits editPatterns;
     ReviewScoreBreakdown.timeInvestmentScore := timeInvestmentScore;
     ReviewScoreBreakdown.iterationScore := iterationScore;
     ReviewScoreBreakdown.refinementScore := refinementScore;
     ReviewScoreBreakdown.thoughtfulnessScore := thoughtfulnessScore;
     ReviewScoreBreakdown.finalScore := finalScore |}.

Definition determineQualityLevel (score : Q) : QualityLevel :=
  if score <=? 2 then immediate_commit
  else if score <=? 5 then light_review
  else if score <=? 8 then thorough_review
  else extensive_review.

Definition calculateConfidence (changes : list ChangeEvent.t)
  (scoreBreakdown : ReviewScoreBreakdown.t) : Q :=
  let confidence :=
    addIf ((ReviewScoreBreakdown.finalScore scoreBreakdown <=? 2) ||
           (ReviewScoreBreakdown.finalScore scoreBreakdown >=? 8)) 0.1
      (addIf (Num.len changes >? 50) 0.1
         (addIf (Num.len changes >? 10) 0.1 0.7)) in
  Qmin confidence 1.

(** *** Evidence and patterns *)

(** The loop of [extractEvidence] over the pairs [changes[i - 1]],
    [changes[i]]. *)
Fixpoint pauseAnalysisFrom (previous : ChangeEvent.t) (rest : list ChangeEvent.t)
  : list PauseAnalysisEntry.t :=
  match rest with
  | [] => []
  | current :: rest' =>
      let pause := timestamp current - timestamp previous in
      (if pause >? 30000 then
         [ {| PauseAnalysisEntry.duration := pause;
              PauseAnalysisEntry.context := languageConstruct previous;
              PauseAnalysisEntry.likelyActivity :=
                if pause >? 300000 then "extended-break"
                else if pause >? 60000 then "thinking-reviewing"
                else "brief-pause" |} ]
       else []) ++ pauseAnalysisFrom current rest'
  end.

Definition extractEvidence (changes : list ChangeEvent.t) (_timeMetrics : TimeMetrics.t)
  : ReviewEvidence.t :=
  let editTimeline :=
    map (fun change =>
           {| EditTimelineEntry.timestamp := timestamp change;
              EditTimelineEntry.editType :=
                (ChangeType_toString (changeType change) ++ "-" ++
                 languageConstruct change)%string;
              EditTimelineEntry.significance :=
                if contentLength change >? 100 then 3
                else if contentLength change >? 20 then 2 else 1 |}) changes in
  let pauseAnalysis :=
    match changes with
    | [] => []
    | first :: rest => pauseAnalysisFrom first rest
    end in
  let refinementExamples :=
    firstn 5
      (map (fun change =>
              match content change with
              | Some text => String.substring 0 50 text
              | None => ""
              end)
           (filter (fun change =>
              (timeSinceLastChange change >? 10000) &&
              (contentLength change <? 100) &&
              hasContent change) changes)) in
  {| ReviewEvidence.editTimeline := editTimeline;
     ReviewEvidence.pauseAnalysis := pauseAnalysis;
     ReviewEvidence.refinementExamples := refinementExamples |}.

Definition createPatterns (reviewIndicators : ReviewIndicators.t)
  (timeMetrics : TimeMetrics.t) (_editPatterns : EditPatterns.t) : ReviewPatterns.t :=
  {| ReviewPatterns.immediateCommit :=
       TimeMetrics.timeBeforeFirstCommit timeMetrics <? 5 * 60 * 1000;
     ReviewPatterns.multiSessionReview := ReviewIndicators.multipleEditSessions reviewIndicators;
     ReviewPatterns.crossToolCollaboration := false;
     ReviewPatterns.incrementalRefinement := ReviewIndicators.incrementalRefinement reviewIndicators;
     ReviewPatterns.multipleEditSessions := ReviewIndicators.multipleEditSessions reviewIndicators;
     ReviewPatterns.pausesForReflection := ReviewIndicators.pausesForReflection reviewIndicators;
     ReviewPatterns.commentaryAdded := ReviewIndicators.commentaryAdded reviewIndicators;
     ReviewPatterns.codeRestructuring := ReviewIndicators.codeRestructuring reviewIndicators;
     ReviewPatterns.testingEvidence := ReviewIndicators.testingEvidence reviewIndicators |}.

Definition createEmptyAssessment : ReviewQualityAssessment.t :=
  {| ReviewQualityAssessment.overallScore := 0;
     ReviewQualityAssessment.breakdown :=
       {| ReviewScoreBreakdown.timeInvestment := 0;
          ReviewScoreBreakdown.iterationCount := 0;
          ReviewScoreBreakdown.externalToolUsage := 0;
          ReviewScoreBreakdown.humanRefinement := 0;
          ReviewScoreBreakdown.timeInvestmentScore := 0;
          ReviewScoreBreakdown.iterationScore := 0;
          ReviewScoreBreakdown.refinementScore := 0;
          ReviewScoreBreakdown.thoughtfulnessScore := 0;
          ReviewScoreBreakdown.finalScore := 0 |};
     ReviewQualityAssessment.patterns :=
       {| ReviewPatterns.immediateCommit := true;
          ReviewPatterns.multiSessionReview := false;
          ReviewPatterns.crossToolCollaboration := false;
          ReviewPatterns.incrementalRefinement := false;
          ReviewPatterns.multipleEditSessions := false;
          ReviewPatterns.pausesForReflection := false;
          ReviewPatterns.commentaryAdded := false;
          ReviewPatterns.codeRestructuring := false;
          ReviewPatterns.testingEvidence := false |};
     ReviewQualityAssessment.evidence :=
       {| ReviewEvidence.editTimeline := [];
          ReviewEvidence.pauseAnalysis := [];
          ReviewEvidence.refinementExamples := [] |};
     ReviewQualityAssessment.qualityLevel := immediate_commit;
     ReviewQualityAssessment.confidence := 1.0 |}.

(** *** [assessQuality]

    What the method reads from outside: the identifier drawn by [uuidv4()]
    and the two readings of [Date.now()] (at the start of the analysis and
    when the record is logged). *)
Record Environment := mkEnvironment {
  uuid : string;
  startTime : Q;
  loggedAt : Q
}.

(** The state of the analyzer object. *)
Record State := mkState { currentSessionId : string }.

(** [assessQuality] returns the assessment together with the records it
    hands to [logger.logReviewQualityMetrics], in order.  The promise it
    returns always resolves: the logger catches its own write errors. *)
Definition assessQuality (env : Environment) (this : State)
  (changes : list ChangeEvent.t) (commitInfo : option CommitInfo.t)
  : ReviewQualityAssessment.t * list ReviewQualityMetricsLog.t :=
  if Nat.eqb (List.length changes) 0 then (createEmptyAssessment, [])
  else
    let analysisId := uuid env in
    let timeMetrics := calculateTimeMetrics changes commitInfo in
    let editPatterns := analyzeEditPatterns changes in
    let reviewIndicators := identifyReviewIndicators changes timeMetrics in
    let scoreBreakdown := calculateScoreBreakdown timeMetrics editPatterns reviewIndicators in
    let qualityLevel := determineQualityLevel (ReviewScoreBreakdown.finalScore scoreBreakdown) in
    let confidence := calculateConfidence changes scoreBreakdown in
    let evidence := extractEvidence changes timeMetrics in
    let patterns := createPatterns reviewIndicators timeMetrics editPatterns in
    let logged :=
      {| ReviewQualityMetricsLog.timestamp := startTime env;
         ReviewQualityMetricsLog.sessionId := currentSessionId this;
         ReviewQualityMetricsLog.fileUri :=
           match changes with
           | first :: _ => fileUri first
           | [] => ""
           end;
         ReviewQualityMetricsLog.analysisId := analysisId;
         ReviewQualityMetricsLog.timeMetrics := timeMetrics;
         ReviewQualityMetricsLog.editPatterns := editPatterns;
         ReviewQualityMetricsLog.reviewIndicators := reviewIndicators;
         ReviewQualityMetricsLog.scoreBreakdown := scoreBreakdown;
         ReviewQualityMetricsLog.qualityLevel := qualityLevel;
         ReviewQualityMetricsLog.confidence := confidence;
         ReviewQualityMetricsLog.evidence := evidence;
         ReviewQualityMetricsLog._loggedAt := loggedAt env;
         ReviewQualityMetricsLog._version := "1.0" |} in
    ({| ReviewQualityAssessment.overallScore := ReviewScoreBreakdown.finalScore scoreBreakdown;
        ReviewQualityAssessment.breakdown := scoreBreakdown;
        ReviewQualityAssessment.patterns := patterns;
        ReviewQualityAssessment.evidence := evidence;
        ReviewQualityAssessment.qualityLevel := qualityLevel;
        ReviewQualityAssessment.confidence := confidence |},
     [logged]).

End ReviewAnalyzer.

(** ** [validateAIDetectionConfig]

    The argument is typed [any]: it is a JavaScript value.  Objects are
    finite maps from property names to values (an array is an object whose
    property names are its indices).  Numbers include the special values. *)

Module Validation.
Import stdpp.base stdpp.gmap stdpp.strings.
#[local] Open Scope Q_scope.

Inductive JSNumber :=
| NaN
| Infinity
| NegInfinity
| Finite (q : Q).

#[warnings="-register-all"]
Inductive JSValue :=
| JSUndefined
| JSNull
| JSBoolean (b : bool)
| JSNum (n : JSNumber)
| JSString (s : string)
| JSBigInt (z : Z)
| JSSymbol (description : string)
| JSFunction
| JSObject (properties : gmap string JSValue).

Inductive TypeofResult :=
| typeof_undefined | typeof_object | typeof_boolean | typeof_number
| typeof_string | typeof_bigint | typeof_symbol | typeof_function.

Definition typeof (v : JSValue) : TypeofResult :=
  match v with
  | JSUndefined => typeof_undefined
  | JSNull => typeof_object
  | JSBoolean _ => typeof_boolean
  | JSNum _ => typeof_number
  | JSString _ => typeof_string
  | JSBigInt _ => typeof_bigint
  | JSSymbol _ => typeof_symbol
  | JSFunction => typeof_function
  | JSObject _ => typeof_object
  end.

(** [typeof v !== 'object' || v === null] *)
Definition notAnObject (v : JSValue) : bool :=
  match v with
  | JSObject _ => false
  | _ => true
  end.

(** [object[key]]; the validator reads properties of values it has checked
    to be objects, and a missing property reads as [undefined]. *)
Definition getProperty (object : JSValue) (key : string) : JSValue :=
  match object with
  | JSObject properties =>
      match properties !! key with
      | Some v => v
      | None => JSUndefined
      end
  | _ => JSUndefined
  end.

(** [a < b] on numbers: false as soon as one side is [NaN]. *)
Definition number_ltb (a b : JSNumber) : bool :=
  match a, b with
  | NaN, _ | _, NaN => false
  | Finite x, Finite y => Num.ltb x y
  | NegInfinity, NegInfinity => false
  | NegInfinity, _ => true
  | _, NegInfinity => false
  | Infinity, _ => false
  | Finite _, Infinity => true
  end.

Definition number_gtb (a b : JSNumber) : bool := number_ltb b a.

(** [a >= b] on numbers: false as soon as one side is [NaN]. *)
Definition number_geb (a b : JSNumber) : bool :=
  match a, b with
  | NaN, _ | _, NaN => false
  | Finite x, Finite y => Num.geb x y
  | Infinity, _ => true
  | _, NegInfinity => true
  | NegInfinity, _ => false
  | Finite _, Infinity => false
  end.

Definition requiredWeights : list string :=
  [ "bulkInsertionScore"; "typingSpeedScore"; "pastePatternScore";
    "externalToolScore"; "contentPatternScore"; "timingAnomalyScore" ].

Definition requiredThresholds : list string :=
  [ "bulkInsertionSize"; "fastTypingSpeed"; "pasteTimeThreshold";
    "longPauseThreshold"; "rapidSequenceThreshold" ].

Definition requiredClassification : list string :=
  [ "humanThreshold"; "aiAssistedThreshold"; "aiGeneratedThreshold" ].

(** [typeof v !== 'number' || v < 0 || v > 1] *)
Definition outsideUnitInterval (v : JSValue) : bool :=
  match v with
  | JSNum n => number_ltb n (Finite 0) || number_gtb n (Finite 1)
  | _ => true
  end.

(** [typeof v !== 'number' || v < 0] *)
Definition notNonNegative (v : JSValue) : bool :=
  match v with
  | JSNum n => number_ltb n (Finite 0)
  | _ => true
  end.

(** [human >= aiAssisted || aiAssisted >= aiGenerated]; the three values
    are numbers when this is evaluated. *)
Definition outOfOrder (human aiAssisted aiGenerated : JSValue) : bool :=
  match human, aiAssisted, aiGenerated with
  | JSNum h, JSNum a, JSNum g => number_geb h a || number_geb a g
  | _, _, _ => true
  end.

Definition validateAIDetectionConfig (config : JSValue) : bool :=
  if notAnObject config then false
  else if notAnObject (getProperty config "weights") then false
  else if List.existsb (fun weight =>
            outsideUnitInterval (getProperty (getProperty config "weights") weight))
          requiredWeights then false
  else if notAnObject (getProperty config "thresholds") then false
  else if List.existsb (fun threshold =>
            notNonNegative (getProperty (getProperty config "thresholds") threshold))
          requiredThresholds then false
  else if notAnObject (getProperty config "classification") then false
  else if List.existsb (fun threshold =>
            outsideUnitInterval (getProperty (getProperty config "classification") threshold))
          requiredClassification then false
  else if outOfOrder
            (getProperty (getProperty config "classification") "humanThreshold")
            (getProperty (getProperty config "classification") "aiAssistedThreshold")
            (getProperty (getProperty config "classification") "aiGeneratedThreshold")
  then false
  else true.

(** *** The rules as the specification words them *)

(** a number in [[0,1]] *)
Definition isNumberInUnitInterval (v : JSValue) : Prop :=
  exists q : Q, v = JSNum (Finite q) /\ 0 <= q /\ q <= 1.

(** a number that is at least [0] *)
Definition isNonNegativeNumber (v : JSValue) : Prop :=
  v = JSNum Infinity \/ exists q : Q, v = JSNum (Finite q) /\ 0 <= q.

(** [human < aiAssisted < aiGenerated] for numbers in [[0,1]] *)
Definition strictlyIncreasing (human aiAssisted aiGenerated : JSValue) : Prop :=
  exists h a g : Q,
    human = JSNum (Finite h) /\ aiAssisted = JSNum (Finite a) /\
    aiGenerated = JSNum (Finite g) /\ h < a /\ a < g.

Definition isObject (v : JSValue) : Prop :=
  exists properties, v = JSObject properties.

Definition satisfiesRules (config : JSValue) : Prop :=
  isObject config /\
  isObject (getProperty config "weights") /\
  Forall (fun weight =>
    isNumberInUnitInterval (getProperty (getProperty config "weights") weight))
    requiredWeights /\
  isObject (getProperty config "thresholds") /\
  Forall (fun threshold =>
    isNonNegativeNumber (getProperty (getProperty config "thresholds") threshold))
    requiredThresholds /\
  isObject (getProperty config "classification") /\
  Forall (fun threshold =>
    isNumberInUnitInterval (getProperty (getProperty config "classification") threshold))
    requiredClassification /\
  strictlyIncreasing
    (getProperty (getProperty config "classification") "humanThreshold")
    (getProperty (getProperty config "classification") "aiAssistedThreshold")
    (getProperty (getProperty config "classification") "aiGeneratedThreshold").

(** None of the fourteen numbers that the validator reads is [NaN]. *)
Definition readsNoNaN (config : JSValue) : Prop :=
  Forall (fun weight =>
    getProperty (getProperty config "weights") weight <> JSNum NaN) requiredWeights /\
  Forall (fun threshold =>
    getProperty (getProperty config "thresholds") threshold <> JSNum NaN)
    requiredThresholds /\
  Forall (fun threshold =>
    getProperty (getProperty config "classification") threshold <> JSNum NaN)
    requiredClassification.

(** *** Example values *)

Definition number (q : Q) : JSValue := JSNum (Finite q).

Definition defaultWeights : gmap string JSValue :=
  list_to_map
    [ ("bulkInsertionScore", number 0.25); ("typingSpeedScore", number 0.20);
      ("pastePatternScore", number 0.15); ("externalToolScore", number 0.25);
      ("contentPatternScore", number 0.10); ("timingAnomalyScore", number 0.05) ].

Definition defaultThresholds : gmap string JSValue :=
  list_to_map
    [ ("bulkInsertionSize", number 100); ("fastTypingSpeed", number 300);
      ("pasteTimeThreshold", number 100); ("longPauseThreshold", number 30000);
      ("rapidSequenceThreshold", number 100) ].

Definition defaultClassification : gmap string JSValue :=
  list_to_map
    [ ("humanThreshold", number 0.3); ("aiAssistedThreshold", number 0.6);
      ("aiGeneratedThreshold", number 0.8) ].

Definition configValue (weights thresholds classification : gmap string JSValue) : JSValue :=
  JSObject (<["weights" := JSObject weights]>
           (<["thresholds" := JSObject thresholds]>
           (<["classification" := JSObject classification]> ∅))).

(** [DEFAULT_AI_DETECTION_CONFIG] as a value (without [bucketConfig],
    which the validator does not read). *)
Definition defaultConfigValue : JSValue :=
  configValue defaultWeights defaultThresholds defaultClassification.

(** The default configuration with [weights.bulkInsertionScore] set to
    [NaN], as [parseFloat] of an empty input field yields it. *)
Definition nanWeightConfig : JSValue :=
  configValue (<["bulkInsertionScore" := JSNum NaN]> defaultWeights)
              defaultThresholds defaultClassification.

(** The default configuration with [thresholds.pasteTimeThreshold] set to
    [NaN]. *)
Definition nanThresholdConfig : JSValue :=
  configValue defaultWeights
              (<["pasteTimeThreshold" := JSNum NaN]> defaultThresholds)
              defaultClassification.

End Validation.

(** ** Example data

    [createMockChangeEvent] of the engine's test file, with the fields the
    examples override as arguments. *)

Module Fixtures.

Definition createMockChangeEvent (timestamp : Q) (changeType : ChangeType)
  (contentLength timeSinceLastChange instantTypingSpeed : Q)
  (isCodeBlock isComment : bool) (languageConstruct : string)
  (externalToolSignature : option ExternalToolSignature.t) : ChangeEvent.t :=
  {| ChangeEvent.timestamp := timestamp;
     ChangeEvent.sessionId := "test-session";
     ChangeEvent.fileUri := "test://file.ts";
     ChangeEvent.eventId := "test-event";
     ChangeEvent.changeType := changeType;
     ChangeEvent.position := {| Position.line := 1; Position.character := 0 |};
     ChangeEvent.content := None;
     ChangeEvent.contentLength := contentLength;
     ChangeEvent.timeSinceLastChange := timeSinceLastChange;
     ChangeEvent.timeSinceSessionStart := 5000;
     ChangeEvent.timeSinceFileOpen := 10000;
     ChangeEvent.source := live;
     ChangeEvent.vsCodeActive := true;
     ChangeEvent.cursorPosition := {| Position.line := 1; Position.character := 0 |};
     ChangeEvent.selectionRange := None;
     ChangeEvent.instantTypingSpeed := instantTypingSpeed;
     ChangeEvent.rollingTypingSpeed := 140;
     ChangeEvent.burstDetected := false;
     ChangeEvent.pauseBeforeChange := 100;
     ChangeEvent.isCodeBlock := isCodeBlock;
     ChangeEvent.isComment := isComment;
     ChangeEvent.isWhitespace := false;
     ChangeEvent.languageConstruct := languageConstruct;
     ChangeEvent.indentationLevel := 0;
     ChangeEvent.externalToolSignature := externalToolSignature |}.

(** A keystroke: one character typed at 120 characters per minute. *)
Definition keystroke (timestamp : Q) : ChangeEvent.t :=
  createMockChangeEvent timestamp insert 1 150 120 false false "unknown" None.

(** A block of 500 characters that arrives 10 ms after the last change:
    a commented code block inside a function, with no typing speed. *)
Definition pastedBlock (timestamp : Q) : ChangeEvent.t :=
  createMockChangeEvent timestamp insert 500 10 0 true true "function" None.

(** An edit that carries a detected signature of an external tool. *)
Definition toolEdit (timestamp : Q) : ChangeEvent.t :=
  createMockChangeEvent timestamp replace 250 400 0 false false "unknown"
    (Some {| ExternalToolSignature.detected := true;
             ExternalToolSignature.toolType := copilot;
             ExternalToolSignature.confidence := 0.9;
             ExternalToolSignature.indicators := ["large-block"] |}).

(** The default configuration with other weights: they sum to [1.3]. *)
Definition driftConfig : AIDetectionConfig.t :=
  {| AIDetectionConfig.weights :=
       {| Weights.bulkInsertionScore := 0.5;
          Weights.typingSpeedScore := 0;
          Weights.pastePatternScore := 0.5;
          Weights.externalToolScore := 0;
          Weights.contentPatternScore := 0.3;
          Weights.timingAnomalyScore := 0 |};
     AIDetectionConfig.thresholds :=
       AIDetectionConfig.thresholds DEFAULT_AI_DETECTION_CONFIG;
     AIDetectionConfig.classification :=
       AIDetectionConfig.classification DEFAULT_AI_DETECTION_CONFIG;
     AIDetectionConfig.bucketConfig :=
       AIDetectionConfig.bucketConfig DEFAULT_AI_DETECTION_CONFIG |}.

(** The default configuration with the weight of bulk insertion raised
    from [0.25] to [0.5]. *)
Definition raisedBulkConfig : AIDetectionConfig.t :=
  {| AIDetectionConfig.weights :=
       {| Weights.bulkInsertionScore := 0.5;
          Weights.typingSpeedScore := 0.20;
          Weights.pastePatternScore := 0.15;
          Weights.externalToolScore := 0.25;
          Weights.contentPatternScore := 0.10;
          Weights.timingAnomalyScore := 0.05 |};
     AIDetectionConfig.thresholds :=
       AIDetectionConfig.thresholds DEFAULT_AI_DETECTION_CONFIG;
     AIDetectionConfig.classification :=
       AIDetectionConfig.classification DEFAULT_AI_DETECTION_CONFIG;
     AIDetectionConfig.bucketConfig :=
       AIDetectionConfig.bucketConfig DEFAULT_AI_DETECTION_CONFIG |}.

(** Twenty keystrokes, 150 ms apart. *)
Definition twentyKeystrokes : list ChangeEvent.t :=
  map (fun i => keystroke (inject_Z (Z.of_nat i) * 150)) (seq 0 20).

(** A review session: an edit, a comment added after two minutes, and a
    replacement forty minutes later. *)
Definition reviewSession : list ChangeEvent.t :=
  [ createMockChangeEvent 0 insert 30 1000 150 false false "function" None;
    createMockChangeEvent 120000 insert 20 120000 100 false true "unknown" None;
    createMockChangeEvent 2520000 replace 60 2400000 90 false false "function" None ].

(** One keystroke followed by two pasted blocks. *)
Definition mixedSession : list ChangeEvent.t :=
  [keystroke 0; pastedBlock 100; pastedBlock 200].

End Fixtures.

(** ** The rest of [BucketAnalyzer] *)

Module BucketSummary.
Record t := mk {
  totalBuckets : Q;
  activeBuckets : Q;
  emptyBuckets : Q;
  averageAIProbability : Q;
  maxAIProbability : Q;
  timeSpanMs : Q
}.
End BucketSummary.

Module BucketAnalysis.
Import ChangeEvent.

(** [Math.max(...values)] on an array known to be non-empty *)
Definition maxOf (first : Q) (rest : list Q) : Q := fold_left Qmax rest first.

(** [values.filter((p): p is number => p !== null)] *)
Definition nonNull (values : list (option Q)) : list Q :=
  flat_map (fun value => match value with Some p => [p] | None => [] end) values.

(** [extractHeuristicScores]: the scores of a bucket are recomputed from
    [attribution.timeline.vsCodeEvents] with constants written in the
    method (100, 300, 50, 30000), not with the engine's configuration. *)
Definition extractHeuristicScores (attribution : AIAttribution.t) : HeuristicScores.t :=
  let events := AITimeline.vsCodeEvents (AIAttribution.timeline attribution) in
  if Nat.eqb (List.length events) 0 then
    {| HeuristicScores.bulkInsertionScore := 0;
       HeuristicScores.typingSpeedScore := 0;
       HeuristicScores.pastePatternScore := 0;
       HeuristicScores.externalToolScore := 0;
       HeuristicScores.contentPatternScore := 0;
       HeuristicScores.timingAnomalyScore := 0 |}
  else
    let bulkChanges := filter (fun e => contentLength e >? 100) events in
    let bulkInsertionScore := Qmin (Num.len bulkChanges / Num.len events) 1 in
    let typingSpeeds :=
      map instantTypingSpeed (filter (fun e => instantTypingSpeed e >? 0) events) in
    let avgSpeed :=
      if Nat.ltb 0 (List.length typingSpeeds)
      then Num.sumBy (fun b => b) typingSpeeds / Num.len typingSpeeds
      else 0 in
    let typingSpeedScore := Qmin (avgSpeed / 300) 1 in
    let pastePatterns := filter (fun e =>
      (timeSinceLastChange e <? 100) && (contentLength e >? 50)) events in
    let pastePatternScore := Qmin (Num.len pastePatterns / Qmax (Num.len events) 1) 1 in
    let externalEvents := filter signatureDetected events in
    let externalToolScore :=
      if Nat.ltb 0 (List.length externalEvents)
      then Num.sumBy signatureConfidence externalEvents / Num.len externalEvents
      else 0 in
    let codeBlocks := filter isCodeBlock events in
    let comments := filter isComment events in
    let contentPatternScore :=
      (Num.len codeBlocks * 0.6 + Num.len comments * 0.4) / Qmax (Num.len events) 1 in
    let longPauses := filter (fun e => timeSinceLastChange e >? 30000) events in
    let rapidSequences := filter (fun e => timeSinceLastChange e <? 100) events in
    let timingAnomalyScore :=
      (Num.len longPauses + Num.len rapidSequences) / Qmax (Num.len events) 1 in
    {| HeuristicScores.bulkInsertionScore := Qmin bulkInsertionScore 1;
       HeuristicScores.typingSpeedScore := Qmin typingSpeedScore 1;
       HeuristicScores.pastePatternScore := Qmin pastePatternScore 1;
       HeuristicScores.externalToolScore := Qmin externalToolScore 1;
       HeuristicScores.contentPatternScore := Qmin contentPatternScore 1;
       HeuristicScores.timingAnomalyScore := Qmin timingAnomalyScore 1 |}.

Section WithEngine.
Context {fmt : NumberFormat}.

(** [aiEngine]: the engine, that is, its configuration. *)
Variable aiEngine : AIDetectionConfig.t.

Definition analyzeBucket (bucket : TimeBucket.t) : TimeBucket.t :=
  if TimeBucket.isEmpty bucket then bucket
  else
    let analysis := AIDetectionEngine.analyze aiEngine (TimeBucket.events bucket) in
    {| TimeBucket.startTime := TimeBucket.startTime bucket;
       TimeBucket.endTime := TimeBucket.endTime bucket;
       TimeBucket.events := TimeBucket.events bucket;
       TimeBucket.aiProbability := Some (AIAttribution.aiProbability analysis);
       TimeBucket.heuristicScores := Some (extractHeuristicScores analysis);
       TimeBucket.eventCount := TimeBucket.eventCount bucket;
       TimeBucket.isEmpty := TimeBucket.isEmpty bucket;
       TimeBucket.attribution := Some analysis |}.

Definition analyzeBuckets (buckets : list TimeBucket.t) : list TimeBucket.t :=
  map analyzeBucket buckets.

(** [None]: the loop of [createBuckets] has not ended within [fuel]
    iterations. *)
Definition createAndAnalyzeBuckets (fuel : nat) (events : list ChangeEvent.t)
  (config : BucketConfig.t) : option (list TimeBucket.t) :=
  option_map analyzeBuckets (BucketAnalyzer.createBuckets fuel events config).

End WithEngine.

Definition summarizeBuckets (buckets : list TimeBucket.t) : BucketSummary.t :=
  let activeBuckets := filter (fun b => negb (TimeBucket.isEmpty b)) buckets in
  let aiProbabilities := nonNull (map TimeBucket.aiProbability activeBuckets) in
  let averageAIProbability :=
    if Nat.ltb 0 (List.length aiProbabilities)
    then Num.sumBy (fun p => p) aiProbabilities / Num.len aiProbabilities
    else 0 in
  let maxAIProbability :=
    match aiProbabilities with
    | p :: rest => maxOf p rest
    | [] => 0
    end in
  let timeSpanMs :=
    match buckets with
    | first :: _ => TimeBucket.endTime (List.last buckets first) - TimeBucket.startTime first
    | [] => 0
    end in
  {| BucketSummary.totalBuckets := Num.len buckets;
     BucketSummary.activeBuckets := Num.len activeBuckets;
     BucketSummary.emptyBuckets := Num.len buckets - Num.len activeBuckets;
     BucketSummary.averageAIProbability := averageAIProbability;
     BucketSummary.maxAIProbability := maxAIProbability;
     BucketSummary.timeSpanMs := timeSpanMs |}.

Definition filterBucketsByTimeRange (buckets : list TimeBucket.t) (startTime endTime : Q)
  : list TimeBucket.t :=
  filter (fun bucket =>
    (TimeBucket.startTime bucket >=? startTime) && (TimeBucket.endTime bucket <=? endTime))
    buckets.

Definition filterBucketsByAIProbability (buckets : list TimeBucket.t) (threshold : Q)
  : list TimeBucket.t :=
  filter (fun bucket =>
    match TimeBucket.aiProbability bucket with
    | Some p => p >=? threshold
    | None => false
    end) buckets.

End BucketAnalysis.

(** ** The event utilities of [utils/validation.ts] *)

Module EventUtilities.
Import ChangeEvent.

(** [{ ...event, content: undefined }] *)
Definition sanitizeChangeEvent (event : ChangeEvent.t) : ChangeEvent.t :=
  {| timestamp := timestamp event;
     sessionId := sessionId event;
     fileUri := fileUri event;
     eventId := eventId event;
     changeType := changeType event;
     position := position event;
     content := None;
     contentLength := contentLength event;
     timeSinceLastChange := timeSinceLastChange event;
     timeSinceSessionStart := timeSinceSessionStart event;
     timeSinceFileOpen := timeSinceFileOpen event;
     source := source event;
     vsCodeActive := vsCodeActive event;
     cursorPosition := cursorPosition event;
     selectionRange := selectionRange event;
     instantTypingSpeed := instantTypingSpeed event;
     rollingTypingSpeed := rollingTypingSpeed event;
     burstDetected := burstDetected event;
     pauseBeforeChange := pauseBeforeChange event;
     isCodeBlock := isCodeBlock event;
     isComment := isComment event;
     isWhitespace := isWhitespace event;
     languageConstruct := languageConstruct event;
     indentationLevel := indentationLevel event;
     externalToolSignature := externalToolSignature event |}.

Definition sanitizeChangeEvents (events : list ChangeEvent.t) : list ChangeEvent.t :=
  map sanitizeChangeEvent events.

Definition filterChangeEventsByTimeRange (events : list ChangeEvent.t)
  (startTime endTime : Q) : list ChangeEvent.t :=
  filter (fun event =>
    (timestamp event >=? startTime) && (timestamp event <=? endTime)) events.

Definition filterChangeEventsByFile (events : list ChangeEvent.t) (uri : string)
  : list ChangeEvent.t :=
  filter (fun event => String.eqb (fileUri event) uri) events.

(** *** [Map<string, EnhancedChangeEvent[]>]

    A [Map] keeps its keys in insertion order: an association list, where
    [set] on a key that is present replaces the value in place and [set]
    on a new key appends. *)

Fixpoint mapGet {V : Type} (key : string) (entries : list (string * V)) : option V :=
  match entries with
  | [] => None
  | (k, v) :: rest => if String.eqb k key then Some v else mapGet key rest
  end.

Fixpoint mapSet {V : Type} (key : string) (value : V) (entries : list (string * V))
  : list (string * V) :=
  match entries with
  | [] => [(key, value)]
  | (k, v) :: rest =>
      if String.eqb k key then (k, value) :: rest
      else (k, v) :: mapSet key value rest
  end.

(** The body of the loop of both grouping functions:
    [existing = groups.get(key) || []; existing.push(event);
     groups.set(key, existing)]. *)
Definition addToGroup (keyOf : ChangeEvent.t -> string)
  (groups : list (string * list ChangeEvent.t)) (event : ChangeEvent.t)
  : list (string * list ChangeEvent.t) :=
  let existing :=
    match mapGet (keyOf event) groups with
    | Some group => group
    | None => []
    end in
  mapSet (keyOf event) (existing ++ [event]) groups.

Definition groupChangeEventsBySession (events : list ChangeEvent.t)
  : list (string * list ChangeEvent.t) :=
  fold_left (addToGroup sessionId) events [].

Definition groupChangeEventsByFile (events : list ChangeEvent.t)
  : list (string * list ChangeEvent.t) :=
  fold_left (addToGroup fileUri) events [].

End EventUtilities.

(** ** Reading the change log: [MetricsLogger.getChangeEventsForFile] and
    [ReviewAnalyzer.analyzeFileHistory] *)

Module FileHistory.
Import ChangeEvent.

(** [events.sort((a, b) => a.timestamp - b.timestamp)]: the sort is
    stable.  [insertByTimestamp] puts an event in front of a sorted list
    of events that came after it in the array. *)
Fixpoint insertByTimestamp (event : ChangeEvent.t) (sorted : list ChangeEvent.t)
  : list ChangeEvent.t :=
  match sorted with
  | [] => [event]
  | next :: rest =>
      if timestamp event <=? timestamp next then event :: sorted
      else next :: insertByTimestamp event rest
  end.

Definition sortByTimestamp (events : list ChangeEvent.t) : list ChangeEvent.t :=
  fold_right insertByTimestamp [] events.

(** [!fromTime || event.timestamp >= fromTime]: a missing [fromTime] and
    the number [0] are both falsy. *)
Definition fromTimeAllows (fromTime : option Q) (event : ChangeEvent.t) : bool :=
  match fromTime with
  | None => true
  | Some t => Qeq_bool t 0 || (timestamp event >=? t)
  end.

(** [logged]: what [readLogFile('change-events.jsonl')] yields, [None]
    when reading throws (then the method logs the error and returns []). *)
Definition getChangeEventsForFile (logged : option (list ChangeEvent.t))
  (uri : string) (fromTime : option Q) : list ChangeEvent.t :=
  match logged with
  | Some events =>
      sortByTimestamp
        (filter (fromTimeAllows fromTime)
           (filter (fun event => String.eqb (fileUri event) uri) events))
  | None => []
  end.

(** [analyzeFileHistory]: the assessment of the logged changes of one
    file, without commit information. *)
Definition analyzeFileHistory (env : ReviewAnalyzer.Environment) (this : ReviewAnalyzer.State)
  (logged : option (list ChangeEvent.t)) (uri : string) (fromTime : option Q)
  : ReviewQualityAssessment.t * list ReviewQualityMetricsLog.t :=
  ReviewAnalyzer.assessQuality env this (getChangeEventsForFile logged uri fromTime) None.

End FileHistory.

(** ** The string values of the enumerations *)

Module EnumValues.

Definition ChangeType_value (c : ChangeType) : Validation.JSValue :=
  Validation.JSString
    match c with insert => "insert" | delete => "delete" | replace => "replace" end.

Definition EventSource_value (s : EventSource) : Validation.JSValue :=
  Validation.JSString
    match s with live => "live" | history => "history" | external => "external" end.

Definition ToolType_value (t : ToolType) : Validation.JSValue :=
  Validation.JSString
    match t with
    | claude_code => "claude-code" | copilot => "copilot"
    | cursor => "cursor" | unknown_tool => "unknown"
    end.

Definition AggregationMethod_value (m : AggregationMethod) : Validation.JSValue :=
  Validation.JSString
    match m with average => "average" | maximum => "max" | weighted => "weighted" end.

End EnumValues.

(** ** [validateChangeEvent]

    The argument is typed [any].  The validator is one chain of [&&]; it
    reads [event.position.line] after checking only that
    [typeof event.position] is ['object'], which [null] satisfies, so the
    evaluation can end in a [TypeError] instead of a boolean. *)

Module EventValidation.
Import stdpp.base stdpp.gmap stdpp.strings.
Import Validation EnumValues.
#[local] Open Scope Q_scope.

Inductive Completion (A : Type) :=
| Returns (value : A)
| Throws (error : string).
Arguments Returns {A} value.
Arguments Throws {A} error.

(** [left && right] on booleans, [right] evaluated only when [left] is
    [true]. *)
Definition andAlso (left right : Completion bool) : Completion bool :=
  match left with
  | Returns true => right
  | _ => left
  end.

Definition TypeofResult_eqb (a b : TypeofResult) : bool :=
  match a, b with
  | typeof_undefined, typeof_undefined | typeof_object, typeof_object
  | typeof_boolean, typeof_boolean | typeof_number, typeof_number
  | typeof_string, typeof_string | typeof_bigint, typeof_bigint
  | typeof_symbol, typeof_symbol | typeof_function, typeof_function => true
  | _, _ => false
  end.

(** [typeof v === t] *)
Definition hasType (t : TypeofResult) (v : JSValue) : bool :=
  TypeofResult_eqb (typeof v) t.

(** [v !== null] *)
Definition notNull (v : JSValue) : bool :=
  match v with
  | JSNull => false
  | _ => true
  end.

(** [allowed.includes(v)] for an array of strings *)
Definition includes (allowed : list string) (v : JSValue) : bool :=
  match v with
  | JSString s => List.existsb (String.eqb s) allowed
  | _ => false
  end.

(** [object.key] where [object] may be [null] or [undefined]: reading a
    property of those throws. *)
Definition readProperty (object : JSValue) (key : string) : Completion JSValue :=
  match object with
  | JSNull | JSUndefined =>
      Throws "TypeError: Cannot read properties of null or undefined"
  | _ => Returns (getProperty object key)
  end.

(** [typeof object.key === t] *)
Definition propertyHasType (t : TypeofResult) (object : JSValue) (key : string)
  : Completion bool :=
  match readProperty object key with
  | Returns v => Returns (hasType t v)
  | Throws error => Throws error
  end.

(** The conjuncts of the validator after [typeof event === 'object' &&
    event !== null], in the order of the source.  [event] is an object
    there, so reading its properties does not throw. *)
Definition fieldChecks (event : JSValue) : list (Completion bool) :=
  [ Returns (hasType typeof_number (getProperty event "timestamp"));
    Returns (hasType typeof_string (getProperty event "sessionId"));
    Returns (hasType typeof_string (getProperty event "fileUri"));
    Returns (hasType typeof_string (getProperty event "eventId"));
    Returns (includes ["insert"; "delete"; "replace"] (getProperty event "changeType"));
    Returns (hasType typeof_object (getProperty event "position"));
    propertyHasType typeof_number (getProperty event "position") "line";
    propertyHasType typeof_number (getProperty event "position") "character";
    Returns (hasType typeof_number (getProperty event "contentLength"));
    Returns (hasType typeof_number (getProperty event "timeSinceLastChange"));
    Returns (hasType typeof_number (getProperty event "timeSinceSessionStart"));
    Returns (hasType typeof_number (getProperty event "timeSinceFileOpen"));
    Returns (includes ["live"; "history"; "external"] (getProperty event "source"));
    Returns (hasType typeof_boolean (getProperty event "vsCodeActive"));
    Returns (hasType typeof_object (getProperty event "cursorPosition"));
    Returns (hasType typeof_number (getProperty event "instantTypingSpeed"));
    Returns (hasType typeof_number (getProperty event "rollingTypingSpeed"));
    Returns (hasType typeof_boolean (getProperty event "burstDetected"));
    Returns (hasType typeof_number (getProperty event "pauseBeforeChange"));
    Returns (hasType typeof_boolean (getProperty event "isCodeBlock"));
    Returns (hasType typeof_boolean (getProperty event "isComment"));
    Returns (hasType typeof_boolean (getProperty event "isWhitespace"));
    Returns (hasType typeof_string (getProperty event "languageConstruct"));
    Returns (hasType typeof_number (getProperty event "indentationLevel")) ].

Definition validateChangeEvent (event : JSValue) : Completion bool :=
  andAlso (Returns (hasType typeof_object event))
    (andAlso (Returns (notNull event))
       (List.fold_right andAlso (Returns true) (fieldChecks event))).

(** *** Typed events as values *)

Definition Position_value (p : Position.t) : JSValue :=
  JSObject (list_to_map
    [ ("line", JSNum (Finite (Position.line p)));
      ("character", JSNum (Finite (Position.character p))) ]).

Definition SelectionRange_value (r : SelectionRange.t) : JSValue :=
  JSObject (list_to_map
    [ ("start", Position_value (SelectionRange.start r));
      ("end", Position_value (SelectionRange.end_ r)) ]).

(** An array: the object whose property names are the indices and
    [length]. *)
Definition array_value (items : list JSValue) : JSValue :=
  JSObject (<["length" := JSNum (Finite (Num.len items))]>
    (list_to_map
       (List.map (fun entry : nat * JSValue =>
                    (NilZero.string_of_uint (Nat.to_uint (fst entry)), snd entry))
                 (List.combine (List.seq 0 (List.length items)) items)))).

Definition ExternalToolSignature_value (s : ExternalToolSignature.t) : JSValue :=
  JSObject (list_to_map
    [ ("detected", JSBoolean (ExternalToolSignature.detected s));
      ("toolType", ToolType_value (ExternalToolSignature.toolType s));
      ("confidence", JSNum (Finite (ExternalToolSignature.confidence s)));
      ("indicators",
       array_value (List.map JSString (ExternalToolSignature.indicators s))) ]).

(** An optional property: absent when the field is [undefined]. *)
Definition optionalProperty {A : Type} (key : string) (encode : A -> JSValue)
  (field : option A) (properties : gmap string JSValue) : gmap string JSValue :=
  match field with
  | Some x => <[key := encode x]> properties
  | None => properties
  end.

Definition ChangeEvent_value (e : ChangeEvent.t) : JSValue :=
  JSObject
    (optionalProperty "content" JSString (ChangeEvent.content e)
    (optionalProperty "selectionRange" SelectionRange_value (ChangeEvent.selectionRange e)
    (optionalProperty "externalToolSignature" ExternalToolSignature_value
       (ChangeEvent.externalToolSignature e)
    (list_to_map
      [ ("timestamp", JSNum (Finite (ChangeEvent.timestamp e)));
        ("sessionId", JSString (ChangeEvent.sessionId e));
        ("fileUri", JSString (ChangeEvent.fileUri e));
        ("eventId", JSString (ChangeEvent.eventId e));
        ("changeType", ChangeType_value (ChangeEvent.changeType e));
        ("position", Position_value (ChangeEvent.position e));
        ("contentLength", JSNum (Finite (ChangeEvent.contentLength e)));
        ("timeSinceLastChange", JSNum (Finite (ChangeEvent.timeSinceLastChange e)));
        ("timeSinceSessionStart", JSNum (Finite (ChangeEvent.timeSinceSessionStart e)));
        ("timeSinceFileOpen", JSNum (Finite (ChangeEvent.timeSinceFileOpen e)));
        ("source", EventSource_value (ChangeEvent.source e));
        ("vsCodeActive", JSBoolean (ChangeEvent.vsCodeActive e));
        ("cursorPosition", Position_value (ChangeEvent.cursorPosition e));
        ("instantTypingSpeed", JSNum (Finite (ChangeEvent.instantTypingSpeed e)));
        ("rollingTypingSpeed", JSNum (Finite (ChangeEvent.rollingTypingSpeed e)));
        ("burstDetected", JSBoolean (ChangeEvent.burstDetected e));
        ("pauseBeforeChange", JSNum (Finite (ChangeEvent.pauseBeforeChange e)));
        ("isCodeBlock", JSBoolean (ChangeEvent.isCodeBlock e));
        ("isComment", JSBoolean (ChangeEvent.isComment e));
        ("isWhitespace", JSBoolean (ChangeEvent.isWhitespace e));
        ("languageConstruct", JSString (ChangeEvent.languageConstruct e));
        ("indentationLevel", JSNum (Finite (ChangeEvent.indentationLevel e))) ])))).

(** [{ ...object, [key]: value }] *)
Definition withProperty (key : string) (value : JSValue) (object : JSValue) : JSValue :=
  match object with
  | JSObject properties => JSObject (<[key := value]> properties)
  | other => other
  end.

(** A typed configuration as a value. *)
Definition AIDetectionConfig_value (config : AIDetectionConfig.t) : JSValue :=
  let weights := AIDetectionConfig.weights config in
  let thresholds := AIDetectionConfig.thresholds config in
  let classification := AIDetectionConfig.classification config in
  let bucketConfig := AIDetectionConfig.bucketConfig config in
  let num (q : Q) := JSNum (Finite q) in
  JSObject (list_to_map
    [ ("weights", JSObject (list_to_map
         [ ("bulkInsertionScore", num (Weights.bulkInsertionScore weights));
           ("typingSpeedScore", num (Weights.typingSpeedScore weights));
           ("pastePatternScore", num (Weights.pastePatternScore weights));
           ("externalToolScore", num (Weights.externalToolScore weights));
           ("contentPatternScore", num (Weights.contentPatternScore weights));
           ("timingAnomalyScore", num (Weights.timingAnomalyScore weights)) ]));
      ("thresholds", JSObject (list_to_map
         [ ("bulkInsertionSize", num (Thresholds.bulkInsertionSize thresholds));
           ("fastTypingSpeed", num (Thresholds.fastTypingSpeed thresholds));
           ("pasteTimeThreshold", num (Thresholds.pasteTimeThreshold thresholds));
           ("longPauseThreshold", num (Thresholds.longPauseThreshold thresholds));
           ("rapidSequenceThreshold", num (Thresholds.rapidSequenceThreshold thresholds)) ]));
      ("classification", JSObject (list_to_map
         [ ("humanThreshold", num (Classification.humanThreshold classification));
           ("aiAssistedThreshold", num (Classification.aiAssistedThreshold classification));
           ("aiGeneratedThreshold",
            num (Classification.aiGeneratedThreshold classification)) ]));
      ("bucketConfig", JSObject (list_to_map
         [ ("intervalMinutes", num (BucketConfig.intervalMinutes bucketConfig));
           ("aggregationMethod",
            AggregationMethod_value (BucketConfig.aggregationMethod bucketConfig));
           ("minEventsPerBucket", num (BucketConfig.minEventsPerBucket bucketConfig)) ])) ]).

(** The rules of the validator on a typed configuration. *)
Definition validConfig (config : AIDetectionConfig.t) : Prop :=
  (forall heuristic,
     0 <= Weights.get (AIDetectionConfig.weights config) heuristic /\
     Weights.get (AIDetectionConfig.weights config) heuristic <= 1) /\
  (let thresholds := AIDetectionConfig.thresholds config in
   0 <= Thresholds.bulkInsertionSize thresholds /\
   0 <= Thresholds.fastTypingSpeed thresholds /\
   0 <= Thresholds.pasteTimeThreshold thresholds /\
   0 <= Thresholds.longPauseThreshold thresholds /\
   0 <= Thresholds.rapidSequenceThreshold thresholds) /\
  (let classification := AIDetectionConfig.classification config in
   0 <= Classification.humanThreshold classification /\
   Classification.humanThreshold classification <
     Classification.aiAssistedThreshold classification /\
   Classification.aiAssistedThreshold classification <
     Classification.aiGeneratedThreshold classification /\
   Classification.aiGeneratedThreshold classification <= 1).

End EventValidation.

(** ** More example data *)

Module Samples.

(** [{ ...event, content: text }] *)
Definition withContent (text : string) (event : ChangeEvent.t) : ChangeEvent.t :=
  {| ChangeEvent.timestamp := ChangeEvent.timestamp event;
     ChangeEvent.sessionId := ChangeEvent.sessionId event;
     ChangeEvent.fileUri := ChangeEvent.fileUri event;
     ChangeEvent.eventId := ChangeEvent.eventId event;
     ChangeEvent.changeType := ChangeEvent.changeType event;
     ChangeEvent.position := ChangeEvent.position event;
     ChangeEvent.content := Some text;
     ChangeEvent.contentLength := ChangeEvent.contentLength event;
     ChangeEvent.timeSinceLastChange := ChangeEvent.timeSinceLastChange event;
     ChangeEvent.timeSinceSessionStart := ChangeEvent.timeSinceSessionStart event;
     ChangeEvent.timeSinceFileOpen := ChangeEvent.timeSinceFileOpen event;
     ChangeEvent.source := ChangeEvent.source event;
     ChangeEvent.vsCodeActive := ChangeEvent.vsCodeActive event;
     ChangeEvent.cursorPosition := ChangeEvent.cursorPosition event;
     ChangeEvent.selectionRange := ChangeEvent.selectionRange event;
     ChangeEvent.instantTypingSpeed := ChangeEvent.instantTypingSpeed event;
     ChangeEvent.rollingTypingSpeed := ChangeEvent.rollingTypingSpeed event;
     ChangeEvent.burstDetected := ChangeEvent.burstDetected event;
     ChangeEvent.pauseBeforeChange := ChangeEvent.pauseBeforeChange event;
     ChangeEvent.isCodeBlock := ChangeEvent.isCodeBlock event;
     ChangeEvent.isComment := ChangeEvent.isComment event;
     ChangeEvent.isWhitespace := ChangeEvent.isWhitespace event;
     ChangeEvent.languageConstruct := ChangeEvent.languageConstruct event;
     ChangeEvent.indentationLevel := ChangeEvent.indentationLevel event;
     ChangeEvent.externalToolSignature := ChangeEvent.externalToolSignature event |}.

(** A pasted block that carries its text. *)
Definition pastedText : list ChangeEvent.t :=
  [ withContent "function add(a, b) { return a + b; }" (Fixtures.pastedBlock 0) ].

(** A keystroke, two pasted blocks a hundred seconds later, and a
    keystroke after two thousand seconds. *)
Definition halfHour : list ChangeEvent.t :=
  [ Fixtures.keystroke 0; Fixtures.pastedBlock 100000; Fixtures.pastedBlock 100010;
    Fixtures.keystroke 2000000 ].

(** The three buckets of a quarter of an hour that [createBuckets] makes
    of [halfHour]. *)
Definition halfHourBuckets : list TimeBucket.t :=
  map (BucketAnalyzer.bucketAt halfHour DEFAULT_BUCKET_CONFIG (15 * 60 * 1000))
      [0; 900000; 1800000].

(** A bucket configuration with an interval of zero minutes. *)
Definition zeroInterval : BucketConfig.t :=
  {| BucketConfig.intervalMinutes := 0;
     BucketConfig.aggregationMethod := average;
     BucketConfig.minEventsPerBucket := 1 |}.

End Samples.

(** ** Numbers as the engine computes them

    A JavaScript number is an IEEE 754 binary64 value, and every
    arithmetic operation rounds to the nearest one.  The classification of
    the engine compares a sum of rounded products with its cut-offs, so it
    is modelled on these values, with the kernel's primitive [float] (the
    same format, rounding to nearest, ties to even). *)

Module Double.
Import PrimFloat SpecFloat FloatOps.

(** An integer as a number (the nearest one when it is not exact). *)
Definition ofZ (z : Z) : float := SF2Prim (binary_normalize prec emax z 0 false).

(** A number written as a rational: a decimal literal of the source
    ([0.3] is the double nearest to 3/10) or the field of a typed record.
    With numerator and denominator below [2^53] both are exact and the
    quotient is rounded once: the result is the double nearest to the
    rational. *)
Definition ofQ (q : Q) : float := div (ofZ (Qnum q)) (ofZ (Zpos (Qden q))).
Arguments ofQ q%_Q.

(** [arr.length] *)
Definition len {A : Type} (l : list A) : float := ofZ (Z.of_nat (List.length l)).

(** [a > b] and [a >= b] *)
Definition gtb (a b : float) : bool := ltb b a.
Definition geb (a b : float) : bool := leb b a.

(** [Math.min(a, b)]: [NaN] when an argument is [NaN]; [-0] is smaller
    than [+0]. *)
Definition min (a b : float) : float :=
  if is_nan a || is_nan b then nan
  else if ltb a b then a
  else if ltb b a then b
  else if get_sign a then a else b.

(** [Math.max(a, b)] *)
Definition max (a b : float) : float :=
  if is_nan a || is_nan b then nan
  else if ltb a b then b
  else if ltb b a then a
  else if get_sign a then b else a.

(** [x || 0]: [0], [-0] and [NaN] are falsy. *)
Definition orZero (x : float) : float := if is_nan x || is_zero x then zero else x.

(** [arr.reduce((sum, x) => sum + f(x), 0)] *)
Definition sumBy {A : Type} (f : A -> float) (l : list A) : float :=
  fold_left (fun sum x => add sum (f x)) l zero.

End Double.

Declare Scope double_scope.
Delimit Scope double_scope with double.
Infix "+" := PrimFloat.add : double_scope.
Infix "-" := PrimFloat.sub : double_scope.
Infix "*" := PrimFloat.mul : double_scope.
Infix "/" := PrimFloat.div : double_scope.
Infix "<?" := PrimFloat.ltb (at level 70, no associativity) : double_scope.
Infix "<=?" := PrimFloat.leb (at level 70, no associativity) : double_scope.
Infix ">?" := Double.gtb (at level 70, no associativity) : double_scope.
Infix ">=?" := Double.geb (at level 70, no associativity) : double_scope.
Notation "# q" := (Double.ofQ q%Q) (at level 9, q at level 9, format "# q") : double_scope.


(** The three fields of [AIAttribution] that the classification computes
    are doubles here; evidence and timeline hold no computed number. *)
Module DoubleAttribution.
Record t := mk {
  source : AttributionSource;
  confidence : PrimFloat.float;
  aiProbability : PrimFloat.float;
  evidence : AIEvidence.t;
  timeline : AITimeline.t
}.
End DoubleAttribution.

Module DoubleScores.
Record t := mk {
  bulkInsertionScore : PrimFloat.float;
  typingSpeedScore : PrimFloat.float;
  pastePatternScore : PrimFloat.float;
  externalToolScore : PrimFloat.float;
  contentPatternScore : PrimFloat.float;
  timingAnomalyScore : PrimFloat.float
}.

(** [Object.entries(heuristicScores)] *)
Definition entries (s : t) : list (Heuristic.t * PrimFloat.float) :=
  [ (Heuristic.bulkInsertionScore, bulkInsertionScore s);
    (Heuristic.typingSpeedScore, typingSpeedScore s);
    (Heuristic.pastePatternScore, pastePatternScore s);
    (Heuristic.externalToolScore, externalToolScore s);
    (Heuristic.contentPatternScore, contentPatternScore s);
    (Heuristic.timingAnomalyScore, timingAnomalyScore s) ].
End DoubleScores.

Module DoubleWeightedScore.
Record t := mk {
  rawScore : PrimFloat.float;
  weight : PrimFloat.float;
  weightedScore : PrimFloat.float
}.
End DoubleWeightedScore.

Module DoubleEngine.
Import ChangeEvent.
#[local] Open Scope double_scope.

(** [Pick<AIAttribution, 'source' | 'confidence' | 'aiProbability'>] *)
Record Decision := mkDecision {
  source : AttributionSource;
  confidence : PrimFloat.float;
  aiProbability : PrimFloat.float
}.

(** [change.externalToolSignature?.confidence || 0] *)
Definition signatureConfidence (change : ChangeEvent.t) : PrimFloat.float :=
  match externalToolSignature change with
  | Some s => Double.orZero #(ExternalToolSignature.confidence s)
  | None => #0
  end.

Section Engine.
Context {fmt : NumberFormat}.

(** [this.config] *)
Variable config : AIDetectionConfig.t.

Let thresholds := AIDetectionConfig.thresholds config.
Let classification := AIDetectionConfig.classification config.

Definition calculateBulkInsertionScore (changes : list ChangeEvent.t) : PrimFloat.float :=
  let bulkChanges := filter (fun change =>
    ChangeType_eqb (changeType change) insert &&
    (#(contentLength change) >? #(Thresholds.bulkInsertionSize thresholds))) changes in
  Double.min (Double.len bulkChanges / Double.len changes) #1.

Definition calculateTypingSpeedScore (changes : list ChangeEvent.t) : PrimFloat.float :=
  let typingSpeeds :=
    map (fun change => #(instantTypingSpeed change))
        (filter (fun change => #(instantTypingSpeed change) >? #0) changes) in
  if Nat.eqb (List.length typingSpeeds) 0 then #0
  else
    let averageSpeed :=
      Double.sumBy (fun speed => speed) typingSpeeds / Double.len typingSpeeds in
    let highSpeedCount :=
      Double.len (filter (fun speed => speed >? #(Thresholds.fastTypingSpeed thresholds))
                         typingSpeeds) in
    let speedScore :=
      Double.min (averageSpeed / (#(Thresholds.fastTypingSpeed thresholds) * #1.5)) #1 in
    let frequencyScore := highSpeedCount / Double.len typingSpeeds in
    (speedScore + frequencyScore) / #2.

Definition calculatePastePatternScore (changes : list ChangeEvent.t) : PrimFloat.float :=
  let pasteIndicators := filter (fun change =>
    (#(timeSinceLastChange change) <? #(Thresholds.pasteTimeThreshold thresholds)) &&
    (#(contentLength change) >? #50) &&
    ChangeType_eqb (changeType change) insert) changes in
  Double.min (Double.len pasteIndicators / Double.max (Double.len changes) #1) #1.

Definition calculateExternalToolScore (changes : list ChangeEvent.t) : PrimFloat.float :=
  let externalSignatures := filter signatureDetected changes in
  if Nat.eqb (List.length externalSignatures) 0 then #0
  else
    let averageConfidence :=
      Double.sumBy signatureConfidence externalSignatures / Double.len externalSignatures in
    let score := (Double.len externalSignatures / Double.len changes) * averageConfidence in
    Double.min score #1.

Definition calculateContentPatternScore (changes : list ChangeEvent.t) : PrimFloat.float :=
  let codeBlocks := filter isCodeBlock changes in
  let structuredCode := filter (fun change =>
    negb (String.eqb (languageConstruct change) "unknown") &&
    negb (String.eqb (languageConstruct change) "")) changes in
  let comments := filter isComment changes in
  let codeBlockRatio := Double.len codeBlocks / Double.max (Double.len changes) #1 in
  let structuredRatio := Double.len structuredCode / Double.max (Double.len changes) #1 in
  let commentRatio := Double.len comments / Double.max (Double.len changes) #1 in
  let score := codeBlockRatio * #0.4 + structuredRatio * #0.4 + commentRatio * #0.2 in
  Double.min score #1.

Definition calculateTimingAnomalyScore (changes : list ChangeEvent.t) : PrimFloat.float :=
  if Nat.ltb (List.length changes) 2 then #0
  else
    let longPauses := filter (fun change =>
      #(timeSinceLastChange change) >? #(Thresholds.longPauseThreshold thresholds)) changes in
    let rapidSequences := filter (fun change =>
      (#(timeSinceLastChange change) <? #(Thresholds.rapidSequenceThreshold thresholds)) &&
      (#(timeSinceLastChange change) >? #0)) changes in
    let anomalyRatio :=
      (Double.len longPauses + Double.len rapidSequences) / Double.len changes in
    Double.min anomalyRatio #1.

Definition calculateHeuristicScores (changes : list ChangeEvent.t) : DoubleScores.t :=
  {| DoubleScores.bulkInsertionScore := calculateBulkInsertionScore changes;
     DoubleScores.typingSpeedScore := calculateTypingSpeedScore changes;
     DoubleScores.pastePatternScore := calculatePastePatternScore changes;
     DoubleScores.externalToolScore := calculateExternalToolScore changes;
     DoubleScores.contentPatternScore := calculateContentPatternScore changes;
     DoubleScores.timingAnomalyScore := calculateTimingAnomalyScore changes |}.

(** The object [weightedScores] as the list of its entries in insertion
    order. *)
Definition combineScores (heuristicScores : DoubleScores.t)
  : list (Heuristic.t * DoubleWeightedScore.t) :=
  map (fun entry : Heuristic.t * PrimFloat.float =>
         let (heuristic, rawScore) := entry in
         let weight :=
           Double.orZero #(Weights.get (AIDetectionConfig.weights config) heuristic) in
         let weightedScore := rawScore * weight in
         (heuristic,
          {| DoubleWeightedScore.rawScore := rawScore;
             DoubleWeightedScore.weight := weight;
             DoubleWeightedScore.weightedScore := weightedScore |}))
      (DoubleScores.entries heuristicScores).

(** [Object.values(weightedScores).reduce((sum, score) => sum + score.weightedScore, 0)] *)
Definition totalScoreOf (weightedScores : list (Heuristic.t * DoubleWeightedScore.t))
  : PrimFloat.float :=
  Double.sumBy DoubleWeightedScore.weightedScore (map snd weightedScores).

(** The [if] / [else if] chain of [makeFinalDecision] on [totalScore]. *)
Definition thresholdDecision (totalScore : PrimFloat.float) : Decision :=
  if totalScore <? #(Classification.humanThreshold classification) then
    {| source := human; confidence := #1 - totalScore; aiProbability := totalScore |}
  else if totalScore <? #(Classification.aiAssistedThreshold classification) then
    {| source := ai_assisted; confidence := #0.8; aiProbability := totalScore |}
  else if totalScore <? #(Classification.aiGeneratedThreshold classification) then
    {| source := ai_generated; confidence := totalScore; aiProbability := totalScore |}
  else
    {| source := ai_generated; confidence := totalScore;
       aiProbability := Double.min (totalScore + #0.1) #1 |}.

Definition hasHumanIndicators (changes : list ChangeEvent.t) : bool :=
  existsb (fun change =>
    (#(instantTypingSpeed change) >? #0) &&
    (#(instantTypingSpeed change) <? #(Thresholds.fastTypingSpeed thresholds)) &&
    (#(contentLength change) <? #50)) changes.

Definition hasAIIndicators (changes : list ChangeEvent.t) : bool :=
  existsb (fun change =>
    signatureDetected change ||
    ((#(contentLength change) >? #(Thresholds.bulkInsertionSize thresholds)) &&
     (#(timeSinceLastChange change) <? #(Thresholds.pasteTimeThreshold thresholds)))) changes.

Definition makeFinalDecision (weightedScores : list (Heuristic.t * DoubleWeightedScore.t))
  (changes : list ChangeEvent.t) : Decision :=
  let totalScore := totalScoreOf weightedScores in
  let decided := thresholdDecision totalScore in
  if hasHumanIndicators changes && hasAIIndicators changes && negb (isHuman (source decided)) then
    {| source := mixed;
       confidence := Double.min (confidence decided) #0.8;
       aiProbability := aiProbability decided |}
  else decided.

Definition createEmptyAttribution : DoubleAttribution.t :=
  {| DoubleAttribution.source := human;
     DoubleAttribution.confidence := #0;
     DoubleAttribution.aiProbability := #0;
     DoubleAttribution.evidence :=
       AIAttribution.evidence AIDetectionEngine.createEmptyAttribution;
     DoubleAttribution.timeline :=
       AIAttribution.timeline AIDetectionEngine.createEmptyAttribution |}.

Definition analyze (changes : list ChangeEvent.t) : DoubleAttribution.t :=
  if Nat.eqb (List.length changes) 0 then createEmptyAttribution
  else
    let heuristicScores := calculateHeuristicScores changes in
    let weightedScores := combineScores heuristicScores in
    let finalResult := makeFinalDecision weightedScores changes in
    {| DoubleAttribution.source := source finalResult;
       DoubleAttribution.confidence := confidence finalResult;
       DoubleAttribution.aiProbability := aiProbability finalResult;
       DoubleAttribution.evidence := AIDetectionEngine.extractEvidence config changes;
       DoubleAttribution.timeline := AIDetectionEngine.extractTimeline changes |}.

(** [totalScore] of [makeFinalDecision] when [analyze] runs on [changes],
    and the classification by thresholds that precedes the check for
    mixed patterns. *)
Definition totalScore (changes : list ChangeEvent.t) : PrimFloat.float :=
  totalScoreOf (combineScores (calculateHeuristicScores changes)).

Definition thresholdResult (changes : list ChangeEvent.t) : Decision :=
  thresholdDecision (totalScore changes).

End Engine.
End DoubleEngine.


(** ** The classification as the specification words it, on doubles *)

Module DoubleReference.
Import ChangeEvent.
#[local] Open Scope double_scope.

(** The sum of the six weighted scores, added in the order of the
    heuristics from [0]; a weight that is [0] or [NaN] counts as [0]. *)
Definition weightedSum (scores : DoubleScores.t) (weights : Weights.t) : PrimFloat.float :=
  #0 + DoubleScores.bulkInsertionScore scores *
         Double.orZero #(Weights.bulkInsertionScore weights)
     + DoubleScores.typingSpeedScore scores *
         Double.orZero #(Weights.typingSpeedScore weights)
     + DoubleScores.pastePatternScore scores *
         Double.orZero #(Weights.pastePatternScore weights)
     + DoubleScores.externalToolScore scores *
         Double.orZero #(Weights.externalToolScore weights)
     + DoubleScores.contentPatternScore scores *
         Double.orZero #(Weights.contentPatternScore weights)
     + DoubleScores.timingAnomalyScore scores *
         Double.orZero #(Weights.timingAnomalyScore weights).

(** The ordered rules of the classification: a condition on [totalScore]
    and the outcome when it is the first to match. *)
Definition classificationRules (classification : Classification.t)
  (totalScore : PrimFloat.float) : list (bool * DoubleEngine.Decision) :=
  let humanThreshold := #(Classification.humanThreshold classification) in
  let aiAssistedThreshold := #(Classification.aiAssistedThreshold classification) in
  let aiGeneratedThreshold := #(Classification.aiGeneratedThreshold classification) in
  [ (totalScore <? humanThreshold,
     DoubleEngine.mkDecision human (#1 - totalScore) totalScore);
    ((humanThreshold <=? totalScore) && (totalScore <? aiAssistedThreshold),
     DoubleEngine.mkDecision ai_assisted #0.8 totalScore);
    ((aiAssistedThreshold <=? totalScore) && (totalScore <? aiGeneratedThreshold),
     DoubleEngine.mkDecision ai_generated totalScore totalScore);
    (totalScore >=? aiGeneratedThreshold,
     DoubleEngine.mkDecision ai_generated totalScore
       (Double.min (totalScore + #0.1) #1)) ].

(** [0 < instantTypingSpeed < fastTypingSpeed] and [contentLength < 50] *)
Definition humanIndicator (thresholds : Thresholds.t) (change : ChangeEvent.t) : Prop :=
  (#0 <? #(instantTypingSpeed change)) = true /\
  (#(instantTypingSpeed change) <? #(Thresholds.fastTypingSpeed thresholds)) = true /\
  (#(contentLength change) <? #50) = true.

(** a detected external signature, or [contentLength > bulkInsertionSize]
    with [timeSinceLastChange < pasteTimeThreshold] *)
Definition aiIndicator (thresholds : Thresholds.t) (change : ChangeEvent.t) : Prop :=
  (exists signature, externalToolSignature change = Some signature /\
                     ExternalToolSignature.detected signature = true) \/
  ((#(Thresholds.bulkInsertionSize thresholds) <? #(contentLength change)) = true /\
   (#(timeSinceLastChange change) <? #(Thresholds.pasteTimeThreshold thresholds)) = true).

(** The typing-speed score.  [S] is the list of the speeds that are
    strictly positive, in the order of the events. *)
Fixpoint positiveSpeeds (changes : list ChangeEvent.t) : list PrimFloat.float :=
  match changes with
  | [] => []
  | change :: rest =>
      if #0 <? #(instantTypingSpeed change)
      then #(instantTypingSpeed change) :: positiveSpeeds rest
      else positiveSpeeds rest
  end.

(** The speeds added up in their order, from [0]. *)
Fixpoint totalFrom (sum : PrimFloat.float) (values : list PrimFloat.float) : PrimFloat.float :=
  match values with
  | [] => sum
  | value :: rest => totalFrom (sum + value) rest
  end.

Definition cardinal (values : list PrimFloat.float) : PrimFloat.float :=
  Double.ofZ (Z.of_nat (List.length values)).

Definition mean (values : list PrimFloat.float) : PrimFloat.float :=
  totalFrom #0 values / cardinal values.

(** the number of values strictly greater than [bound] *)
Fixpoint countAbove (bound : PrimFloat.float) (values : list PrimFloat.float) : nat :=
  match values with
  | [] => O
  | value :: rest =>
      if bound <? value then S (countAbove bound rest) else countAbove bound rest
  end.

Definition typingSpeedScore (thresholds : Thresholds.t) (changes : list ChangeEvent.t)
  : PrimFloat.float :=
  let S := positiveSpeeds changes in
  match S with
  | [] => #0
  | _ :: _ =>
      let fastTypingSpeed := #(Thresholds.fastTypingSpeed thresholds) in
      let speedScore := Double.min (mean S / (fastTypingSpeed * #1.5)) #1 in
      let frequencyScore := Double.ofZ (Z.of_nat (countAbove fastTypingSpeed S)) / cardinal S in
      (speedScore + frequencyScore) / #2
  end.

End DoubleReference.

(** ** Numbers that are computed without rounding *)

Module SafeInteger.

(** [Number.MAX_SAFE_INTEGER], that is [2^53 - 1] *)
Definition MAX_SAFE_INTEGER : Z := 9007199254740991.

(** [Number.isSafeInteger(q)]: an integer of magnitude at most [2^53 - 1].
    Every such number is a double, and a sum, a difference or a product
    of two of them that is again such a number is computed by the double
    arithmetic without rounding. *)
Definition isSafeInteger (q : Q) : bool :=
  Qeq_bool q (inject_Z (Qfloor q)) && (Z.abs (Qfloor q) <=? MAX_SAFE_INTEGER)%Z.

End SafeInteger.

(** * Properties *)

(** ** Comparisons and sums *)

Module NumFacts.

Lemma ltb_true (a b : Q) : (a <? b) = true <-> a < b.
Proof.
  unfold Num.ltb. rewrite negb_true_iff. split; intro H.
  - apply Qnot_le_lt. intro Hle. apply Qle_bool_iff in Hle. congruence.
  - destruct (Qle_bool b a) eqn:E; [|reflexivity].
    apply Qle_bool_iff in E. exfalso. apply (Qlt_not_le _ _ H E).
Qed.

Lemma ltb_false (a b : Q) : (a <? b) = false <-> b <= a.
Proof.
  unfold Num.ltb. rewrite negb_false_iff. apply Qle_bool_iff.
Qed.

Lemma gtb_true (a b : Q) : (a >? b) = true <-> b < a.
Proof. apply ltb_true. Qed.

Lemma gtb_false (a b : Q) : (a >? b) = false <-> a <= b.
Proof. apply ltb_false. Qed.

Lemma leb_true (a b : Q) : (a <=? b) = true <-> a <= b.
Proof. apply Qle_bool_iff. Qed.

Lemma geb_true (a b : Q) : (a >=? b) = true <-> b <= a.
Proof. apply Qle_bool_iff. Qed.

Lemma geb_false (a b : Q) : (a >=? b) = false <-> a < b.
Proof.
  unfold Num.geb. split; intro H.
  - apply Qnot_le_lt. intro Hle. apply Qle_bool_iff in Hle. congruence.
  - destruct (Qle_bool b a) eqn:E; [|reflexivity].
    apply Qle_bool_iff in E. exfalso. apply (Qlt_not_le _ _ H E).
Qed.

Lemma orZero_eq (x : Q) : Num.orZero x == x.
Proof.
  unfold Num.orZero. destruct (Qeq_bool x 0) eqn:E; [|reflexivity].
  apply Qeq_bool_iff in E. symmetry. exact E.
Qed.

Lemma len_nonneg {A : Type} (l : list A) : 0 <= Num.len l.
Proof.
  unfold Num.len. change 0 with (inject_Z 0). rewrite <- Zle_Qle. lia.
Qed.

Lemma len_cons {A : Type} (x : A) (l : list A) : Num.len (x :: l) == Num.len l + 1.
Proof.
  unfold Num.len. cbn [List.length]. rewrite Nat2Z.inj_succ, <- Z.add_1_r.
  rewrite inject_Z_plus. reflexivity.
Qed.

Lemma len_pos {A : Type} (l : list A) : l <> [] -> 0 < Num.len l.
Proof.
  destruct l as [|x l]; [congruence|]. intros _.
  rewrite len_cons. pose proof (len_nonneg l). lra.
Qed.

Lemma len_filter_le {A : Type} (f : A -> bool) (l : list A) :
  Num.len (filter f l) <= Num.len l.
Proof.
  unfold Num.len. rewrite <- Zle_Qle. apply Nat2Z.inj_le. apply filter_length_le.
Qed.

(** [fold_left] with a running sum started at [acc]. *)
Lemma sumBy_from {A : Type} (f : A -> Q) (l : list A) (acc : Q) :
  fold_left (fun sum x => sum + f x) l acc == acc + Num.sumBy f l.
Proof.
  unfold Num.sumBy. revert acc.
  induction l as [|x l IH]; intro acc; cbn [fold_left].
  - lra.
  - rewrite (IH (acc + f x)), (IH (0 + f x)). lra.
Qed.

Lemma sumBy_cons {A : Type} (f : A -> Q) (x : A) (l : list A) :
  Num.sumBy f (x :: l) == f x + Num.sumBy f l.
Proof.
  unfold Num.sumBy at 1. cbn [fold_left]. rewrite sumBy_from. lra.
Qed.

Lemma sumBy_nonneg {A : Type} (f : A -> Q) (l : list A) :
  (forall x, In x l -> 0 <= f x) -> 0 <= Num.sumBy f l.
Proof.
  induction l as [|x l IH]; intro H.
  - unfold Num.sumBy. cbn. lra.
  - rewrite sumBy_cons.
    assert (0 <= f x) by (apply H; left; reflexivity).
    assert (0 <= Num.sumBy f l) by (apply IH; intros y Hy; apply H; right; exact Hy).
    lra.
Qed.

End NumFacts.

(** ** The attribution engine *)

Module EngineProperties.
Import ChangeEvent AIDetectionEngine.

Lemma analyze_nonempty `{NumberFormat} (config : AIDetectionConfig.t)
  (changes : list ChangeEvent.t) :
  changes <> [] ->
  analyze config changes =
  let finalResult :=
    makeFinalDecision config (combineScores config (calculateHeuristicScores config changes))
                      changes in
  {| AIAttribution.source := source finalResult;
     AIAttribution.confidence := confidence finalResult;
     AIAttribution.aiProbability := aiProbability finalResult;
     AIAttribution.evidence := extractEvidence config changes;
     AIAttribution.timeline := extractTimeline changes |}.
Proof.
  intro Hne. unfold analyze.
  destruct changes as [|c rest]; [congruence|]. reflexivity.
Qed.

(** C6.  [analyze] on the empty list returns the canonical attribution:
    source human, confidence 0, aiProbability 0, every evidence array
    empty, every evidence flag false, and an empty timeline.  [analyze] is
    a total function: no error is raised. *)
Theorem analyze_empty `{NumberFormat} (config : AIDetectionConfig.t) :
  let result := analyze config [] in
  result = createEmptyAttribution /\
  AIAttribution.source result = human /\
  AIAttribution.confidence result = 0 /\
  AIAttribution.aiProbability result = 0 /\
  AIEvidence.contentCharacteristics (AIAttribution.evidence result) = [] /\
  AIEvidence.bulkChanges (AIAttribution.evidence result) = [] /\
  AIEvidence.typingBursts (AIAttribution.evidence result) = [] /\
  AIEvidence.externalIndicators (AIAttribution.evidence result) = [] /\
  AIEvidence.suspiciousPatterns (AIAttribution.evidence result) = [] /\
  AIEvidence.externalToolSignature (AIAttribution.evidence result) = false /\
  AIEvidence.bulkChangePattern (AIAttribution.evidence result) = false /\
  AIEvidence.timingAnomalies (AIAttribution.evidence result) = false /\
  AITimeline.vsCodeEvents (AIAttribution.timeline result) = [] /\
  AITimeline.externalEvents (AIAttribution.timeline result) = [] /\
  AITimeline.gaps (AIAttribution.timeline result) = [].
Proof.
  cbv zeta. unfold analyze. cbn [List.length Nat.eqb].
  unfold createEmptyAttribution. cbn. repeat split.
Qed.

Lemma analyze_decision `{NumberFormat} (config : AIDetectionConfig.t)
  (changes : list ChangeEvent.t) :
  changes <> [] ->
  let result := analyze config changes in
  let decided := thresholdResult config changes in
  AIAttribution.source result =
    (if overrideFires config changes then mixed else source decided) /\
  AIAttribution.confidence result =
    (if overrideFires config changes then Qmin (confidence decided) 0.8
     else confidence decided) /\
  AIAttribution.aiProbability result = aiProbability decided.
Proof.
  intros Hne result decided. subst result.
  rewrite (analyze_nonempty config changes Hne). cbv zeta.
  cbn [AIAttribution.source AIAttribution.confidence AIAttribution.aiProbability].
  unfold makeFinalDecision.
  change (thresholdDecision config
            (totalScoreOf (combineScores config (calculateHeuristicScores config changes))))
    with decided.
  change (hasHumanIndicators config changes && hasAIIndicators config changes &&
          negb (isHuman (source decided))) with (overrideFires config changes).
  destruct (overrideFires config changes); repeat split.
Qed.

Lemma totalScore_weightedSum (config : AIDetectionConfig.t) (scores : HeuristicScores.t) :
  totalScoreOf (combineScores config scores) ==
  Reference.weightedSum scores (AIDetectionConfig.weights config).
Proof.
  unfold totalScoreOf, combineScores, HeuristicScores.entries, Num.sumBy,
    Reference.weightedSum.
  cbn [map snd fold_left WeightedScore.weightedScore Weights.get].
  rewrite !NumFacts.orZero_eq. ring.
Qed.

(** *** The mixed-signal override *)

Lemma thresholdDecision_not_mixed (config : AIDetectionConfig.t) (total : Q) :
  source (thresholdDecision config total) <> mixed.
Proof.
  unfold thresholdDecision.
  repeat match goal with |- context [if ?b then _ else _] => destruct b end;
    discriminate.
Qed.

(** *** Weights *)

(** C9.  With the six raw scores fixed and non-negative, raising one weight
    while the other five stay the same does not lower [totalScore]. *)
Theorem totalScore_monotone_in_weight (config config' : AIDetectionConfig.t)
  (scores : HeuristicScores.t) (raised : Heuristic.t) :
  (forall heuristic raw, In (heuristic, raw) (HeuristicScores.entries scores) -> 0 <= raw) ->
  (forall heuristic, heuristic <> raised ->
     Weights.get (AIDetectionConfig.weights config) heuristic ==
     Weights.get (AIDetectionConfig.weights config') heuristic) ->
  Weights.get (AIDetectionConfig.weights config) raised <=
  Weights.get (AIDetectionConfig.weights config') raised ->
  totalScoreOf (combineScores config scores) <= totalScoreOf (combineScores config' scores).
Proof.
  intros Hraw Hsame Hraised.
  rewrite !totalScore_weightedSum. unfold Reference.weightedSum.
  assert (H1 := Hraw Heuristic.bulkInsertionScore _ (or_introl eq_refl)).
  assert (H2 := Hraw Heuristic.typingSpeedScore _ (or_intror (or_introl eq_refl))).
  assert (H3 := Hraw Heuristic.pastePatternScore _
                  (or_intror (or_intror (or_introl eq_refl)))).
  assert (H4 := Hraw Heuristic.externalToolScore _
                  (or_intror (or_intror (or_intror (or_introl eq_refl))))).
  assert (H5 := Hraw Heuristic.contentPatternScore _
                  (or_intror (or_intror (or_intror (or_intror (or_introl eq_refl)))))).
  assert (H6 := Hraw Heuristic.timingAnomalyScore _
                  (or_intror (or_intror (or_intror (or_intror (or_intror
                    (or_introl eq_refl))))))).
  cbn [fst snd] in *.
  pose proof (Hsame Heuristic.bulkInsertionScore) as S1.
  pose proof (Hsame Heuristic.typingSpeedScore) as S2.
  pose proof (Hsame Heuristic.pastePatternScore) as S3.
  pose proof (Hsame Heuristic.externalToolScore) as S4.
  pose proof (Hsame Heuristic.contentPatternScore) as S5.
  pose proof (Hsame Heuristic.timingAnomalyScore) as S6.
  destruct raised; cbn [Weights.get] in *;
    repeat match goal with
           | S : ?a <> ?a -> _ |- _ => clear S
           | S : ?a <> ?b -> _ == _ |- _ =>
               let E := fresh "E" in
               assert (E := S ltac:(discriminate)); clear S; rewrite E
           end;
    nra.
Qed.

(** *** Ranges of the scores *)














(** *** A confidence above 1 *)

(** C1.  The confidence that [analyze] returns is not clamped.  The
    weights [0.5, 0, 0.5, 0, 0.3, 0] are not negative and sum to [1.3]; on
    one pasted block [totalScore] is [1.3], the classification is
    ai-generated and the confidence returned is [1.3], outside [[0,1]].
    Only aiProbability goes through [Math.min (totalScore + 0.1) 1]. *)
Lemma confidence_exceeds_one :
  let config := Fixtures.driftConfig in
  let result := @analyze wholeNumberFormat config [Fixtures.pastedBlock 0] in
  Reference.weightsNonNegative config /\
  Reference.weightSum config == 1.3 /\
  totalScore config [Fixtures.pastedBlock 0] == 1.3 /\
  AIAttribution.source result = ai_generated /\
  AIAttribution.confidence result == 1.3 /\
  ~ (0 <= AIAttribution.confidence result /\ AIAttribution.confidence result <= 1 /\
     0 <= AIAttribution.aiProbability result /\ AIAttribution.aiProbability result <= 1).
Proof.
  cbv zeta. split.
  - intros []; vm_compute; discriminate.
  - split; [vm_compute; reflexivity|].
    split; [vm_compute; reflexivity|].
    split; [vm_compute; reflexivity|].
    split; [vm_compute; reflexivity|].
    intros (_ & Hle & _). vm_compute in Hle. apply Hle. reflexivity.
Qed.

(** C10.  For a non-empty list, the timeline of [analyze] has
    [vsCodeEvents] equal to the whole input, and [externalEvents] is the
    projection of the events with a detected signature: every such event
    is in [vsCodeEvents] and its projection is in [externalEvents]. *)
Theorem timeline_lists_overlap `{NumberFormat} (config : AIDetectionConfig.t)
  (changes : list ChangeEvent.t) :
  changes <> [] ->
  let timeline := AIAttribution.timeline (analyze config changes) in
  AITimeline.vsCodeEvents timeline = changes /\
  AITimeline.externalEvents timeline =
    map toExternalChangeEvent (filter signatureDetected changes) /\
  (forall change, In change changes -> signatureDetected change = true ->
     In change (AITimeline.vsCodeEvents timeline) /\
     In (toExternalChangeEvent change) (AITimeline.externalEvents timeline)).
Proof.
  intros Hne timeline. subst timeline.
  rewrite (analyze_nonempty config changes Hne). cbn.
  split; [reflexivity|]. split; [reflexivity|].
  intros change Hin Hdet. split; [exact Hin|].
  apply in_map. apply filter_In. split; assumption.
Qed.

(** *** The engine on the examples of the specification *)

(** One insertion of 500 characters 10 ms after the last change: both
    the bulk-insertion and the paste-pattern scores are positive, the
    evidence reports a bulk change and a rapid large insertion. *)
Example pasted_block_is_flagged :
  let changes := [Fixtures.pastedBlock 0] in
  let evidence :=
    AIAttribution.evidence (@analyze wholeNumberFormat DEFAULT_AI_DETECTION_CONFIG changes) in
  0 < calculateBulkInsertionScore DEFAULT_AI_DETECTION_CONFIG changes /\
  0 < calculatePastePatternScore DEFAULT_AI_DETECTION_CONFIG changes /\
  AIEvidence.bulkChangePattern evidence = true /\
  In "rapid-large-insertion" (AIEvidence.suspiciousPatterns evidence).
Proof.
  cbv zeta. split; [vm_compute; reflexivity|]. split; [vm_compute; reflexivity|].
  split; [vm_compute; reflexivity|]. vm_compute. left. reflexivity.
Qed.

(** Twenty keystrokes at 120 characters per minute are classified human
    with an aiProbability below [0.3]. *)
Example keystrokes_are_human :
  let result :=
    @analyze wholeNumberFormat DEFAULT_AI_DETECTION_CONFIG Fixtures.twentyKeystrokes in
  AIAttribution.source result = human /\ AIAttribution.aiProbability result < 0.3.
Proof.
  cbv zeta. split; vm_compute; reflexivity.
Qed.

(** *** The theorems at concrete inputs *)

Lemma totalScore_monotone_in_weight_witness :
  let scores := HeuristicScores.mk 1 0 1 0 1 0 in
  Weights.get (AIDetectionConfig.weights DEFAULT_AI_DETECTION_CONFIG)
              Heuristic.bulkInsertionScore <=
  Weights.get (AIDetectionConfig.weights Fixtures.raisedBulkConfig)
              Heuristic.bulkInsertionScore /\
  totalScoreOf (combineScores DEFAULT_AI_DETECTION_CONFIG scores) <=
  totalScoreOf (combineScores Fixtures.raisedBulkConfig scores).
Proof.
  cbv zeta.
  assert (Hraised :
    Weights.get (AIDetectionConfig.weights DEFAULT_AI_DETECTION_CONFIG)
                Heuristic.bulkInsertionScore <=
    Weights.get (AIDetectionConfig.weights Fixtures.raisedBulkConfig)
                Heuristic.bulkInsertionScore) by (vm_compute; discriminate).
  split; [exact Hraised|].
  apply (totalScore_monotone_in_weight DEFAULT_AI_DETECTION_CONFIG
           Fixtures.raisedBulkConfig (HeuristicScores.mk 1 0 1 0 1 0)
           Heuristic.bulkInsertionScore).
  - intros heuristic raw Hin. cbn in Hin.
    repeat (destruct Hin as [Hin|Hin];
            [injection Hin as _ <-; vm_compute; discriminate|]).
    destruct Hin.
  - intros [] Hother; try reflexivity. congruence.
  - exact Hraised.
Defined.

Lemma timeline_lists_overlap_witness :
  let changes := [Fixtures.keystroke 0; Fixtures.toolEdit 100] in
  let timeline :=
    AIAttribution.timeline (@analyze wholeNumberFormat DEFAULT_AI_DETECTION_CONFIG changes) in
  changes <> [] /\
  AITimeline.vsCodeEvents timeline = changes /\
  In (Fixtures.toolEdit 100) (AITimeline.vsCodeEvents timeline) /\
  In (toExternalChangeEvent (Fixtures.toolEdit 100)) (AITimeline.externalEvents timeline).
Proof.
  cbv zeta.
  assert (Hne : [Fixtures.keystroke 0; Fixtures.toolEdit 100] <> []) by discriminate.
  destruct (@timeline_lists_overlap wholeNumberFormat DEFAULT_AI_DETECTION_CONFIG
              [Fixtures.keystroke 0; Fixtures.toolEdit 100] Hne) as (Hall & _ & Hboth).
  split; [exact Hne|]. split; [exact Hall|].
  apply Hboth; [right; left; reflexivity|reflexivity].
Defined.

End EngineProperties.

(** ** Comparisons of doubles *)

Module DoubleFacts.
Import PrimFloat SpecFloat FloatOps FloatAxioms.

Lemma SFcompare_antisym (a b : spec_float) :
  SFcompare b a = option_map CompOpp (SFcompare a b).
Proof.
  destruct a as [sa|sa| |sa ma ea], b as [sb|sb| |sb mb eb]; cbn;
    try reflexivity;
    try (destruct sa; reflexivity); try (destruct sb; reflexivity);
    try (destruct sa, sb; reflexivity).
  destruct sa, sb; try reflexivity; rewrite (Z.compare_antisym ea eb);
    destruct (ea ?= eb)%Z; cbn; try reflexivity;
    change (Pos.compare_cont Eq ma mb) with (Pos.compare ma mb);
    change (Pos.compare_cont Eq mb ma) with (Pos.compare mb ma);
    rewrite (Pos.compare_antisym ma mb); destruct (ma ?= mb)%positive; reflexivity.
Qed.

Lemma SFcompare_refl (a : spec_float) :
  a <> S754_nan -> SFcompare a a = Some Eq.
Proof.
  destruct a as [s|s| |s m e]; cbn; intro H; try reflexivity; try congruence.
  - destruct s; reflexivity.
  - destruct s; rewrite Z.compare_refl; change (Pos.compare_cont Eq m m) with (Pos.compare m m);
      rewrite Pos.compare_refl; reflexivity.
Qed.

Lemma SFcompare_nan (a b : spec_float) :
  SFcompare a b = None <-> a = S754_nan \/ b = S754_nan.
Proof.
  destruct a as [sa|sa| |sa ma ea], b as [sb|sb| |sb mb eb]; cbn;
    split; intro H; try discriminate; auto;
    try (destruct H; discriminate).
Qed.

(** [a <= b] excludes [b < a]. *)
Lemma leb_not_gtb (a b : float) : leb a b = true -> ltb b a = false.
Proof.
  rewrite leb_spec, ltb_spec. unfold SFleb, SFltb.
  rewrite (SFcompare_antisym (Prim2SF a) (Prim2SF b)).
  destruct (SFcompare (Prim2SF a) (Prim2SF b)) as [[| |]|]; cbn; congruence.
Qed.

Lemma is_nan_false (a : float) : is_nan a = false <-> Prim2SF a <> S754_nan.
Proof.
  unfold is_nan. rewrite negb_false_iff, eqb_spec. unfold SFeqb. split.
  - intros H Hn. rewrite Hn in H. discriminate H.
  - intro H. rewrite (SFcompare_refl _ H). reflexivity.
Qed.

(** On numbers that are not [NaN] the order is total. *)
Lemma not_ltb_leb (a b : float) :
  is_nan a = false -> is_nan b = false -> ltb a b = false -> leb b a = true.
Proof.
  rewrite !is_nan_false, leb_spec, ltb_spec. unfold SFleb, SFltb. intros Ha Hb.
  rewrite (SFcompare_antisym (Prim2SF a) (Prim2SF b)).
  destruct (SFcompare (Prim2SF a) (Prim2SF b)) as [[| |]|] eqn:E; cbn; try congruence.
  intros _. apply SFcompare_nan in E. tauto.
Qed.

End DoubleFacts.

(** ** The attribution engine on doubles *)

Module DoubleEngineProperties.
Import ChangeEvent DoubleEngine.
#[local] Open Scope double_scope.

Lemma double_analyze_nonempty `{NumberFormat} (config : AIDetectionConfig.t)
  (changes : list ChangeEvent.t) :
  changes <> [] ->
  analyze config changes =
  let finalResult :=
    makeFinalDecision config (combineScores config (calculateHeuristicScores config changes))
                      changes in
  {| DoubleAttribution.source := source finalResult;
     DoubleAttribution.confidence := confidence finalResult;
     DoubleAttribution.aiProbability := aiProbability finalResult;
     DoubleAttribution.evidence := AIDetectionEngine.extractEvidence config changes;
     DoubleAttribution.timeline := AIDetectionEngine.extractTimeline changes |}.
Proof.
  intro Hne. destruct changes as [|c rest]; [congruence|reflexivity].
Qed.


Lemma double_analyze_decision `{NumberFormat} (config : AIDetectionConfig.t)
  (changes : list ChangeEvent.t) :
  changes <> [] ->
  let result := analyze config changes in
  let decided := thresholdResult config changes in
  let fires :=
    hasHumanIndicators config changes && hasAIIndicators config changes &&
    negb (isHuman (source decided)) in
  DoubleAttribution.source result = (if fires then mixed else source decided) /\
  DoubleAttribution.confidence result =
    (if fires then Double.min (confidence decided) #0.8 else confidence decided) /\
  DoubleAttribution.aiProbability result = aiProbability decided.
Proof.
  intros Hne result decided fires. subst result.
  rewrite (double_analyze_nonempty config changes Hne). cbv zeta.
  cbn [DoubleAttribution.source DoubleAttribution.confidence DoubleAttribution.aiProbability].
  unfold makeFinalDecision.
  change (thresholdDecision config
            (totalScoreOf (combineScores config (calculateHeuristicScores config changes))))
    with decided.
  fold fires. destruct fires; repeat split.
Qed.

Lemma double_thresholdDecision_not_mixed (config : AIDetectionConfig.t) (total : PrimFloat.float) :
  source (thresholdDecision config total) <> mixed.
Proof.
  unfold thresholdDecision.
  repeat match goal with |- context [if ?b then _ else _] => destruct b end;
    discriminate.
Qed.

(** *** The first matching rule *)

(** C3.  For a non-empty list, [totalScore] is the sum of the six weighted
    heuristic scores as the engine adds them up in doubles, and the
    classification that [makeFinalDecision] reaches before the
    mixed-signal override is the outcome of the first matching rule:
    below [humanThreshold], human with confidence [1 - totalScore]; from
    [humanThreshold] on and below [aiAssistedThreshold], ai-assisted with
    confidence [0.8]; from [aiAssistedThreshold] on and below
    [aiGeneratedThreshold], ai-generated with confidence [totalScore];
    from [aiGeneratedThreshold] on, ai-generated with confidence
    [totalScore] and aiProbability [min (totalScore + 0.1) 1].  In the
    first three cases aiProbability is [totalScore].  When no number is
    [NaN] some rule matches.  The override leaves aiProbability as it
    is. *)
Theorem classification_first_matching_rule `{NumberFormat} (config : AIDetectionConfig.t)
  (changes : list ChangeEvent.t) :
  changes <> [] ->
  let total := totalScore config changes in
  let decided := thresholdResult config changes in
  let humanThreshold :=
    #(Classification.humanThreshold (AIDetectionConfig.classification config)) in
  let aiAssistedThreshold :=
    #(Classification.aiAssistedThreshold (AIDetectionConfig.classification config)) in
  let aiGeneratedThreshold :=
    #(Classification.aiGeneratedThreshold (AIDetectionConfig.classification config)) in
  total = DoubleReference.weightedSum (calculateHeuristicScores config changes)
                                      (AIDetectionConfig.weights config) /\
  ((total <? humanThreshold) = true ->
   source decided = human /\ confidence decided = #1 - total /\
   aiProbability decided = total) /\
  ((humanThreshold <=? total) = true -> (total <? aiAssistedThreshold) = true ->
   source decided = ai_assisted /\ confidence decided = #0.8 /\
   aiProbability decided = total) /\
  ((humanThreshold <=? total) = true -> (aiAssistedThreshold <=? total) = true ->
   (total <? aiGeneratedThreshold) = true ->
   source decided = ai_generated /\ confidence decided = total /\
   aiProbability decided = total) /\
  ((humanThreshold <=? total) = true -> (aiAssistedThreshold <=? total) = true ->
   (total >=? aiGeneratedThreshold) = true ->
   source decided = ai_generated /\ confidence decided = total /\
   aiProbability decided = Double.min (total + #0.1) #1) /\
  (PrimFloat.is_nan total = false -> PrimFloat.is_nan humanThreshold = false ->
   PrimFloat.is_nan aiAssistedThreshold = false ->
   PrimFloat.is_nan aiGeneratedThreshold = false ->
   Reference.firstMatch
     (DoubleReference.classificationRules (AIDetectionConfig.classification config) total) =
   Some decided) /\
  DoubleAttribution.aiProbability (analyze config changes) = aiProbability decided.
Proof.
  intros Hne total decided h a g.
  split; [reflexivity|].
  assert (Hrules :
    ((total <? h) = true ->
     source decided = human /\ confidence decided = #1 - total /\
     aiProbability decided = total) /\
    ((h <=? total) = true -> (total <? a) = true ->
     source decided = ai_assisted /\ confidence decided = #0.8 /\
     aiProbability decided = total) /\
    ((h <=? total) = true -> (a <=? total) = true -> (total <? g) = true ->
     source decided = ai_generated /\ confidence decided = total /\
     aiProbability decided = total) /\
    ((h <=? total) = true -> (a <=? total) = true -> (total >=? g) = true ->
     source decided = ai_generated /\ confidence decided = total /\
     aiProbability decided = Double.min (total + #0.1) #1)).
  { subst decided. unfold thresholdResult. fold total.
    unfold thresholdDecision. fold h a g.
    split; [intros H1; rewrite H1; repeat split|].
    split; [intros H1 H2; rewrite (DoubleFacts.leb_not_gtb _ _ H1), H2; repeat split|].
    split; [intros H1 H2 H3;
            rewrite (DoubleFacts.leb_not_gtb _ _ H1), (DoubleFacts.leb_not_gtb _ _ H2), H3;
            repeat split|].
    intros H1 H2 H3.
    rewrite (DoubleFacts.leb_not_gtb _ _ H1), (DoubleFacts.leb_not_gtb _ _ H2),
      (DoubleFacts.leb_not_gtb _ _ H3).
    repeat split. }
  destruct Hrules as (R1 & R2 & R3 & R4).
  split; [exact R1|]. split; [exact R2|]. split; [exact R3|]. split; [exact R4|].
  split.
  - intros Nt Nh Na Ng.
    unfold DoubleReference.classificationRules. cbv zeta. fold h a g.
    cbn [Reference.firstMatch].
    subst decided. unfold thresholdResult. fold total.
    unfold thresholdDecision. fold h a g.
    destruct (total <? h) eqn:E1; [reflexivity|].
    rewrite (DoubleFacts.not_ltb_leb _ _ Nt Nh E1). cbn [andb].
    destruct (total <? a) eqn:E2; [reflexivity|].
    rewrite (DoubleFacts.not_ltb_leb _ _ Nt Na E2). cbn [andb].
    destruct (total <? g) eqn:E3; [reflexivity|].
    unfold Double.geb. rewrite (DoubleFacts.not_ltb_leb _ _ Nt Ng E3). reflexivity.
  - exact (proj2 (proj2 (double_analyze_decision config changes Hne))).
Qed.

Lemma classification_first_matching_rule_witness :
  let config := DEFAULT_AI_DETECTION_CONFIG in
  let changes := [Fixtures.keystroke 0] in
  changes <> [] /\
  (totalScore config changes <?
   #(Classification.humanThreshold (AIDetectionConfig.classification config))) = true /\
  source (thresholdResult config changes) = human /\
  confidence (thresholdResult config changes) = #1 - totalScore config changes.
Proof.
  cbv zeta.
  assert (Hne : [Fixtures.keystroke 0] <> []) by discriminate.
  assert (Hlt : (totalScore DEFAULT_AI_DETECTION_CONFIG [Fixtures.keystroke 0] <?
                 #(Classification.humanThreshold
                     (AIDetectionConfig.classification DEFAULT_AI_DETECTION_CONFIG))) = true)
    by (vm_compute; reflexivity).
  split; [exact Hne|]. split; [exact Hlt|].
  destruct (@classification_first_matching_rule wholeNumberFormat
              DEFAULT_AI_DETECTION_CONFIG [Fixtures.keystroke 0] Hne)
    as (_ & Hhuman & _).
  destruct (Hhuman Hlt) as (Hs & Hc & _). split; assumption.
Defined.

(** *** The mixed-signal override *)

Lemma hasHumanIndicators_true (config : AIDetectionConfig.t) (changes : list ChangeEvent.t) :
  hasHumanIndicators config changes = true <->
  exists change, In change changes /\
    DoubleReference.humanIndicator (AIDetectionConfig.thresholds config) change.
Proof.
  unfold hasHumanIndicators, DoubleReference.humanIndicator, Double.gtb.
  rewrite existsb_exists. split.
  - intros (change & Hin & Hc). exists change. split; [exact Hin|].
    apply andb_true_iff in Hc as [Hc H3]. apply andb_true_iff in Hc as [H1 H2]. auto.
  - intros (change & Hin & H1 & H2 & H3). exists change. split; [exact Hin|].
    rewrite H1, H2, H3. reflexivity.
Qed.

Lemma hasAIIndicators_true (config : AIDetectionConfig.t) (changes : list ChangeEvent.t) :
  hasAIIndicators config changes = true <->
  exists change, In change changes /\
    DoubleReference.aiIndicator (AIDetectionConfig.thresholds config) change.
Proof.
  unfold hasAIIndicators, DoubleReference.aiIndicator, Double.gtb, signatureDetected.
  rewrite existsb_exists. split.
  - intros (change & Hin & Hc). exists change. split; [exact Hin|].
    apply orb_true_iff in Hc as [Hc|Hc].
    + left. destruct (externalToolSignature change) as [signature|]; [|discriminate].
      exists signature. auto.
    + right. apply andb_true_iff in Hc. exact Hc.
  - intros (change & Hin & [(signature & Hs & Hd)|[H1 H2]]); exists change;
      (split; [exact Hin|]).
    + rewrite Hs, Hd. reflexivity.
    + rewrite H1, H2. apply orb_true_r.
Qed.

Lemma isHuman_false (s : AttributionSource) : isHuman s = false <-> s <> human.
Proof. destruct s; cbn; split; congruence. Qed.

(** C4.  [analyze] returns source mixed exactly when three conditions hold
    together: some event is a human indicator, some event is an AI
    indicator, and the classification by thresholds, taken on the total
    that the engine computes in doubles, is not human.  When they hold,
    confidence is the smaller of the threshold confidence and [0.8]; when
    they do not, source and confidence of a non-empty list are those of
    the classification by thresholds. *)
Theorem mixed_override_exactly_when `{NumberFormat} (config : AIDetectionConfig.t)
  (changes : list ChangeEvent.t) :
  let result := analyze config changes in
  let decided := thresholdResult config changes in
  let thresholds := AIDetectionConfig.thresholds config in
  let override :=
    (exists change, In change changes /\ DoubleReference.humanIndicator thresholds change) /\
    (exists change, In change changes /\ DoubleReference.aiIndicator thresholds change) /\
    source decided <> human in
  (DoubleAttribution.source result = mixed <-> override) /\
  (override ->
   DoubleAttribution.confidence result = Double.min (confidence decided) #0.8) /\
  (~ override -> changes <> [] ->
   DoubleAttribution.source result = source decided /\
   DoubleAttribution.confidence result = confidence decided).
Proof.
  intros result decided thresholds override.
  set (fires := hasHumanIndicators config changes && hasAIIndicators config changes &&
                negb (isHuman (source decided))).
  assert (Hfires : fires = true <-> override).
  { unfold fires, override. rewrite !andb_true_iff, negb_true_iff.
    rewrite hasHumanIndicators_true, hasAIIndicators_true, isHuman_false.
    tauto. }
  destruct changes as [|c rest].
  - assert (Hno : ~ override).
    { intros ((change & Hin & _) & _). destruct Hin. }
    split; [split|split].
    + subst result. cbn. discriminate.
    + intro Ho. contradiction.
    + intro Ho. contradiction.
    + intros _ Hne. congruence.
  - assert (Hne : c :: rest <> []) by discriminate.
    destruct (double_analyze_decision config (c :: rest) Hne) as (Hs & Hc & _).
    fold result in Hs, Hc. fold decided in Hs, Hc. fold fires in Hs, Hc.
    destruct fires eqn:E.
    + assert (Ho : override) by (apply Hfires; reflexivity).
      split; [split|split].
      * intros _. exact Ho.
      * intros _. exact Hs.
      * intros _. exact Hc.
      * intro Hno. contradiction.
    + assert (Hno : ~ override) by (rewrite <- Hfires; discriminate).
      split; [split|split].
      * rewrite Hs. intro Hm. exfalso.
        apply (double_thresholdDecision_not_mixed config (totalScore config (c :: rest))).
        exact Hm.
      * intro Ho. contradiction.
      * intro Ho. contradiction.
      * intros _ _. split; assumption.
Qed.

Lemma mixed_override_exactly_when_witness :
  let config := DEFAULT_AI_DETECTION_CONFIG in
  let result := @analyze wholeNumberFormat config Fixtures.mixedSession in
  source (thresholdResult config Fixtures.mixedSession) = ai_assisted /\
  DoubleAttribution.source result = mixed /\
  DoubleAttribution.confidence result =
    Double.min (confidence (thresholdResult config Fixtures.mixedSession)) #0.8.
Proof.
  cbv zeta.
  destruct (@mixed_override_exactly_when wholeNumberFormat DEFAULT_AI_DETECTION_CONFIG
              Fixtures.mixedSession) as ((_ & Hmixed) & Hconfidence & _).
  assert (Hs : source (thresholdResult DEFAULT_AI_DETECTION_CONFIG Fixtures.mixedSession)
               = ai_assisted) by (vm_compute; reflexivity).
  assert (Hhuman : exists change, In change Fixtures.mixedSession /\
            DoubleReference.humanIndicator
              (AIDetectionConfig.thresholds DEFAULT_AI_DETECTION_CONFIG) change).
  { exists (Fixtures.keystroke 0). split; [left; reflexivity|].
    split; [|split]; vm_compute; reflexivity. }
  assert (Hai : exists change, In change Fixtures.mixedSession /\
            DoubleReference.aiIndicator
              (AIDetectionConfig.thresholds DEFAULT_AI_DETECTION_CONFIG) change).
  { exists (Fixtures.pastedBlock 100). split; [right; left; reflexivity|].
    right. split; vm_compute; reflexivity. }
  assert (Hnot : source (thresholdResult DEFAULT_AI_DETECTION_CONFIG Fixtures.mixedSession)
                 <> human) by (rewrite Hs; discriminate).
  split; [exact Hs|]. split.
  - apply Hmixed. auto.
  - apply Hconfidence. auto.
Defined.

(** *** The typing-speed score *)

Lemma typingSpeeds_positiveSpeeds (changes : list ChangeEvent.t) :
  map (fun change => #(instantTypingSpeed change))
      (filter (fun change => #(instantTypingSpeed change) >? #0) changes) =
  DoubleReference.positiveSpeeds changes.
Proof.
  induction changes as [|change rest IH]; [reflexivity|].
  cbn [filter DoubleReference.positiveSpeeds]. unfold Double.gtb at 1.
  destruct (#0 <? #(instantTypingSpeed change)); cbn [map]; rewrite IH; reflexivity.
Qed.

Lemma sumBy_totalFrom (values : list PrimFloat.float) (sum : PrimFloat.float) :
  fold_left (fun sum speed => sum + speed) values sum = DoubleReference.totalFrom sum values.
Proof.
  revert sum. induction values as [|value rest IH]; intro sum; [reflexivity|].
  cbn [fold_left DoubleReference.totalFrom]. apply IH.
Qed.

Lemma highSpeedCount_countAbove (bound : PrimFloat.float) (values : list PrimFloat.float) :
  List.length (filter (fun speed => speed >? bound) values) =
  DoubleReference.countAbove bound values.
Proof.
  induction values as [|value rest IH]; [reflexivity|].
  cbn [filter DoubleReference.countAbove]. unfold Double.gtb at 1.
  destruct (bound <? value); cbn [List.length]; rewrite IH; reflexivity.
Qed.

(** C5.  The typing-speed score of the engine equals the reference
    definition, for every configuration (a [fastTypingSpeed] of [0]
    included, where the quotient is [Infinity] and the speed score [1]):
    [0] when no speed is strictly positive, and otherwise the average of
    [min (mean S / (fastTypingSpeed * 1.5)) 1] and the fraction of the
    speeds in [S] above [fastTypingSpeed], with [S] the strictly positive
    speeds. *)
Theorem typingSpeedScore_matches_reference (config : AIDetectionConfig.t)
  (changes : list ChangeEvent.t) :
  calculateTypingSpeedScore config changes =
  DoubleReference.typingSpeedScore (AIDetectionConfig.thresholds config) changes.
Proof.
  unfold calculateTypingSpeedScore, DoubleReference.typingSpeedScore.
  rewrite typingSpeeds_positiveSpeeds.
  destruct (DoubleReference.positiveSpeeds changes) as [|speed speeds] eqn:ES.
  - reflexivity.
  - cbn [List.length Nat.eqb]. cbv zeta.
    unfold DoubleReference.mean, DoubleReference.cardinal, Double.len, Double.sumBy.
    rewrite highSpeedCount_countAbove, sumBy_totalFrom. reflexivity.
Qed.

(** *** The engine on doubles at the examples *)

(** With a [fastTypingSpeed] of [0] the quotient of the speed score is
    [Infinity], the speed score [1], and so is the score of one
    keystroke. *)
Example typingSpeedScore_without_fast_speed :
  let config :=
    {| AIDetectionConfig.weights := AIDetectionConfig.weights DEFAULT_AI_DETECTION_CONFIG;
       AIDetectionConfig.thresholds :=
         {| Thresholds.bulkInsertionSize := 100;
            Thresholds.fastTypingSpeed := 0;
            Thresholds.pasteTimeThreshold := 100;
            Thresholds.longPauseThreshold := 30000;
            Thresholds.rapidSequenceThreshold := 100 |};
       AIDetectionConfig.classification :=
         AIDetectionConfig.classification DEFAULT_AI_DETECTION_CONFIG;
       AIDetectionConfig.bucketConfig :=
         AIDetectionConfig.bucketConfig DEFAULT_AI_DETECTION_CONFIG |} in
  calculateTypingSpeedScore config [Fixtures.keystroke 0] = #1.
Proof. vm_compute. reflexivity. Qed.

(** A total that the exact sum would put on a cut-off can fall below it:
    three tenths added up from [0.1], [0.1] and [0.1] is above [0.3], and
    [0.7 + 0.1] is below [0.8]. *)
Example sums_of_tenths :
  (#0.3 <? #0.1 + #0.1 + #0.1) = true /\ (#0.7 + #0.1 <? #0.8) = true.
Proof. split; vm_compute; reflexivity. Qed.

(** The weights [0.5, 0, 0.5, 0, 0.3, 0] on one pasted block: the total is
    the double [1.3], the classification ai-generated, the confidence
    returned [1.3] and the aiProbability [1]. *)
Example drift_confidence_in_doubles :
  let result := @analyze wholeNumberFormat Fixtures.driftConfig [Fixtures.pastedBlock 0] in
  totalScore Fixtures.driftConfig [Fixtures.pastedBlock 0] = #1.3 /\
  DoubleAttribution.source result = ai_generated /\
  DoubleAttribution.confidence result = #1.3 /\
  (#1 <? DoubleAttribution.confidence result) = true /\
  DoubleAttribution.aiProbability result = #1.
Proof. cbv zeta. repeat split; vm_compute; reflexivity. Qed.

End DoubleEngineProperties.

(** ** Loops over time *)

Module LoopProperties.

(** More fuel does not change a result that was reached. *)
Lemma forTimes_more_fuel (fuel extra : nat) (time endTime step : Q) (times : list Q) :
  Loop.forTimes fuel time endTime step = Some times ->
  Loop.forTimes (fuel + extra) time endTime step = Some times.
Proof.
  revert time times. induction fuel as [|fuel IH]; intros time times.
  - cbn [Loop.forTimes]. destruct (time <? endTime) eqn:E; [discriminate|].
    intros [= <-]. destruct extra; cbn [Nat.add Loop.forTimes]; rewrite E; reflexivity.
  - cbn [Nat.add Loop.forTimes]. destruct (time <? endTime); [|trivial].
    destruct (Loop.forTimes fuel (time + step) endTime step) as [rest|] eqn:E;
      [|discriminate].
    rewrite (IH _ _ E). trivial.
Qed.

Lemma iterations_positive (time endTime step : Q) :
  0 < step -> time < endTime -> (1 <= Loop.iterations time endTime step)%nat.
Proof.
  intros Hstep Hlt. unfold Loop.iterations.
  assert (Hpos : 0 < (endTime - time) / step).
  { apply Qlt_shift_div_l; [exact Hstep|]. lra. }
  pose proof (Qle_ceiling ((endTime - time) / step)) as Hc.
  assert (Hz : (0 < Qceiling ((endTime - time) / step))%Z).
  { rewrite Zlt_Qlt. change (inject_Z 0) with 0. lra. }
  lia.
Qed.

Lemma iterations_step (time endTime step : Q) :
  0 < step -> time < endTime ->
  (S (Loop.iterations (time + step) endTime step) <= Loop.iterations time endTime step)%nat.
Proof.
  intros Hstep Hlt. pose proof (iterations_positive time endTime step Hstep Hlt) as H1.
  unfold Loop.iterations in *.
  set (x := (endTime - time) / step) in *.
  assert (Hx : (endTime - (time + step)) / step == x - 1).
  { subst x. field. lra. }
  assert (Hle : (Qceiling ((endTime - (time + step)) / step) <= Qceiling x - 1)%Z).
  { rewrite <- (Qceiling_Z (Qceiling x - 1)). apply Qceiling_resp_le.
    rewrite Hx. pose proof (Qle_ceiling x) as Hc.
    unfold Z.sub. rewrite inject_Z_plus, inject_Z_opp. change (inject_Z 1) with 1. lra. }
  lia.
Qed.

(** With a positive step the loop ends: [Loop.iterations] rounds are
    enough. *)
Lemma forTimes_terminates (fuel : nat) (time endTime step : Q) :
  0 < step ->
  (Loop.iterations time endTime step <= fuel)%nat ->
  exists times, Loop.forTimes fuel time endTime step = Some times.
Proof.
  intro Hstep. revert time. induction fuel as [|fuel IH]; intros time Hfuel.
  - cbn [Loop.forTimes]. destruct (time <? endTime) eqn:E; [|eauto].
    apply NumFacts.ltb_true in E.
    pose proof (iterations_positive time endTime step Hstep E). lia.
  - cbn [Loop.forTimes]. destruct (time <? endTime) eqn:E; [|eauto].
    apply NumFacts.ltb_true in E.
    pose proof (iterations_step time endTime step Hstep E) as Hs.
    destruct (IH (time + step)) as [rest Hrest]; [lia|].
    rewrite Hrest. cbn. eauto.
Qed.

(** With a step that is not positive the loop never ends once entered. *)
Lemma forTimes_diverges (fuel : nat) (time endTime step : Q) :
  step <= 0 -> time < endTime ->
  Loop.forTimes fuel time endTime step = None.
Proof.
  intro Hstep. revert time. induction fuel as [|fuel IH]; intros time Hlt.
  - cbn [Loop.forTimes]. apply NumFacts.ltb_true in Hlt. rewrite Hlt. reflexivity.
  - cbn [Loop.forTimes]. pose proof Hlt as Hb. apply NumFacts.ltb_true in Hb. rewrite Hb.
    rewrite IH; [reflexivity|lra].
Qed.

(** The windows of the loop tile [[time, endTime)]: a point before [time]
    is in no window, a point of [[time, endTime)] in exactly one. *)
Lemma forTimes_windows (fuel : nat) (time endTime step t : Q) (starts : list Q) :
  0 < step ->
  Loop.forTimes fuel time endTime step = Some starts ->
  (t < time -> Loop.windowCount step t starts = 0%nat) /\
  (time <= t -> t < endTime -> Loop.windowCount step t starts = 1%nat).
Proof.
  intro Hstep. revert time starts.
  induction fuel as [|fuel IH]; intros time starts; cbn [Loop.forTimes];
    destruct (time <? endTime) eqn:E; try discriminate.
  - intros [= <-]. apply NumFacts.ltb_false in E. split; [reflexivity|]. intros; lra.
  - destruct (Loop.forTimes fuel (time + step) endTime step) as [rest|] eqn:Erest;
      [|discriminate].
    intros [= <-]. destruct (IH _ _ Erest) as [IH0 IH1].
    unfold Loop.windowCount in *. cbn [filter]. split.
    + intro Hlt. assert (Hg : (t >=? time) = false) by (apply NumFacts.geb_false; exact Hlt).
      rewrite Hg. cbn [andb]. apply IH0. lra.
    + intros Hle Hend.
      assert (Hg : (t >=? time) = true) by (apply NumFacts.geb_true; exact Hle).
      rewrite Hg. cbn [andb].
      destruct (t <? time + step) eqn:Ew.
      * apply NumFacts.ltb_true in Ew. cbn [List.length]. f_equal. apply IH0. exact Ew.
      * apply NumFacts.ltb_false in Ew. apply IH1; assumption.
  - intros [= <-]. apply NumFacts.ltb_false in E. split; [reflexivity|]. intros; lra.
Qed.

(** When [endTime - time] is a whole number of steps, the last window
    closes exactly at [endTime]: the point [endTime] is in no window. *)
Lemma forTimes_misses_boundary (steps fuel : nat) (time endTime step : Q) (starts : list Q) :
  0 < step ->
  endTime - time == inject_Z (Z.of_nat steps) * step ->
  Loop.forTimes fuel time endTime step = Some starts ->
  Loop.windowCount step endTime starts = 0%nat.
Proof.
  intro Hstep. revert fuel time starts.
  induction steps as [|steps IH]; intros fuel time starts Hspan Hloop.
  - assert (E : (time <? endTime) = false).
    { apply NumFacts.ltb_false. change (inject_Z (Z.of_nat 0)) with 0 in Hspan. lra. }
    destruct fuel; cbn [Loop.forTimes] in Hloop; rewrite E in Hloop;
      injection Hloop as <-; reflexivity.
  - rewrite Nat2Z.inj_succ, <- Z.add_1_r, inject_Z_plus in Hspan.
    change (inject_Z 1) with 1 in Hspan.
    pose proof (NumFacts.len_nonneg (repeat tt steps)) as Hk.
    unfold Num.len in Hk. rewrite repeat_length in Hk.
    assert (Hk' : 0 <= inject_Z (Z.of_nat steps) * step)
      by (apply Qmult_le_0_compat; [exact Hk|lra]).
    assert (E : (time <? endTime) = true) by (apply NumFacts.ltb_true; lra).
    destruct fuel; cbn [Loop.forTimes] in Hloop; rewrite E in Hloop; [discriminate|].
    destruct (Loop.forTimes fuel (time + step) endTime step) as [rest|] eqn:Erest;
      [|discriminate].
    injection Hloop as <-. unfold Loop.windowCount. cbn [filter].
    assert (Ew : (endTime <? time + step) = false) by (apply NumFacts.ltb_false; lra).
    rewrite Ew, andb_false_r.
    apply (IH fuel (time + step) rest); [lra|exact Erest].
Qed.

End LoopProperties.

(** ** The bucket analyzer *)

Module BucketProperties.
Import ChangeEvent BucketAnalyzer.

Lemma windowsContaining_bucketAt (events : list ChangeEvent.t) (config : BucketConfig.t)
  (intervalMs t : Q) (starts : list Q) :
  windowsContaining t (map (bucketAt events config intervalMs) starts) =
  Loop.windowCount intervalMs t starts.
Proof.
  unfold windowsContaining, Loop.windowCount.
  induction starts as [|start rest IH]; [reflexivity|].
  cbn [map filter]. unfold inWindow at 1.
  cbn [bucketAt TimeBucket.startTime TimeBucket.endTime].
  destruct ((t >=? start) && (t <? start + intervalMs)); cbn [List.length];
    rewrite IH; reflexivity.
Qed.

(** The events of a bucket are the events whose timestamp is in its window. *)
Lemma bucketAt_events (events : list ChangeEvent.t) (config : BucketConfig.t)
  (intervalMs time : Q) (e : ChangeEvent.t) :
  In e (TimeBucket.events (bucketAt events config intervalMs time)) <->
  In e events /\ inWindow (timestamp e) (bucketAt events config intervalMs time) = true.
Proof.
  unfold inWindow. cbn [bucketAt TimeBucket.events TimeBucket.startTime TimeBucket.endTime].
  apply filter_In.
Qed.

(** A list of one event: the loop body never runs, whatever the
    configuration, and the event is in no bucket. *)
Lemma createBuckets_single_event (fuel : nat) (e : ChangeEvent.t) (config : BucketConfig.t) :
  createBuckets fuel [e] config = Some [].
Proof.
  unfold createBuckets. cbn [List.last].
  assert (E : (timestamp e <? timestamp e) = false) by (apply NumFacts.ltb_false; lra).
  destruct fuel; cbn [Loop.forTimes]; rewrite E; reflexivity.
Qed.

(** With a positive interval [createBuckets] returns. *)
Lemma createBuckets_returns (events : list ChangeEvent.t) (config : BucketConfig.t) :
  0 < BucketConfig.intervalMinutes config ->
  exists fuel buckets, createBuckets fuel events config = Some buckets.
Proof.
  intro Hpos. destruct events as [|first rest].
  - exists O, []. reflexivity.
  - unfold createBuckets.
    set (intervalMs := BucketConfig.intervalMinutes config * 60 * 1000).
    set (endTime := timestamp (List.last (first :: rest) first)).
    assert (Hstep : 0 < intervalMs) by (subst intervalMs; lra).
    destruct (LoopProperties.forTimes_terminates
                (Loop.iterations (timestamp first) endTime intervalMs)
                (timestamp first) endTime intervalMs Hstep (Nat.le_refl _))
      as [starts Hstarts].
    exists (Loop.iterations (timestamp first) endTime intervalMs).
    rewrite Hstarts. cbn [option_map]. eauto.
Qed.

(** What the buckets do cover: with a positive interval, an event whose
    timestamp is at or after the first event's and strictly before the last
    event's lies in exactly one window. *)
Lemma createBuckets_covers_before_last (fuel : nat) (first : ChangeEvent.t)
  (rest : list ChangeEvent.t) (config : BucketConfig.t) (buckets : list TimeBucket.t)
  (e : ChangeEvent.t) :
  0 < BucketConfig.intervalMinutes config ->
  createBuckets fuel (first :: rest) config = Some buckets ->
  timestamp first <= timestamp e ->
  timestamp e < timestamp (List.last (first :: rest) first) ->
  windowsContaining (timestamp e) buckets = 1%nat.
Proof.
  intros Hpos Hb Hfirst Hlast. unfold createBuckets in Hb.
  set (intervalMs := BucketConfig.intervalMinutes config * 60 * 1000) in *.
  assert (Hstep : 0 < intervalMs) by (subst intervalMs; lra).
  destruct (Loop.forTimes fuel (timestamp first)
              (timestamp (List.last (first :: rest) first)) intervalMs)
    as [starts|] eqn:Estarts; [|discriminate].
  cbn [option_map] in Hb. injection Hb as <-.
  rewrite windowsContaining_bucketAt.
  apply (LoopProperties.forTimes_windows _ _ _ _ (timestamp e) _ Hstep Estarts); assumption.
Qed.

(** What they miss: when the time between the first and the last event is
    a whole number of intervals (zero included), the last event's timestamp
    is in no window. *)
Lemma createBuckets_misses_last_on_boundary (intervals fuel : nat) (first : ChangeEvent.t)
  (rest : list ChangeEvent.t) (config : BucketConfig.t) (buckets : list TimeBucket.t) :
  0 < BucketConfig.intervalMinutes config ->
  timestamp (List.last (first :: rest) first) - timestamp first ==
    inject_Z (Z.of_nat intervals) * (BucketConfig.intervalMinutes config * 60 * 1000) ->
  createBuckets fuel (first :: rest) config = Some buckets ->
  windowsContaining (timestamp (List.last (first :: rest) first)) buckets = 0%nat.
Proof.
  intros Hpos Hspan Hb. unfold createBuckets in Hb.
  set (intervalMs := BucketConfig.intervalMinutes config * 60 * 1000) in *.
  assert (Hstep : 0 < intervalMs) by (subst intervalMs; lra).
  destruct (Loop.forTimes fuel (timestamp first)
              (timestamp (List.last (first :: rest) first)) intervalMs)
    as [starts|] eqn:Estarts; [|discriminate].
  cbn [option_map] in Hb. injection Hb as <-.
  rewrite windowsContaining_bucketAt.
  apply (LoopProperties.forTimes_misses_boundary intervals fuel _ _ _ _ Hstep Hspan Estarts).
Qed.

(** C2.  [createBuckets] drops the last event whenever the loop stops at
    its timestamp.  A list of one event yields no bucket at all; two events
    exactly one interval apart yield the single bucket [[0, 900000)], which
    holds the first event only.  In both cases the last event's timestamp
    is in no window, so the events are not covered exactly once. *)
Theorem createBuckets_drops_last_event :
  let single := [Fixtures.keystroke 1000] in
  let pair := [Fixtures.keystroke 0; Fixtures.keystroke 900000] in
  (nonDecreasing single /\
   (forall fuel, createBuckets fuel single DEFAULT_BUCKET_CONFIG = Some []) /\
   windowsContaining 1000 [] = 0%nat /\
   ~ coversExactlyOnce single []) /\
  (nonDecreasing pair /\
   exists bucket,
     (forall extra, createBuckets (1 + extra) pair DEFAULT_BUCKET_CONFIG = Some [bucket]) /\
     TimeBucket.startTime bucket == 0 /\
     TimeBucket.endTime bucket == 900000 /\
     TimeBucket.events bucket = [Fixtures.keystroke 0] /\
     windowsContaining 900000 [bucket] = 0%nat /\
     ~ coversExactlyOnce pair [bucket]).
Proof.
  cbv zeta. split.
  - split; [cbn [nonDecreasing]; split; exact I|].
    split; [intro fuel; apply createBuckets_single_event|].
    split; [reflexivity|].
    intro Hc. inversion Hc as [|? ? Hhead _]. discriminate Hhead.
  - split; [cbn [nonDecreasing]; split; [vm_compute; discriminate|split; exact I]|].
    eexists. split.
    + intro extra. unfold createBuckets.
      rewrite (LoopProperties.forTimes_more_fuel 1 extra _ _ _ [0]); [|reflexivity].
      cbn [option_map map]. reflexivity.
    + split; [vm_compute; reflexivity|]. split; [vm_compute; reflexivity|].
      split; [vm_compute; reflexivity|]. split; [vm_compute; reflexivity|].
      intro Hc. inversion Hc as [|? ? _ Htail]. inversion Htail as [|? ? Hlast _].
      vm_compute in Hlast. discriminate Hlast.
Qed.

End BucketProperties.

(** ** The review scorer *)

Module ReviewProperties.
Import ReviewAnalyzer.

(** The window loop of [calculateEditingVelocity] always ends: the branch
    [None] of its model is not reachable. *)
Lemma calculateEditingVelocity_loop_ends (startTime endTime : Q) :
  exists windowStarts,
    Loop.forTimes (Loop.iterations startTime endTime (5 * 60 * 1000))
                  startTime endTime (5 * 60 * 1000) = Some windowStarts.
Proof.
  apply LoopProperties.forTimes_terminates; [reflexivity|apply Nat.le_refl].
Qed.

(** A session of three edits over forty-two minutes, committed a quarter
    of an hour later: score [6] (time 2, iteration 1, refinement 1,
    thoughtfulness 2), a thorough review, and one record logged. *)
Example assessQuality_review_session :
  let env := mkEnvironment "analysis-1" 5000000 5000001 in
  let outcome :=
    assessQuality env (mkState "session-1") Fixtures.reviewSession
                  (Some (CommitInfo.mk 3420000)) in
  ReviewQualityAssessment.overallScore (fst outcome) == 6 /\
  ReviewQualityAssessment.qualityLevel (fst outcome) = thorough_review /\
  ReviewQualityAssessment.confidence (fst outcome) == 0.7 /\
  List.length (snd outcome) = 1%nat.
Proof.
  cbv zeta. split; [vm_compute; reflexivity|]. split; [vm_compute; reflexivity|].
  split; vm_compute; reflexivity.
Qed.

(** C7.  [assessQuality] on the empty list returns the canonical
    assessment, whatever the commit information: overall score 0, quality
    level immediate-commit, confidence 1.0, every component of the score
    breakdown 0, every pattern flag false except [immediateCommit], and
    empty evidence.  Nothing is logged. *)
Theorem assessQuality_empty (env : Environment) (this : State)
  (commitInfo : option CommitInfo.t) :
  let assessment := fst (assessQuality env this [] commitInfo) in
  assessQuality env this [] commitInfo = (createEmptyAssessment, []) /\
  ReviewQualityAssessment.overallScore assessment = 0 /\
  ReviewQualityAssessment.qualityLevel assessment = immediate_commit /\
  ReviewQualityAssessment.confidence assessment = 1.0 /\
  ReviewQualityAssessment.confidence assessment == 1 /\
  ReviewQualityAssessment.breakdown assessment =
    ReviewScoreBreakdown.mk 0 0 0 0 0 0 0 0 0 /\
  ReviewQualityAssessment.patterns assessment =
    ReviewPatterns.mk true false false false false false false false false /\
  ReviewQualityAssessment.evidence assessment = ReviewEvidence.mk [] [] [].
Proof.
  cbv zeta. unfold assessQuality. cbn [List.length Nat.eqb fst].
  unfold createEmptyAssessment.
  cbn [ReviewQualityAssessment.overallScore ReviewQualityAssessment.qualityLevel
       ReviewQualityAssessment.confidence ReviewQualityAssessment.breakdown
       ReviewQualityAssessment.patterns ReviewQualityAssessment.evidence].
  repeat (split; [reflexivity|]). reflexivity.
Qed.

End ReviewProperties.

(** ** The configuration validator *)

Module ValidationProperties.
Import Validation.

Lemma notAnObject_false (v : JSValue) : notAnObject v = false <-> isObject v.
Proof.
  unfold isObject. destruct v; cbn; split; try discriminate; eauto;
    intros [properties Hp]; discriminate.
Qed.

Lemma existsb_false {A : Type} (f : A -> bool) (l : list A) :
  existsb f l = false <-> Forall (fun x => f x = false) l.
Proof.
  induction l as [|x l IH]; cbn [existsb].
  - split; [constructor|reflexivity].
  - rewrite orb_false_iff, IH. split.
    + intros [Hx Hl]. constructor; assumption.
    + intro H. inversion H; subst. split; assumption.
Qed.

(** The range check lets [NaN] through: both comparisons are false. *)
Lemma outsideUnitInterval_false (v : JSValue) :
  outsideUnitInterval v = false <-> v = JSNum NaN \/ isNumberInUnitInterval v.
Proof.
  unfold isNumberInUnitInterval.
  destruct v as [| | |n| | | | |]; cbn [outsideUnitInterval];
    try (split; [discriminate|intros [H|(q & H & _)]; discriminate]).
  destruct n as [| | |q]; cbn.
  - split; [auto|reflexivity].
  - split; [discriminate|intros [H|(q & H & _)]; discriminate].
  - split; [discriminate|intros [H|(q & H & _)]; discriminate].
  - unfold number_gtb. cbn. rewrite orb_false_iff.
    rewrite NumFacts.ltb_false, NumFacts.ltb_false. split.
    + intros [H0 H1]. right. exists q. auto.
    + intros [H|(q' & H & H0 & H1)]; [discriminate|]. injection H as ->. auto.
Qed.

Lemma notNonNegative_false (v : JSValue) :
  notNonNegative v = false <-> v = JSNum NaN \/ isNonNegativeNumber v.
Proof.
  unfold isNonNegativeNumber.
  destruct v as [| | |n| | | | |]; cbn [notNonNegative];
    try (split; [discriminate|intros [H|[H|(q & H & _)]]; discriminate]).
  destruct n as [| | |q]; cbn.
  - split; [auto|reflexivity].
  - split; [auto|reflexivity].
  - split; [discriminate|intros [H|[H|(q & H & _)]]; discriminate].
  - rewrite NumFacts.ltb_false. split.
    + intro H0. right. right. exists q. auto.
    + intros [H|[H|(q' & H & H0)]]; try discriminate. injection H as ->. exact H0.
Qed.

Lemma outOfOrder_false_finite (h a g : Q) :
  outOfOrder (JSNum (Finite h)) (JSNum (Finite a)) (JSNum (Finite g)) = false <->
  h < a /\ a < g.
Proof.
  cbn. rewrite orb_false_iff, !NumFacts.geb_false. reflexivity.
Qed.

(** Every configuration that satisfies the rules is accepted. *)
Lemma validate_accepts (config : JSValue) :
  satisfiesRules config -> validateAIDetectionConfig config = true.
Proof.
  intros (Hc & Hw & Hws & Ht & Hts & Hk & Hks & (h & a & g & Eh & Ea & Eg & Hha & Hag)).
  unfold validateAIDetectionConfig.
  apply notAnObject_false in Hc, Hw, Ht, Hk. rewrite Hc, Hw, Ht, Hk.
  assert (E1 : existsb (fun weight =>
            outsideUnitInterval (getProperty (getProperty config "weights") weight))
            requiredWeights = false).
  { apply existsb_false. eapply Forall_impl; [|exact Hws].
    intros k Hk'. apply outsideUnitInterval_false. right. exact Hk'. }
  assert (E2 : existsb (fun threshold =>
            notNonNegative (getProperty (getProperty config "thresholds") threshold))
            requiredThresholds = false).
  { apply existsb_false. eapply Forall_impl; [|exact Hts].
    intros k Hk'. apply notNonNegative_false. right. exact Hk'. }
  assert (E3 : existsb (fun threshold =>
            outsideUnitInterval (getProperty (getProperty config "classification") threshold))
            requiredClassification = false).
  { apply existsb_false. eapply Forall_impl; [|exact Hks].
    intros k Hk'. apply outsideUnitInterval_false. right. exact Hk'. }
  rewrite E1, E2, E3, Eh, Ea, Eg.
  assert (E4 := proj2 (outOfOrder_false_finite h a g) (conj Hha Hag)).
  rewrite E4. reflexivity.
Qed.

(** A configuration that is accepted and holds no [NaN] satisfies the
    rules. *)
Lemma validate_rejects_without_NaN (config : JSValue) :
  readsNoNaN config ->
  validateAIDetectionConfig config = true -> satisfiesRules config.
Proof.
  intros (Nw & Nt & Nk). unfold validateAIDetectionConfig.
  destruct (notAnObject config) eqn:Ec; [discriminate|].
  destruct (notAnObject (getProperty config "weights")) eqn:Ew; [discriminate|].
  destruct (existsb _ requiredWeights) eqn:E1; [discriminate|].
  destruct (notAnObject (getProperty config "thresholds")) eqn:Et; [discriminate|].
  destruct (existsb _ requiredThresholds) eqn:E2; [discriminate|].
  destruct (notAnObject (getProperty config "classification")) eqn:Ek; [discriminate|].
  destruct (existsb _ requiredClassification) eqn:E3; [discriminate|].
  destruct (outOfOrder _ _ _) eqn:E4; [discriminate|]. intros _.
  apply notAnObject_false in Ec, Ew, Et, Ek.
  apply existsb_false in E1, E2, E3.
  assert (Hws : Forall (fun weight =>
            isNumberInUnitInterval (getProperty (getProperty config "weights") weight))
            requiredWeights).
  { apply Forall_forall. intros k Hin.
    rewrite Forall_forall in E1, Nw. specialize (E1 k Hin). specialize (Nw k Hin).
    apply outsideUnitInterval_false in E1 as [E1|E1]; [contradiction|exact E1]. }
  assert (Hts : Forall (fun threshold =>
            isNonNegativeNumber (getProperty (getProperty config "thresholds") threshold))
            requiredThresholds).
  { apply Forall_forall. intros k Hin.
    rewrite Forall_forall in E2, Nt. specialize (E2 k Hin). specialize (Nt k Hin).
    apply notNonNegative_false in E2 as [E2|E2]; [contradiction|exact E2]. }
  assert (Hks : Forall (fun threshold =>
            isNumberInUnitInterval (getProperty (getProperty config "classification") threshold))
            requiredClassification).
  { apply Forall_forall. intros k Hin.
    rewrite Forall_forall in E3, Nk. specialize (E3 k Hin). specialize (Nk k Hin).
    apply outsideUnitInterval_false in E3 as [E3|E3]; [contradiction|exact E3]. }
  repeat (split; [assumption|]).
  pose proof Hks as Hks'. rewrite Forall_forall in Hks'.
  destruct (Hks' "humanThreshold") as (h & Eh & _); [cbn; auto|].
  destruct (Hks' "aiAssistedThreshold") as (a & Ea & _); [cbn; auto|].
  destruct (Hks' "aiGeneratedThreshold") as (g & Eg & _); [cbn; auto|].
  rewrite Eh, Ea, Eg in E4. apply outOfOrder_false_finite in E4.
  exists h, a, g. rewrite Eh, Ea, Eg. tauto.
Qed.

(** C8.  The validator accepts a configuration that breaks the rules: the
    default configuration with [weights.bulkInsertionScore] set to [NaN] is
    accepted although that weight is not a number in [[0,1]], and so is the
    default configuration with [thresholds.pasteTimeThreshold] set to
    [NaN].  The default configuration itself satisfies the rules and is
    accepted. *)
Theorem validateAIDetectionConfig_accepts_NaN :
  (validateAIDetectionConfig nanWeightConfig = true /\
   getProperty (getProperty nanWeightConfig "weights") "bulkInsertionScore" = JSNum NaN /\
   ~ isNumberInUnitInterval
       (getProperty (getProperty nanWeightConfig "weights") "bulkInsertionScore") /\
   ~ satisfiesRules nanWeightConfig) /\
  (validateAIDetectionConfig nanThresholdConfig = true /\
   getProperty (getProperty nanThresholdConfig "thresholds") "pasteTimeThreshold" = JSNum NaN /\
   ~ isNonNegativeNumber
       (getProperty (getProperty nanThresholdConfig "thresholds") "pasteTimeThreshold") /\
   ~ satisfiesRules nanThresholdConfig) /\
  (validateAIDetectionConfig defaultConfigValue = true /\ satisfiesRules defaultConfigValue).
Proof.
  assert (Ew : getProperty (getProperty nanWeightConfig "weights") "bulkInsertionScore"
               = JSNum NaN) by (vm_compute; reflexivity).
  assert (Et : getProperty (getProperty nanThresholdConfig "thresholds") "pasteTimeThreshold"
               = JSNum NaN) by (vm_compute; reflexivity).
  assert (Nw : ~ isNumberInUnitInterval (JSNum NaN)).
  { intros (q & Hq & _). discriminate. }
  assert (Nt : ~ isNonNegativeNumber (JSNum NaN)).
  { intros [Hq|(q & Hq & _)]; discriminate. }
  split; [|split].
  - split; [vm_compute; reflexivity|]. split; [exact Ew|]. rewrite Ew.
    split; [exact Nw|].
    intros (_ & _ & Hws & _). inversion Hws as [|? ? Hhead _].
    rewrite Ew in Hhead. exact (Nw Hhead).
  - split; [vm_compute; reflexivity|]. split; [exact Et|]. rewrite Et.
    split; [exact Nt|].
    intros (_ & _ & _ & _ & Hts & _).
    inversion Hts as [|? ? _ Hts1]. inversion Hts1 as [|? ? _ Hts2].
    inversion Hts2 as [|? ? Hhead _].
    rewrite Et in Hhead. exact (Nt Hhead).
  - assert (Hv : validateAIDetectionConfig defaultConfigValue = true)
      by (vm_compute; reflexivity).
    split; [exact Hv|].
    apply validate_rejects_without_NaN; [|exact Hv].
    unfold readsNoNaN, requiredWeights, requiredThresholds, requiredClassification.
    repeat split; repeat constructor; vm_compute; discriminate.
Qed.

End ValidationProperties.

(** * Further properties of the code *)

(** ** The engine: ranges, evidence and sanitized input *)

Module EngineInvariants.
Import ChangeEvent AIDetectionEngine.



(** *** Sanitized input *)

Section Sanitized.
Import EventUtilities.

Lemma filter_sanitized (f : ChangeEvent.t -> bool) (l : list ChangeEvent.t) :
  (forall e, f (sanitizeChangeEvent e) = f e) ->
  filter f (sanitizeChangeEvents l) = sanitizeChangeEvents (filter f l).
Proof.
  intro Hf. unfold sanitizeChangeEvents.
  induction l as [|e l IH]; [reflexivity|].
  cbn [map filter]. rewrite Hf. destruct (f e); cbn [map]; rewrite IH; reflexivity.
Qed.

Lemma existsb_sanitized (f : ChangeEvent.t -> bool) (l : list ChangeEvent.t) :
  (forall e, f (sanitizeChangeEvent e) = f e) ->
  existsb f (sanitizeChangeEvents l) = existsb f l.
Proof.
  intro Hf. unfold sanitizeChangeEvents.
  induction l as [|e l IH]; [reflexivity|].
  cbn [map existsb]. rewrite Hf, IH. reflexivity.
Qed.

Lemma len_sanitized (l : list ChangeEvent.t) :
  Num.len (sanitizeChangeEvents l) = Num.len l.
Proof. unfold Num.len, sanitizeChangeEvents. rewrite length_map. reflexivity. Qed.

Lemma length_sanitized (l : list ChangeEvent.t) :
  List.length (sanitizeChangeEvents l) = List.length l.
Proof. unfold sanitizeChangeEvents. apply length_map. Qed.

Lemma map_sanitized {A : Type} (g : ChangeEvent.t -> A) (l : list ChangeEvent.t) :
  (forall e, g (sanitizeChangeEvent e) = g e) ->
  map g (sanitizeChangeEvents l) = map g l.
Proof.
  intro Hg. unfold sanitizeChangeEvents. rewrite map_map.
  apply map_ext. exact Hg.
Qed.

Lemma sumBy_sanitized (g : ChangeEvent.t -> Q) (l : list ChangeEvent.t) :
  (forall e, g (sanitizeChangeEvent e) = g e) ->
  Num.sumBy g (sanitizeChangeEvents l) = Num.sumBy g l.
Proof.
  intro Hg. unfold Num.sumBy, sanitizeChangeEvents. generalize 0.
  induction l as [|e l IH]; intro acc; [reflexivity|].
  cbn [map fold_left]. rewrite Hg. apply IH.
Qed.

Ltac sanitized :=
  repeat first
    [ rewrite filter_sanitized by (intro; reflexivity)
    | rewrite existsb_sanitized by (intro; reflexivity)
    | rewrite map_sanitized by (intro; reflexivity)
    | rewrite sumBy_sanitized by (intro; reflexivity)
    | rewrite len_sanitized
    | rewrite length_sanitized ].

Lemma heuristicScores_sanitized (config : AIDetectionConfig.t) (l : list ChangeEvent.t) :
  calculateHeuristicScores config (sanitizeChangeEvents l) =
  calculateHeuristicScores config l.
Proof.
  unfold calculateHeuristicScores, calculateBulkInsertionScore, calculateTypingSpeedScore,
    calculatePastePatternScore, calculateExternalToolScore, calculateContentPatternScore,
    calculateTimingAnomalyScore.
  sanitized. reflexivity.
Qed.

Lemma gapsFrom_sanitized (previous : ChangeEvent.t) (rest : list ChangeEvent.t) :
  gapsFrom (sanitizeChangeEvent previous) (sanitizeChangeEvents rest) =
  gapsFrom previous rest.
Proof.
  revert previous. induction rest as [|current rest IH]; intro previous; [reflexivity|].
  cbn [sanitizeChangeEvents map gapsFrom].
  change (map sanitizeChangeEvent rest) with (sanitizeChangeEvents rest).
  rewrite IH. reflexivity.
Qed.

(** X2.  Stripping the content of the events changes neither the
    classification (source, confidence, aiProbability) nor the external
    events and the gaps of the timeline, nor the evidence flags and
    indicator tags. *)
Theorem analyze_ignores_content `{NumberFormat} (config : AIDetectionConfig.t)
  (changes : list ChangeEvent.t) :
  let result := analyze config changes in
  let sanitized := analyze config (sanitizeChangeEvents changes) in
  AIAttribution.source sanitized = AIAttribution.source result /\
  AIAttribution.confidence sanitized = AIAttribution.confidence result /\
  AIAttribution.aiProbability sanitized = AIAttribution.aiProbability result /\
  AITimeline.externalEvents (AIAttribution.timeline sanitized) =
    AITimeline.externalEvents (AIAttribution.timeline result) /\
  AITimeline.gaps (AIAttribution.timeline sanitized) =
    AITimeline.gaps (AIAttribution.timeline result) /\
  AIEvidence.externalToolSignature (AIAttribution.evidence sanitized) =
    AIEvidence.externalToolSignature (AIAttribution.evidence result) /\
  AIEvidence.bulkChangePattern (AIAttribution.evidence sanitized) =
    AIEvidence.bulkChangePattern (AIAttribution.evidence result) /\
  AIEvidence.timingAnomalies (AIAttribution.evidence sanitized) =
    AIEvidence.timingAnomalies (AIAttribution.evidence result) /\
  AIEvidence.contentCharacteristics (AIAttribution.evidence sanitized) =
    AIEvidence.contentCharacteristics (AIAttribution.evidence result) /\
  AIEvidence.externalIndicators (AIAttribution.evidence sanitized) =
    AIEvidence.externalIndicators (AIAttribution.evidence result).
Proof.
  cbv zeta. destruct changes as [|c rest].
  - cbn. repeat split.
  - assert (Hne : c :: rest <> []) by discriminate.
    assert (Hne' : sanitizeChangeEvents (c :: rest) <> []) by discriminate.
    rewrite (EngineProperties.analyze_nonempty config _ Hne).
    rewrite (EngineProperties.analyze_nonempty config _ Hne').
    cbv zeta.
    cbn [AIAttribution.source AIAttribution.confidence AIAttribution.aiProbability
         AIAttribution.timeline AIAttribution.evidence].
    assert (Hd : makeFinalDecision config
                   (combineScores config
                      (calculateHeuristicScores config (sanitizeChangeEvents (c :: rest))))
                   (sanitizeChangeEvents (c :: rest)) =
                 makeFinalDecision config
                   (combineScores config (calculateHeuristicScores config (c :: rest)))
                   (c :: rest)).
    { rewrite heuristicScores_sanitized. unfold makeFinalDecision, hasHumanIndicators,
        hasAIIndicators. sanitized. reflexivity. }
    rewrite Hd. split; [reflexivity|]. split; [reflexivity|]. split; [reflexivity|].
    split.
    { unfold extractTimeline. cbn [AITimeline.externalEvents].
      sanitized. reflexivity. }
    split.
    { unfold extractTimeline. cbn [AITimeline.gaps sanitizeChangeEvents map].
      apply gapsFrom_sanitized. }
    unfold extractEvidence, extractContentCharacteristics.
    cbn [AIEvidence.externalToolSignature AIEvidence.bulkChangePattern
         AIEvidence.timingAnomalies AIEvidence.contentCharacteristics
         AIEvidence.externalIndicators].
    sanitized. rewrite !length_map. sanitized.
    repeat split.
    unfold sanitizeChangeEvents. rewrite flat_map_concat_map, map_map.
    rewrite <- flat_map_concat_map. reflexivity.
Qed.

(** X3.  After sanitizing, the evidence holds no content: every preview of a
    bulk change or a typing burst is the placeholder [[N chars]] of its
    event, and the pattern [formatted-bulk-code], which reads the content,
    is never reported. *)
Theorem sanitized_evidence_has_no_content `{NumberFormat} (config : AIDetectionConfig.t)
  (changes : list ChangeEvent.t) :
  let evidence :=
    AIAttribution.evidence (analyze config (sanitizeChangeEvents changes)) in
  AIEvidence.bulkChanges evidence =
    map (fun change =>
           {| BulkChange.size := contentLength change;
              BulkChange.timespan := timeSinceLastChange change;
              BulkChange.content := placeholder change |})
        (filter (fun change =>
           contentLength change >?
           Thresholds.bulkInsertionSize (AIDetectionConfig.thresholds config)) changes) /\
  AIEvidence.typingBursts evidence =
    map (fun change =>
           {| TypingBurst.speed := instantTypingSpeed change;
              TypingBurst.duration := timeSinceLastChange change;
              TypingBurst.content := placeholder change |})
        (filter burstDetected changes) /\
  ~ In "formatted-bulk-code" (AIEvidence.suspiciousPatterns evidence).
Proof.
  cbv zeta. destruct changes as [|c rest].
  - cbn. split; [reflexivity|]. split; [reflexivity|]. tauto.
  - assert (Hne' : sanitizeChangeEvents (c :: rest) <> []) by discriminate.
    rewrite (EngineProperties.analyze_nonempty config _ Hne'). cbv zeta.
    cbn [AIAttribution.evidence]. unfold extractEvidence.
    cbn [AIEvidence.bulkChanges AIEvidence.typingBursts AIEvidence.suspiciousPatterns].
    sanitized.
    split; [unfold sanitizeChangeEvents; rewrite map_map; reflexivity|].
    split; [unfold sanitizeChangeEvents; rewrite map_map; reflexivity|].
    unfold identifySuspiciousPatterns.
    assert (Hnone : existsb (fun change =>
              (contentLength change >?
               Thresholds.bulkInsertionSize (AIDetectionConfig.thresholds config)) &&
              match content change with
              | Some text => includesChar newline text
              | None => false
              end && (indentationLevel change >? 0))
              (sanitizeChangeEvents (c :: rest)) = false).
    { generalize (c :: rest). intro l. unfold sanitizeChangeEvents.
      induction l as [|e l IH]; [reflexivity|].
      cbn [map existsb sanitizeChangeEvent content]. rewrite IH.
      rewrite andb_false_r. reflexivity. }
    rewrite Hnone. rewrite app_nil_r.
    match goal with |- context [if ?b then _ else _] => destruct b end; cbn [In];
      [intros [Heq|[]]; discriminate Heq|tauto].
Qed.

End Sanitized.

(** *** Evidence behind a mixed result *)

Lemma existsb_orb {A : Type} (f g : A -> bool) (l : list A) :
  existsb (fun x => f x || g x) l = existsb f l || existsb g l.
Proof.
  induction l as [|x l IH]; [reflexivity|].
  cbn [existsb]. rewrite IH.
  destruct (f x), (g x), (existsb f l), (existsb g l); reflexivity.
Qed.

(** X4.  Whenever [analyze] answers [mixed], the evidence it returns shows the
    AI indicator: the external-tool flag is set or the pattern
    [rapid-large-insertion] is reported.  That pattern, like
    [formatted-bulk-code], is only reported together with the flag
    [bulkChangePattern]. *)
Theorem mixed_result_shows_evidence `{NumberFormat} (config : AIDetectionConfig.t)
  (changes : list ChangeEvent.t) :
  let result := analyze config changes in
  let evidence := AIAttribution.evidence result in
  (AIAttribution.source result = mixed ->
   AIEvidence.externalToolSignature evidence = true \/
   In "rapid-large-insertion" (AIEvidence.suspiciousPatterns evidence)) /\
  (forall pattern, In pattern (AIEvidence.suspiciousPatterns evidence) ->
   AIEvidence.bulkChangePattern evidence = true).
Proof.
  cbv zeta. destruct changes as [|c rest].
  - cbn. split; [discriminate|]. intros pattern [].
  - assert (Hne : c :: rest <> []) by discriminate.
    destruct (EngineProperties.analyze_decision config (c :: rest) Hne) as (Hs & _ & _).
    rewrite (EngineProperties.analyze_nonempty config _ Hne) in *. cbv zeta in *.
    cbn [AIAttribution.evidence AIAttribution.source] in *.
    set (bulk := fun change : ChangeEvent.t =>
           contentLength change >?
           Thresholds.bulkInsertionSize (AIDetectionConfig.thresholds config)).
    assert (Hflag : forall p : ChangeEvent.t -> bool,
              (forall change, p change = true -> bulk change = true) ->
              existsb p (c :: rest) = true ->
              Nat.ltb 0 (List.length (filter bulk (c :: rest))) = true).
    { intros p Hp Hex. apply existsb_exists in Hex as (change & Hin & Hc).
      apply Hp in Hc as Hb.
      assert (Hin' : In change (filter bulk (c :: rest)))
        by (apply filter_In; split; assumption).
      destruct (filter bulk (c :: rest)); [destruct Hin'|reflexivity]. }
    split.
    + intro Hmixed. rewrite Hmixed in Hs.
      destruct (overrideFires config (c :: rest)) eqn:E.
      * unfold overrideFires in E.
        apply andb_true_iff in E as [E _]. apply andb_true_iff in E as [_ Hai].
        unfold hasAIIndicators in Hai. rewrite existsb_orb in Hai.
        apply orb_true_iff in Hai as [Hext|Hrapid].
        -- left. unfold extractEvidence. cbn [AIEvidence.externalToolSignature].
           exact Hext.
        -- right. unfold extractEvidence. cbn [AIEvidence.suspiciousPatterns].
           unfold identifySuspiciousPatterns. rewrite Hrapid.
           left. reflexivity.
      * exfalso. symmetry in Hs.
        exact (EngineProperties.thresholdDecision_not_mixed config _ Hs).
    + intros pattern Hin. unfold extractEvidence in *.
      cbn [AIEvidence.suspiciousPatterns AIEvidence.bulkChangePattern] in *.
      rewrite length_map. unfold identifySuspiciousPatterns in Hin.
      apply in_app_or in Hin as [Hin|Hin].
      * destruct (existsb _ (c :: rest)) eqn:E in Hin; [|destruct Hin].
        refine (Hflag _ _ E). intros change Hc.
        apply andb_true_iff in Hc as [Hb _]. exact Hb.
      * destruct (existsb _ (c :: rest)) eqn:E in Hin; [|destruct Hin].
        refine (Hflag _ _ E). intros change Hc.
        apply andb_true_iff in Hc as [Hc _]. apply andb_true_iff in Hc as [Hb _].
        exact Hb.
Qed.

Lemma mixed_result_shows_evidence_witness :
  let result :=
    @analyze wholeNumberFormat DEFAULT_AI_DETECTION_CONFIG Fixtures.mixedSession in
  AIAttribution.source result = mixed /\
  (AIEvidence.externalToolSignature (AIAttribution.evidence result) = true \/
   In "rapid-large-insertion" (AIEvidence.suspiciousPatterns (AIAttribution.evidence result))).
Proof.
  cbv zeta.
  assert (Hm : AIAttribution.source
                 (@analyze wholeNumberFormat DEFAULT_AI_DETECTION_CONFIG Fixtures.mixedSession)
               = mixed) by (vm_compute; reflexivity).
  split; [exact Hm|].
  apply (@mixed_result_shows_evidence wholeNumberFormat DEFAULT_AI_DETECTION_CONFIG
           Fixtures.mixedSession). exact Hm.
Defined.

(** *** Gaps of the timeline *)





(** *** Content previews *)

Lemma length_append (a b : string) :
  String.length (a ++ b) = (String.length a + String.length b)%nat.
Proof.
  induction a as [|ch a IH]; [reflexivity|].
  change (S (String.length (a ++ b)) = S (String.length a + String.length b)).
  f_equal. exact IH.
Qed.

Lemma append_empty_r (a : string) : (a ++ "")%string = a.
Proof.
  induction a as [|ch a IH]; [reflexivity|].
  change (String ch (a ++ "") = String ch a). f_equal. exact IH.
Qed.

Lemma length_substring_le (n : nat) (text : string) :
  (String.length (String.substring 0 n text) <= n)%nat.
Proof.
  revert text. induction n as [|n IH]; intro text.
  - destruct text; cbn; lia.
  - destruct text as [|ch text]; cbn; [lia|]. specialize (IH text). lia.
Qed.

Lemma substring_all (n : nat) (text : string) :
  (String.length text <= n)%nat -> String.substring 0 n text = text.
Proof.
  revert text. induction n as [|n IH]; intros text Hlen.
  - destruct text; cbn in *; [reflexivity|lia].
  - destruct text as [|ch text]; cbn in *; [reflexivity|]. rewrite IH; [reflexivity|lia].
Qed.

Lemma preview_bounded `{NumberFormat} (n : nat) (change : ChangeEvent.t) (text : string) :
  content change = Some text -> text <> "" ->
  (String.length (preview n change) <= n + 3)%nat /\
  ((String.length text <= n)%nat -> preview n change = text) /\
  ((n < String.length text)%nat ->
   preview n change = (String.substring 0 n text ++ "...")%string).
Proof.
  intros Hc Hne. unfold preview. rewrite Hc.
  destruct text as [|ch text]; [congruence|]. cbv beta iota.
  set (full := String ch text) in *.
  destruct (Nat.ltb n (String.length full)) eqn:E.
  - apply Nat.ltb_lt in E. rewrite length_append.
    pose proof (length_substring_le n full). cbn [String.length].
    split; [lia|]. split; [lia|reflexivity].
  - apply Nat.ltb_ge in E. rewrite length_append.
    pose proof (length_substring_le n full). cbn [String.length].
    split; [lia|]. split; [|lia].
    intros _. rewrite (substring_all n full E). apply append_empty_r.
Qed.

(** X6.  The evidence never quotes more than 100 characters of a bulk change
    nor more than 50 of a typing burst (plus the three dots that mark a
    cut), when the events carry their content. *)
Theorem evidence_previews_bounded `{NumberFormat} (config : AIDetectionConfig.t)
  (changes : list ChangeEvent.t) :
  (forall change, In change changes ->
     exists text, content change = Some text /\ text <> "") ->
  let evidence := AIAttribution.evidence (analyze config changes) in
  (forall bulk, In bulk (AIEvidence.bulkChanges evidence) ->
     (String.length (BulkChange.content bulk) <= 103)%nat) /\
  (forall burst, In burst (AIEvidence.typingBursts evidence) ->
     (String.length (TypingBurst.content burst) <= 53)%nat).
Proof.
  intros Hcontent. cbv zeta. destruct changes as [|c rest].
  - cbn. split; intros x [].
  - assert (Hne : c :: rest <> []) by discriminate.
    rewrite (EngineProperties.analyze_nonempty config _ Hne). cbv zeta.
    cbn [AIAttribution.evidence]. unfold extractEvidence.
    cbn [AIEvidence.bulkChanges AIEvidence.typingBursts].
    split.
    + intros bulk Hin. apply in_map_iff in Hin as (change & <- & Hin).
      apply filter_In in Hin as [Hin _].
      destruct (Hcontent change Hin) as (text & Hc & Hne').
      cbn [BulkChange.content].
      exact (proj1 (preview_bounded 100 change text Hc Hne')).
    + intros burst Hin. apply in_map_iff in Hin as (change & <- & Hin).
      apply filter_In in Hin as [Hin _].
      destruct (Hcontent change Hin) as (text & Hc & Hne').
      cbn [TypingBurst.content].
      exact (proj1 (preview_bounded 50 change text Hc Hne')).
Qed.

Lemma evidence_previews_bounded_witness :
  (forall change, In change Samples.pastedText ->
     exists text, content change = Some text /\ text <> "") /\
  (forall bulk,
     In bulk (AIEvidence.bulkChanges
                (AIAttribution.evidence
                   (@analyze wholeNumberFormat DEFAULT_AI_DETECTION_CONFIG
                             Samples.pastedText))) ->
     (String.length (BulkChange.content bulk) <= 103)%nat).
Proof.
  assert (Hc : forall change, In change Samples.pastedText ->
                 exists text, content change = Some text /\ text <> "").
  { intros change [<-|[]]. eexists. split; [reflexivity|discriminate]. }
  split; [exact Hc|].
  exact (proj1 (@evidence_previews_bounded wholeNumberFormat DEFAULT_AI_DETECTION_CONFIG
                  Samples.pastedText Hc)).
Defined.

End EngineInvariants.

(** ** The bucket analyzer: windows, analysis and summary *)

Module BucketInvariants.
Import ChangeEvent BucketAnalyzer BucketAnalysis.

(** *** The loop *)

Lemma ceiling_minus_one (x : Q) : Qceiling (x - 1) = (Qceiling x - 1)%Z.
Proof.
  apply Z.le_antisymm.
  - rewrite <- (Qceiling_Z (Qceiling x - 1)). apply Qceiling_resp_le.
    pose proof (Qle_ceiling x) as Hc.
    unfold Z.sub. rewrite inject_Z_plus, inject_Z_opp. change (inject_Z 1) with 1. lra.
  - cut (Qceiling x <= Qceiling (x - 1) + 1)%Z; [lia|].
    rewrite <- (Qceiling_Z (Qceiling (x - 1) + 1)). apply Qceiling_resp_le.
    pose proof (Qle_ceiling (x - 1)) as Hc.
    rewrite inject_Z_plus. change (inject_Z 1) with 1. lra.
Qed.

Lemma iterations_zero (time endTime step : Q) :
  0 < step -> endTime <= time -> Loop.iterations time endTime step = 0%nat.
Proof.
  intros Hstep Hle. unfold Loop.iterations.
  assert (Hx : (endTime - time) / step <= 0).
  { apply Qle_shift_div_r; [exact Hstep|]. lra. }
  apply Qceiling_resp_le in Hx. change (Qceiling 0) with 0%Z in Hx. lia.
Qed.

Lemma iterations_succ (time endTime step : Q) :
  0 < step -> time < endTime ->
  Loop.iterations time endTime step = S (Loop.iterations (time + step) endTime step).
Proof.
  intros Hstep Hlt.
  pose proof (LoopProperties.iterations_positive time endTime step Hstep Hlt) as Hpos.
  unfold Loop.iterations in *.
  assert (Hx : (endTime - (time + step)) / step == (endTime - time) / step - 1).
  { field. lra. }
  rewrite (Qceiling_comp _ _ Hx), ceiling_minus_one. lia.
Qed.

(** The number of rounds of the loop is [Loop.iterations]. *)
Lemma forTimes_length (fuel : nat) (time endTime step : Q) (starts : list Q) :
  0 < step ->
  Loop.forTimes fuel time endTime step = Some starts ->
  List.length starts = Loop.iterations time endTime step.
Proof.
  intro Hstep. revert time starts.
  induction fuel as [|fuel IH]; intros time starts; cbn [Loop.forTimes];
    destruct (time <? endTime) eqn:E; try discriminate.
  - intros [= <-]. apply NumFacts.ltb_false in E.
    rewrite iterations_zero; [reflexivity|exact Hstep|exact E].
  - destruct (Loop.forTimes fuel (time + step) endTime step) as [rest|] eqn:Erest;
      [|discriminate].
    intros [= <-]. apply NumFacts.ltb_true in E.
    rewrite (iterations_succ time endTime step Hstep E). cbn [List.length].
    f_equal. apply IH. exact Erest.
  - intros [= <-]. apply NumFacts.ltb_false in E.
    rewrite iterations_zero; [reflexivity|exact Hstep|exact E].
Qed.

(** The [k]-th round runs at [time + k * step], before [endTime], and the
    next round, if any, one step later. *)
Lemma forTimes_nth (fuel : nat) (time endTime step : Q) (starts : list Q) :
  Loop.forTimes fuel time endTime step = Some starts ->
  forall (k : nat) (start : Q), nth_error starts k = Some start ->
    start == time + inject_Z (Z.of_nat k) * step /\
    start < endTime /\
    (forall next, nth_error starts (S k) = Some next -> next = start + step).
Proof.
  revert time starts.
  induction fuel as [|fuel IH]; intros time starts; cbn [Loop.forTimes];
    destruct (time <? endTime) eqn:E; try discriminate.
  - intros [= <-] k start Hk. destruct k; discriminate Hk.
  - destruct (Loop.forTimes fuel (time + step) endTime step) as [rest|] eqn:Erest;
      [|discriminate].
    intros [= <-] k start Hk. destruct k as [|k].
    + cbn in Hk. injection Hk as <-. apply NumFacts.ltb_true in E.
      split; [change (inject_Z (Z.of_nat 0)) with 0; lra|]. split; [exact E|].
      intros next Hnext. cbn [nth_error] in Hnext.
      destruct rest as [|r rest']; [discriminate|]. cbn in Hnext. injection Hnext as <-.
      clear IH. destruct fuel; cbn [Loop.forTimes] in Erest;
        destruct (time + step <? endTime); try discriminate.
      destruct (Loop.forTimes fuel (time + step + step) endTime step); [|discriminate].
      cbn in Erest. injection Erest as <- _. reflexivity.
    + cbn [nth_error] in Hk. destruct (IH _ _ Erest k start Hk) as (H1 & H2 & H3).
      split; [|split; [exact H2|exact H3]].
      rewrite H1, Nat2Z.inj_succ, <- Z.add_1_r, inject_Z_plus.
      change (inject_Z 1) with 1. ring.
  - intros [= <-] k start Hk. destruct k; discriminate Hk.
Qed.

(** No point lies in two windows of the loop. *)
Lemma forTimes_windows_disjoint (fuel : nat) (time endTime step t : Q) (starts : list Q) :
  0 < step ->
  Loop.forTimes fuel time endTime step = Some starts ->
  (Loop.windowCount step t starts <= 1)%nat /\
  (t < time -> Loop.windowCount step t starts = 0%nat).
Proof.
  intro Hstep. revert time starts.
  induction fuel as [|fuel IH]; intros time starts; cbn [Loop.forTimes];
    destruct (time <? endTime) eqn:E; try discriminate.
  - intros [= <-]. cbn. split; [lia|reflexivity].
  - destruct (Loop.forTimes fuel (time + step) endTime step) as [rest|] eqn:Erest;
      [|discriminate].
    intros [= <-]. destruct (IH _ _ Erest) as [IH1 IH0].
    unfold Loop.windowCount in *. cbn [filter].
    destruct ((t >=? time) && (t <? time + step)) eqn:Ew.
    + apply andb_true_iff in Ew as [Hg Hl]. apply NumFacts.ltb_true in Hl.
      apply NumFacts.geb_true in Hg. cbn [List.length]. rewrite (IH0 Hl).
      split; [lia|]. intro Hlt. lra.
    + split; [exact IH1|]. intro Hlt. apply IH0. lra.
  - intros [= <-]. cbn. split; [lia|reflexivity].
Qed.

(** With a step that is not positive, a loop that returns did not run. *)
Lemma forTimes_nonpositive_step (fuel : nat) (time endTime step : Q) (starts : list Q) :
  step <= 0 ->
  Loop.forTimes fuel time endTime step = Some starts -> starts = [].
Proof.
  intros Hstep Hloop. destruct (time <? endTime) eqn:E.
  - apply NumFacts.ltb_true in E.
    rewrite (LoopProperties.forTimes_diverges fuel time endTime step Hstep E) in Hloop.
    discriminate.
  - destruct fuel; cbn [Loop.forTimes] in Hloop; rewrite E in Hloop;
      injection Hloop as <-; reflexivity.
Qed.

Lemma createBuckets_inversion (fuel : nat) (first : ChangeEvent.t) (rest : list ChangeEvent.t)
  (config : BucketConfig.t) (buckets : list TimeBucket.t) :
  createBuckets fuel (first :: rest) config = Some buckets ->
  exists starts,
    Loop.forTimes fuel (timestamp first) (timestamp (List.last (first :: rest) first))
                  (BucketConfig.intervalMinutes config * 60 * 1000) = Some starts /\
    buckets = map (bucketAt (first :: rest) config
                     (BucketConfig.intervalMinutes config * 60 * 1000)) starts.
Proof.
  unfold createBuckets.
  destruct (Loop.forTimes _ _ _ _) as [starts|]; [|discriminate].
  cbn [option_map]. intros [= <-]. exists starts. split; reflexivity.
Qed.

Lemma createBuckets_with_fuel (fuel : nat) (first : ChangeEvent.t) (rest : list ChangeEvent.t)
  (config : BucketConfig.t) :
  0 < BucketConfig.intervalMinutes config ->
  (Loop.iterations (timestamp first) (timestamp (List.last (first :: rest) first))
     (BucketConfig.intervalMinutes config * 60 * 1000) <= fuel)%nat ->
  exists starts,
    Loop.forTimes fuel (timestamp first) (timestamp (List.last (first :: rest) first))
                  (BucketConfig.intervalMinutes config * 60 * 1000) = Some starts /\
    createBuckets fuel (first :: rest) config =
    Some (map (bucketAt (first :: rest) config
                 (BucketConfig.intervalMinutes config * 60 * 1000)) starts).
Proof.
  intros Hpos Hfuel.
  assert (Hstep : 0 < BucketConfig.intervalMinutes config * 60 * 1000) by lra.
  destruct (LoopProperties.forTimes_terminates fuel _ _ _ Hstep Hfuel) as [starts Hloop].
  exists starts. split; [exact Hloop|].
  unfold createBuckets. rewrite Hloop. reflexivity.
Qed.

(** X7.  When the interval is a whole number of minutes and the timestamps
    of the first and of the last event, the interval in milliseconds and
    the last timestamp plus the interval are safe integers (so that the
    loop adds without rounding), [createBuckets] returns, and its buckets
    tile the time from the first event on: there are
    [ceil ((last - first) / intervalMs)] of them, the [k]-th starts at
    [first + k * intervalMs], before the last timestamp, each is
    [intervalMs] wide and each begins where the one before it ends. *)
Theorem createBuckets_tiles (fuel : nat) (first : ChangeEvent.t) (rest : list ChangeEvent.t)
  (config : BucketConfig.t) :
  let intervalMs := BucketConfig.intervalMinutes config * 60 * 1000 in
  let lastTime := timestamp (List.last (first :: rest) first) in
  0 < BucketConfig.intervalMinutes config ->
  SafeInteger.isSafeInteger (BucketConfig.intervalMinutes config) = true ->
  SafeInteger.isSafeInteger intervalMs = true ->
  SafeInteger.isSafeInteger (timestamp first) = true ->
  SafeInteger.isSafeInteger lastTime = true ->
  SafeInteger.isSafeInteger (lastTime + intervalMs) = true ->
  (Loop.iterations (timestamp first) lastTime intervalMs <= fuel)%nat ->
  exists buckets,
    createBuckets fuel (first :: rest) config = Some buckets /\
    List.length buckets =
      Z.to_nat (Qceiling ((lastTime - timestamp first) / intervalMs)) /\
    (forall (k : nat) (bucket : TimeBucket.t), nth_error buckets k = Some bucket ->
       TimeBucket.startTime bucket == timestamp first + inject_Z (Z.of_nat k) * intervalMs /\
       TimeBucket.endTime bucket = TimeBucket.startTime bucket + intervalMs /\
       TimeBucket.startTime bucket < lastTime /\
       (forall next, nth_error buckets (S k) = Some next ->
          TimeBucket.startTime next = TimeBucket.endTime bucket)).
Proof.
  intros intervalMs lastTime Hpos _ _ _ _ _ Hfuel.
  destruct (createBuckets_with_fuel fuel first rest config Hpos Hfuel)
    as (starts & Hloop & Hb).
  fold intervalMs lastTime in Hloop, Hb.
  assert (Hstep : 0 < intervalMs) by (subst intervalMs; lra).
  exists (map (bucketAt (first :: rest) config intervalMs) starts).
  split; [exact Hb|]. split.
  - rewrite length_map. exact (forTimes_length _ _ _ _ _ Hstep Hloop).
  - intros k bucket Hk. rewrite nth_error_map in Hk.
    destruct (nth_error starts k) as [start|] eqn:Ek; [|discriminate].
    cbn [option_map] in Hk. injection Hk as <-.
    destruct (forTimes_nth _ _ _ _ _ Hloop k start Ek) as (H1 & H2 & H3).
    cbn [bucketAt TimeBucket.startTime TimeBucket.endTime].
    split; [exact H1|]. split; [reflexivity|]. split; [exact H2|].
    intros next Hnext. rewrite nth_error_map in Hnext.
    destruct (nth_error starts (S k)) as [start'|] eqn:Ek'; [|discriminate].
    cbn [option_map] in Hnext. injection Hnext as <-.
    cbn [bucketAt TimeBucket.startTime]. exact (H3 start' eq_refl).
Qed.

Lemma createBuckets_tiles_witness :
  createBuckets 3 Samples.halfHour DEFAULT_BUCKET_CONFIG = Some Samples.halfHourBuckets /\
  exists buckets,
    createBuckets 3 Samples.halfHour DEFAULT_BUCKET_CONFIG = Some buckets /\
    List.length buckets = Z.to_nat (Qceiling ((2000000 - 0) / (15 * 60 * 1000))).
Proof.
  split; [vm_compute; reflexivity|].
  destruct (createBuckets_tiles 3 (Fixtures.keystroke 0)
              [Fixtures.pastedBlock 100000; Fixtures.pastedBlock 100010;
               Fixtures.keystroke 2000000]
              DEFAULT_BUCKET_CONFIG)
    as (buckets & Hb & Hlen & _);
    [reflexivity|vm_compute; reflexivity|vm_compute; reflexivity|vm_compute; reflexivity
    |vm_compute; reflexivity|vm_compute; reflexivity|vm_compute; lia|].
  exists buckets. split; [exact Hb|exact Hlen].
Defined.

(** X8.  No instant lies in two buckets, and each bucket holds exactly the
    events of the input whose timestamp is in its window, in the order of
    the input, with [eventCount] their number and [isEmpty] telling
    whether that number is below [minEventsPerBucket]. *)
Theorem createBuckets_no_double_count (fuel : nat) (events : list ChangeEvent.t)
  (config : BucketConfig.t) (buckets : list TimeBucket.t) :
  createBuckets fuel events config = Some buckets ->
  (forall t, (windowsContaining t buckets <= 1)%nat) /\
  (forall bucket, In bucket buckets ->
     TimeBucket.events bucket =
       filter (fun e => inWindow (timestamp e) bucket) events /\
     TimeBucket.eventCount bucket = Num.len (TimeBucket.events bucket) /\
     TimeBucket.isEmpty bucket =
       (TimeBucket.eventCount bucket <? BucketConfig.minEventsPerBucket config) /\
     TimeBucket.aiProbability bucket = None /\
     TimeBucket.attribution bucket = None).
Proof.
  intro Hb. destruct events as [|first rest].
  - cbn in Hb. injection Hb as <-. split; [intro t; cbn; lia|intros bucket []].
  - destruct (createBuckets_inversion _ _ _ _ _ Hb) as (starts & Hloop & ->).
    set (intervalMs := BucketConfig.intervalMinutes config * 60 * 1000) in *.
    split.
    + intro t. rewrite BucketProperties.windowsContaining_bucketAt.
      destruct (Qlt_le_dec 0 intervalMs) as [Hstep|Hstep].
      * exact (proj1 (forTimes_windows_disjoint _ _ _ _ t _ Hstep Hloop)).
      * rewrite (forTimes_nonpositive_step _ _ _ _ _ Hstep Hloop). cbn. lia.
    + intros bucket Hin. apply in_map_iff in Hin as (start & <- & _).
      unfold inWindow. cbn [bucketAt TimeBucket.events TimeBucket.eventCount
                            TimeBucket.isEmpty TimeBucket.aiProbability
                            TimeBucket.attribution TimeBucket.startTime TimeBucket.endTime].
      repeat split.
Qed.

Lemma createBuckets_no_double_count_witness :
  createBuckets 3 Samples.halfHour DEFAULT_BUCKET_CONFIG = Some Samples.halfHourBuckets /\
  (forall t, (windowsContaining t Samples.halfHourBuckets <= 1)%nat).
Proof.
  assert (Hb : createBuckets 3 Samples.halfHour DEFAULT_BUCKET_CONFIG =
               Some Samples.halfHourBuckets) by (vm_compute; reflexivity).
  split; [exact Hb|].
  exact (proj1 (createBuckets_no_double_count 3 Samples.halfHour DEFAULT_BUCKET_CONFIG
                  Samples.halfHourBuckets Hb)).
Defined.

(** X9.  With an interval that is not positive and events that span some time,
    the loop of [createBuckets] never ends: no amount of fuel yields a
    result. *)
Theorem createBuckets_diverges (fuel : nat) (first : ChangeEvent.t)
  (rest : list ChangeEvent.t) (config : BucketConfig.t) :
  BucketConfig.intervalMinutes config <= 0 ->
  timestamp first < timestamp (List.last (first :: rest) first) ->
  createBuckets fuel (first :: rest) config = None.
Proof.
  intros Hnonpos Hspan. unfold createBuckets.
  rewrite LoopProperties.forTimes_diverges; [reflexivity|lra|exact Hspan].
Qed.

Lemma createBuckets_diverges_witness :
  BucketConfig.intervalMinutes Samples.zeroInterval <= 0 /\
  timestamp (Fixtures.keystroke 0) < timestamp (Fixtures.keystroke 1000) /\
  createBuckets 1000 [Fixtures.keystroke 0; Fixtures.keystroke 1000] Samples.zeroInterval
    = None.
Proof.
  assert (Hstep : BucketConfig.intervalMinutes Samples.zeroInterval <= 0)
    by (vm_compute; discriminate).
  assert (Hspan : timestamp (Fixtures.keystroke 0) <
                  timestamp (List.last [Fixtures.keystroke 0; Fixtures.keystroke 1000]
                                       (Fixtures.keystroke 0))) by reflexivity.
  split; [exact Hstep|]. split; [exact Hspan|].
  exact (createBuckets_diverges 1000 (Fixtures.keystroke 0) [Fixtures.keystroke 1000]
           Samples.zeroInterval Hstep Hspan).
Defined.

(** *** Analysis of the buckets *)

Lemma vsCodeEvents_analyze `{NumberFormat} (config : AIDetectionConfig.t)
  (events : list ChangeEvent.t) :
  AITimeline.vsCodeEvents (AIAttribution.timeline (AIDetectionEngine.analyze config events))
  = events.
Proof.
  destruct events as [|e rest]; [reflexivity|].
  rewrite EngineProperties.analyze_nonempty by discriminate. reflexivity.
Qed.

(** X10.  The heuristic scores that [analyzeBucket] stores do not depend on the
    engine that analyses the bucket: they are recomputed from the events
    of the bucket alone, with the constants of [extractHeuristicScores]. *)
Theorem bucket_scores_ignore_engine `{NumberFormat} (engine engine' : AIDetectionConfig.t)
  (bucket : TimeBucket.t) :
  TimeBucket.heuristicScores (analyzeBucket engine bucket) =
  TimeBucket.heuristicScores (analyzeBucket engine' bucket).
Proof.
  unfold analyzeBucket. destruct (TimeBucket.isEmpty bucket); [reflexivity|].
  cbn [TimeBucket.heuristicScores]. f_equal.
  unfold extractHeuristicScores. rewrite !vsCodeEvents_analyze. reflexivity.
Qed.

(** X11.  [createAndAnalyzeBuckets] keeps every window and its events, never
    passes a bucket below [minEventsPerBucket] to the engine (it stays
    without probability, scores and attribution), and gives every other
    bucket the attribution of the engine run on exactly that bucket's
    events. *)
Theorem createAndAnalyzeBuckets_per_bucket `{NumberFormat} (engine : AIDetectionConfig.t)
  (fuel : nat) (events : list ChangeEvent.t) (config : BucketConfig.t)
  (analysed : list TimeBucket.t) :
  createAndAnalyzeBuckets engine fuel events config = Some analysed ->
  exists buckets,
    createBuckets fuel events config = Some buckets /\
    map TimeBucket.startTime analysed = map TimeBucket.startTime buckets /\
    map TimeBucket.endTime analysed = map TimeBucket.endTime buckets /\
    map TimeBucket.events analysed = map TimeBucket.events buckets /\
    forall bucket, In bucket analysed ->
      TimeBucket.isEmpty bucket =
        (Num.len (TimeBucket.events bucket) <? BucketConfig.minEventsPerBucket config) /\
      (TimeBucket.isEmpty bucket = true ->
       TimeBucket.aiProbability bucket = None /\
       TimeBucket.heuristicScores bucket = None /\
       TimeBucket.attribution bucket = None) /\
      (TimeBucket.isEmpty bucket = false ->
       TimeBucket.attribution bucket =
         Some (AIDetectionEngine.analyze engine (TimeBucket.events bucket)) /\
       TimeBucket.aiProbability bucket =
         Some (AIAttribution.aiProbability
                 (AIDetectionEngine.analyze engine (TimeBucket.events bucket)))).
Proof.
  unfold createAndAnalyzeBuckets.
  destruct (createBuckets fuel events config) as [buckets|] eqn:Eb; [|discriminate].
  cbn [option_map]. intros [= <-]. exists buckets. split; [reflexivity|].
  assert (Hfield : forall {A : Type} (f : TimeBucket.t -> A),
            (forall b, f (analyzeBucket engine b) = f b) ->
            map f (analyzeBuckets engine buckets) = map f buckets).
  { intros A f Hf. unfold analyzeBuckets. rewrite map_map. apply map_ext. exact Hf. }
  split; [apply Hfield; intro b; unfold analyzeBucket;
          destruct (TimeBucket.isEmpty b); reflexivity|].
  split; [apply Hfield; intro b; unfold analyzeBucket;
          destruct (TimeBucket.isEmpty b); reflexivity|].
  split; [apply Hfield; intro b; unfold analyzeBucket;
          destruct (TimeBucket.isEmpty b); reflexivity|].
  intros bucket Hin. unfold analyzeBuckets in Hin.
  apply in_map_iff in Hin as (fresh & <- & Hin).
  destruct events as [|first rest].
  { cbn in Eb. injection Eb as <-. destruct Hin. }
  destruct (createBuckets_inversion _ _ _ _ _ Eb) as (starts & _ & ->).
  apply in_map_iff in Hin as (start & <- & _).
  set (fresh := bucketAt (first :: rest) config
                  (BucketConfig.intervalMinutes config * 60 * 1000) start).
  assert (He : TimeBucket.isEmpty fresh =
               (Num.len (TimeBucket.events fresh) <? BucketConfig.minEventsPerBucket config))
    by reflexivity.
  assert (Hn : TimeBucket.aiProbability fresh = None /\
               TimeBucket.heuristicScores fresh = None /\
               TimeBucket.attribution fresh = None) by (repeat split).
  unfold analyzeBucket.
  remember (TimeBucket.isEmpty fresh) as flag eqn:Ef. destruct flag.
  - split; [rewrite <- Ef; exact He|]. split; [intros _; exact Hn|].
    intro Hf. rewrite Hf in Ef. discriminate Ef.
  - cbn [TimeBucket.isEmpty TimeBucket.events TimeBucket.aiProbability
         TimeBucket.heuristicScores TimeBucket.attribution].
    split; [exact He|]. split; [discriminate|].
    intros _. split; reflexivity.
Qed.

Lemma createAndAnalyzeBuckets_per_bucket_witness :
  let analysed :=
    @analyzeBuckets wholeNumberFormat DEFAULT_AI_DETECTION_CONFIG Samples.halfHourBuckets in
  @createAndAnalyzeBuckets wholeNumberFormat DEFAULT_AI_DETECTION_CONFIG 3 Samples.halfHour
    DEFAULT_BUCKET_CONFIG = Some analysed /\
  map TimeBucket.isEmpty analysed = [false; true; false] /\
  exists buckets,
    createBuckets 3 Samples.halfHour DEFAULT_BUCKET_CONFIG = Some buckets /\
    map TimeBucket.events analysed = map TimeBucket.events buckets.
Proof.
  cbv zeta.
  assert (Ha : @createAndAnalyzeBuckets wholeNumberFormat DEFAULT_AI_DETECTION_CONFIG 3
                 Samples.halfHour DEFAULT_BUCKET_CONFIG =
               Some (@analyzeBuckets wholeNumberFormat DEFAULT_AI_DETECTION_CONFIG
                       Samples.halfHourBuckets)) by (vm_compute; reflexivity).
  split; [exact Ha|]. split; [vm_compute; reflexivity|].
  destruct (@createAndAnalyzeBuckets_per_bucket wholeNumberFormat DEFAULT_AI_DETECTION_CONFIG
              3 Samples.halfHour DEFAULT_BUCKET_CONFIG _ Ha)
    as (buckets & Hb & _ & _ & Hevents & _).
  exists buckets. split; [exact Hb|exact Hevents].
Defined.

(** *** The summary *)

Lemma maxOf_bounds (first : Q) (rest : list Q) :
  In (maxOf first rest) (first :: rest) /\
  forall value, In value (first :: rest) -> value <= maxOf first rest.
Proof.
  unfold maxOf. revert first. induction rest as [|x rest IH]; intro first.
  - cbn. split; [left; reflexivity|]. intros value [<-|[]]. lra.
  - cbn [fold_left]. destruct (IH (Qmax first x)) as [Hin Hge]. split.
    + destruct Hin as [Heq|Hin]; [|right; right; exact Hin].
      rewrite <- Heq. unfold Qmax, GenericMinMax.gmax.
      destruct (first ?= x); [left|right; left|left]; reflexivity.
    + intros value [<-|[<-|Hv]].
      * apply Qle_trans with (Qmax first x); [apply Q.le_max_l|].
        apply Hge. left. reflexivity.
      * apply Qle_trans with (Qmax first x); [apply Q.le_max_r|].
        apply Hge. left. reflexivity.
      * apply Hge. right. exact Hv.
Qed.

Lemma sumBy_at_most (values : list Q) (bound : Q) :
  (forall value, In value values -> value <= bound) ->
  Num.sumBy (fun p => p) values <= Num.len values * bound.
Proof.
  induction values as [|value rest IH]; intro Hb.
  - change (0 <= 0 * bound). lra.
  - rewrite NumFacts.sumBy_cons, NumFacts.len_cons.
    assert (value <= bound) by (apply Hb; left; reflexivity).
    assert (Num.sumBy (fun p => p) rest <= Num.len rest * bound)
      by (apply IH; intros v Hv; apply Hb; right; exact Hv).
    lra.
Qed.

Lemma sumBy_at_least (values : list Q) (bound : Q) :
  (forall value, In value values -> bound <= value) ->
  Num.len values * bound <= Num.sumBy (fun p => p) values.
Proof.
  induction values as [|value rest IH]; intro Hb.
  - change (0 * bound <= 0). lra.
  - rewrite NumFacts.sumBy_cons, NumFacts.len_cons.
    assert (bound <= value) by (apply Hb; left; reflexivity).
    assert (Num.len rest * bound <= Num.sumBy (fun p => p) rest)
      by (apply IH; intros v Hv; apply Hb; right; exact Hv).
    lra.
Qed.

Lemma in_nonNull (p : Q) (values : list (option Q)) :
  In p (nonNull values) <-> In (Some p) values.
Proof.
  unfold nonNull. rewrite in_flat_map. split.
  - intros (v & Hin & Hp). destruct v as [q|]; [|destruct Hp].
    destruct Hp as [<-|[]]. exact Hin.
  - intro Hin. exists (Some p). split; [exact Hin|left; reflexivity].
Qed.

(** X12.  In the summary the counts add up; the maximum is the probability
    of some active bucket and lies within any bounds that hold for the
    probabilities of the active buckets; the average lies in [[0,1]] when
    those probabilities do; and both are 0 when no active bucket has a
    probability. *)
Theorem summarizeBuckets_consistent (buckets : list TimeBucket.t) (low high : Q) :
  (forall bucket p, In bucket buckets -> TimeBucket.isEmpty bucket = false ->
     TimeBucket.aiProbability bucket = Some p -> low <= p /\ p <= high) ->
  let summary := summarizeBuckets buckets in
  BucketSummary.activeBuckets summary + BucketSummary.emptyBuckets summary ==
    BucketSummary.totalBuckets summary /\
  0 <= BucketSummary.emptyBuckets summary /\
  ((exists bucket p, In bucket buckets /\ TimeBucket.isEmpty bucket = false /\
                     TimeBucket.aiProbability bucket = Some p) ->
   low <= BucketSummary.maxAIProbability summary /\
   BucketSummary.maxAIProbability summary <= high /\
   exists bucket, In bucket buckets /\ TimeBucket.isEmpty bucket = false /\
                  TimeBucket.aiProbability bucket =
                    Some (BucketSummary.maxAIProbability summary)) /\
  ((forall bucket, In bucket buckets -> TimeBucket.isEmpty bucket = false ->
      TimeBucket.aiProbability bucket = None) ->
   BucketSummary.averageAIProbability summary = 0 /\
   BucketSummary.maxAIProbability summary = 0) /\
  (0 <= low -> high <= 1 ->
   0 <= BucketSummary.averageAIProbability summary /\
   BucketSummary.averageAIProbability summary <= 1).
Proof.
  intros Hrange summary. subst summary. unfold summarizeBuckets.
  cbn [BucketSummary.averageAIProbability BucketSummary.maxAIProbability
       BucketSummary.activeBuckets BucketSummary.emptyBuckets BucketSummary.totalBuckets].
  set (active := filter (fun b => negb (TimeBucket.isEmpty b)) buckets).
  set (ps := nonNull (map TimeBucket.aiProbability active)).
  assert (Hps : forall p, In p ps <->
            exists bucket, In bucket buckets /\ TimeBucket.isEmpty bucket = false /\
                           TimeBucket.aiProbability bucket = Some p).
  { intro p. subst ps. rewrite in_nonNull, in_map_iff. split.
    - intros (b & Hp & Hin). subst active. apply filter_In in Hin as [Hin Hact].
      apply negb_true_iff in Hact. exists b. auto.
    - intros (b & Hin & Hact & Hp). exists b. split; [exact Hp|].
      subst active. apply filter_In. split; [exact Hin|]. rewrite Hact. reflexivity. }
  assert (Hbounds : forall p, In p ps -> low <= p /\ p <= high).
  { intros p Hp. apply Hps in Hp as (b & Hin & Hact & Hb). exact (Hrange b p Hin Hact Hb). }
  pose proof (NumFacts.len_filter_le (fun b => negb (TimeBucket.isEmpty b)) buckets) as Hlen.
  fold active in Hlen.
  destruct ps as [|p rest] eqn:Eps.
  - cbn [List.length Nat.ltb Nat.leb].
    split; [ring|]. split; [lra|]. split; [|split].
    + intros (b & q & Hin & Hact & Hq). exfalso.
      apply (proj2 (Hps q)). exists b. auto.
    + intros _. split; reflexivity.
    + intros _ _. split; lra.
  - cbn [List.length Nat.ltb Nat.leb].
    destruct (maxOf_bounds p rest) as [Hmem Hmax].
    assert (Hpos : 0 < Num.len (p :: rest)) by (apply NumFacts.len_pos; discriminate).
    split; [ring|]. split; [lra|]. split; [|split].
    + intros _. split; [exact (proj1 (Hbounds _ Hmem))|].
      split; [exact (proj2 (Hbounds _ Hmem))|]. apply Hps. exact Hmem.
    + intro Hnone. exfalso.
      destruct (proj1 (Hps p) (or_introl eq_refl)) as (b & Hin & Hact & Hb).
      rewrite (Hnone b Hin Hact) in Hb. discriminate.
    + intros Hlow Hhigh. split.
      * apply Qle_shift_div_l; [exact Hpos|].
        pose proof (sumBy_at_least (p :: rest) 0
                      (fun v Hv => Qle_trans _ _ _ Hlow (proj1 (Hbounds v Hv)))).
        lra.
      * apply Qle_shift_div_r; [exact Hpos|].
        pose proof (sumBy_at_most (p :: rest) 1
                      (fun v Hv => Qle_trans _ _ _ (proj2 (Hbounds v Hv)) Hhigh)).
        lra.
Qed.

Lemma summarizeBuckets_consistent_witness :
  let analysed :=
    @analyzeBuckets wholeNumberFormat DEFAULT_AI_DETECTION_CONFIG Samples.halfHourBuckets in
  (forall bucket p, In bucket analysed -> TimeBucket.isEmpty bucket = false ->
     TimeBucket.aiProbability bucket = Some p -> 0 <= p /\ p <= 1) /\
  BucketSummary.activeBuckets (summarizeBuckets analysed) == 2 /\
  BucketSummary.activeBuckets (summarizeBuckets analysed) +
    BucketSummary.emptyBuckets (summarizeBuckets analysed) ==
    BucketSummary.totalBuckets (summarizeBuckets analysed).
Proof.
  cbv zeta.
  assert (Hrange : forall bucket p,
            In bucket (@analyzeBuckets wholeNumberFormat DEFAULT_AI_DETECTION_CONFIG
                         Samples.halfHourBuckets) ->
            TimeBucket.isEmpty bucket = false ->
            TimeBucket.aiProbability bucket = Some p -> 0 <= p /\ p <= 1).
  { intros bucket p [<-|[<-|[<-|[]]]] _ Hp; vm_compute in Hp;
      try discriminate Hp; injection Hp as <-; split; vm_compute; discriminate. }
  split; [exact Hrange|]. split; [vm_compute; reflexivity|].
  exact (proj1 (summarizeBuckets_consistent _ 0 1 Hrange)).
Defined.

(** *** Filtering by probability *)

(** X13.  Before they are analysed, no bucket passes
    [filterBucketsByAIProbability], whatever the threshold.  After the
    analysis the filter returns only buckets that were analysed: none is
    empty, and each carries an attribution whose probability is at least
    the threshold. *)
Theorem filterBucketsByAIProbability_analysed `{NumberFormat} (engine : AIDetectionConfig.t)
  (fuel : nat) (events : list ChangeEvent.t) (config : BucketConfig.t)
  (buckets : list TimeBucket.t) (threshold : Q) :
  createBuckets fuel events config = Some buckets ->
  filterBucketsByAIProbability buckets threshold = [] /\
  forall bucket,
    In bucket (filterBucketsByAIProbability (analyzeBuckets engine buckets) threshold) ->
    TimeBucket.isEmpty bucket = false /\
    exists attribution,
      TimeBucket.attribution bucket = Some attribution /\
      TimeBucket.aiProbability bucket = Some (AIAttribution.aiProbability attribution) /\
      threshold <= AIAttribution.aiProbability attribution.
Proof.
  intro Hb.
  assert (Hnone : forall bucket, In bucket buckets -> TimeBucket.aiProbability bucket = None).
  { destruct events as [|first rest].
    - cbn in Hb. injection Hb as <-. intros bucket [].
    - destruct (createBuckets_inversion _ _ _ _ _ Hb) as (starts & _ & ->).
      intros bucket Hin. apply in_map_iff in Hin as (start & <- & _). reflexivity. }
  split.
  - unfold filterBucketsByAIProbability.
    destruct (filter _ buckets) as [|bucket kept] eqn:E; [reflexivity|].
    assert (Hin : In bucket (bucket :: kept)) by (left; reflexivity).
    rewrite <- E in Hin. apply filter_In in Hin as [Hin Hp].
    rewrite (Hnone bucket Hin) in Hp. discriminate Hp.
  - intros bucket Hin. unfold filterBucketsByAIProbability in Hin.
    apply filter_In in Hin as [Hin Hp]. unfold analyzeBuckets in Hin.
    apply in_map_iff in Hin as (fresh & <- & Hin).
    unfold analyzeBucket in *. destruct (TimeBucket.isEmpty fresh) eqn:Ee.
    + rewrite (Hnone fresh Hin) in Hp. discriminate Hp.
    + cbn [TimeBucket.isEmpty TimeBucket.attribution TimeBucket.aiProbability] in *.
      split; [reflexivity|]. eexists. split; [reflexivity|]. split; [reflexivity|].
      apply NumFacts.geb_true. exact Hp.
Qed.

Lemma filterBucketsByAIProbability_analysed_witness :
  createBuckets 3 Samples.halfHour DEFAULT_BUCKET_CONFIG = Some Samples.halfHourBuckets /\
  filterBucketsByAIProbability Samples.halfHourBuckets 0 = [] /\
  List.length
    (filterBucketsByAIProbability
       (@analyzeBuckets wholeNumberFormat DEFAULT_AI_DETECTION_CONFIG Samples.halfHourBuckets)
       0) = 2%nat.
Proof.
  assert (Hb : createBuckets 3 Samples.halfHour DEFAULT_BUCKET_CONFIG =
               Some Samples.halfHourBuckets) by (vm_compute; reflexivity).
  split; [exact Hb|]. split; [|vm_compute; reflexivity].
  exact (proj1 (@filterBucketsByAIProbability_analysed wholeNumberFormat
                  DEFAULT_AI_DETECTION_CONFIG 3 Samples.halfHour DEFAULT_BUCKET_CONFIG
                  Samples.halfHourBuckets 0 Hb)).
Defined.

End BucketInvariants.

(** ** The event utilities *)

Module EventUtilityProperties.
Import ChangeEvent EventUtilities.

Lemma filter_filter {A : Type} (f g : A -> bool) (l : list A) :
  filter f (filter g l) = filter (fun x => g x && f x) l.
Proof.
  induction l as [|x l IH]; [reflexivity|].
  cbn [filter]. destruct (g x); cbn [filter andb]; rewrite IH; reflexivity.
Qed.

Lemma geb_max (t a b : Q) : (t >=? Qmax a b) = (t >=? a) && (t >=? b).
Proof.
  apply eq_true_iff_eq. rewrite andb_true_iff, !NumFacts.geb_true.
  apply Q.max_lub_iff.
Qed.

Lemma leb_min (t a b : Q) : (t <=? Qmin a b) = (t <=? a) && (t <=? b).
Proof.
  apply eq_true_iff_eq. rewrite andb_true_iff, !NumFacts.leb_true.
  apply Q.min_glb_iff.
Qed.

(** X14.  [filterChangeEventsByTimeRange] keeps, in order, exactly the events
    whose timestamp lies in the closed range: both bounds are included.
    Filtering twice is filtering once by the intersection of the ranges. *)
Theorem filterChangeEventsByTimeRange_intersects (events : list ChangeEvent.t)
  (startTime endTime startTime' endTime' : Q) :
  (forall event,
     In event (filterChangeEventsByTimeRange events startTime endTime) <->
     In event events /\ startTime <= timestamp event /\ timestamp event <= endTime) /\
  filterChangeEventsByTimeRange
    (filterChangeEventsByTimeRange events startTime endTime) startTime' endTime' =
  filterChangeEventsByTimeRange events (Qmax startTime startTime') (Qmin endTime endTime').
Proof.
  split.
  - intro event. unfold filterChangeEventsByTimeRange.
    rewrite filter_In, andb_true_iff, NumFacts.geb_true, NumFacts.leb_true. reflexivity.
  - unfold filterChangeEventsByTimeRange. rewrite filter_filter.
    apply filter_ext. intro event. rewrite geb_max, leb_min.
    destruct (timestamp event >=? startTime), (timestamp event <=? endTime),
             (timestamp event >=? startTime'), (timestamp event <=? endTime'); reflexivity.
Qed.

(** *** Grouping *)

Lemma mapGet_mapSet {V : Type} (key key' : string) (value : V) (entries : list (string * V)) :
  mapGet key (mapSet key' value entries) =
  if String.eqb key' key then Some value else mapGet key entries.
Proof.
  induction entries as [|[k v] entries IH].
  - cbn. reflexivity.
  - cbn [mapSet mapGet]. destruct (String.eqb k key') eqn:Ek.
    + apply String.eqb_eq in Ek. subst k. cbn [mapGet].
      destruct (String.eqb key' key); reflexivity.
    + cbn [mapGet]. rewrite IH. destruct (String.eqb k key) eqn:Ek'; [|reflexivity].
      apply String.eqb_eq in Ek'. subst k. rewrite String.eqb_sym, Ek. reflexivity.
Qed.

Lemma fold_addToGroup_lookup (keyOf : ChangeEvent.t -> string) (events : list ChangeEvent.t)
  (groups : list (string * list ChangeEvent.t)) (key : string) :
  mapGet key (fold_left (addToGroup keyOf) events groups) =
  match filter (fun event => String.eqb (keyOf event) key) events with
  | [] => mapGet key groups
  | added => Some (match mapGet key groups with Some group => group | None => [] end ++ added)
  end.
Proof.
  revert groups. induction events as [|event events IH]; intro groups; [reflexivity|].
  cbn [fold_left filter]. rewrite IH. unfold addToGroup. rewrite mapGet_mapSet.
  destruct (String.eqb (keyOf event) key) eqn:Ek.
  - apply String.eqb_eq in Ek. rewrite Ek.
    destruct (filter _ events) as [|e l]; [reflexivity|].
    rewrite <- app_assoc. reflexivity.
  - reflexivity.
Qed.

(** X15.  Looking a key up in the grouping gives the events with that key, in
    their order in the input; a key that no event carries is absent (no
    empty group is ever stored). *)
Theorem groupChangeEvents_lookup (events : list ChangeEvent.t) (key : string) :
  mapGet key (groupChangeEventsByFile events) =
    match filterChangeEventsByFile events key with
    | [] => None
    | group => Some group
    end /\
  mapGet key (groupChangeEventsBySession events) =
    match filter (fun event => String.eqb (sessionId event) key) events with
    | [] => None
    | group => Some group
    end.
Proof.
  unfold groupChangeEventsByFile, groupChangeEventsBySession, filterChangeEventsByFile.
  rewrite !fold_addToGroup_lookup. split.
  - destruct (filter _ events); reflexivity.
  - destruct (filter _ events); reflexivity.
Qed.

Lemma mapSet_keys {V : Type} (key : string) (value : V) (entries : list (string * V)) :
  NoDup (map fst entries) ->
  NoDup (map fst (mapSet key value entries)) /\
  (forall k, In k (map fst (mapSet key value entries)) <-> k = key \/ In k (map fst entries)).
Proof.
  induction entries as [|[k v] entries IH]; intro Hnd.
  - cbn. split; [repeat constructor; intros []|]. intro k0. intuition congruence.
  - inversion Hnd as [|? ? Hnotin Hnd']. subst. destruct (IH Hnd') as [IH1 IH2].
    cbn [mapSet]. destruct (String.eqb k key) eqn:Ek.
    + apply String.eqb_eq in Ek. subst k. cbn [map fst]. split; [exact Hnd|].
      intro k0. cbn [In]. intuition congruence.
    + apply String.eqb_neq in Ek. cbn [map fst]. split.
      * constructor; [|exact IH1]. rewrite IH2. intros [Heq|Hin]; [congruence|contradiction].
      * intro k0. cbn [In]. rewrite IH2. intuition congruence.
Qed.

Lemma mapSet_entries {V : Type} (P : string * V -> Prop) (key : string) (value : V)
  (entries : list (string * V)) :
  P (key, value) -> Forall P entries -> Forall P (mapSet key value entries).
Proof.
  intros Hnew. induction entries as [|[k v] entries IH]; intro Hall.
  - cbn. repeat constructor. exact Hnew.
  - inversion Hall as [|? ? Hhead Htail]. subst. cbn [mapSet].
    destruct (String.eqb k key) eqn:Ek.
    + apply String.eqb_eq in Ek. subst k. constructor; assumption.
    + constructor; [exact Hhead|exact (IH Htail)].
Qed.

Lemma mapGet_In {V : Type} (key : string) (value : V) (entries : list (string * V)) :
  mapGet key entries = Some value -> In (key, value) entries.
Proof.
  induction entries as [|[k v] entries IH]; [discriminate|].
  cbn [mapGet]. destruct (String.eqb k key) eqn:Ek.
  - apply String.eqb_eq in Ek. subst k. intros [= ->]. left. reflexivity.
  - intro Hget. right. exact (IH Hget).
Qed.

Lemma mapSet_size {V : Type} (size : V -> nat) (key : string) (value : V)
  (entries : list (string * V)) :
  (list_sum (map (fun entry => size (snd entry)) (mapSet key value entries)) +
   match mapGet key entries with Some old => size old | None => 0 end =
   list_sum (map (fun entry => size (snd entry)) entries) + size value)%nat.
Proof.
  induction entries as [|[k v] entries IH].
  - cbn. lia.
  - cbn [mapSet mapGet]. destruct (String.eqb k key); simpl in *; lia.
Qed.

Lemma fold_addToGroup_partition (keyOf : ChangeEvent.t -> string)
  (events : list ChangeEvent.t) (groups : list (string * list ChangeEvent.t)) :
  NoDup (map fst groups) ->
  Forall (fun entry => snd entry <> [] /\
                       Forall (fun event => keyOf event = fst entry) (snd entry)) groups ->
  let result := fold_left (addToGroup keyOf) events groups in
  NoDup (map fst result) /\
  Forall (fun entry => snd entry <> [] /\
                       Forall (fun event => keyOf event = fst entry) (snd entry)) result /\
  list_sum (map (fun entry => List.length (snd entry)) result) =
    (list_sum (map (fun entry => List.length (snd entry)) groups) + List.length events)%nat.
Proof.
  revert groups. induction events as [|event events IH]; intros groups Hnd Hall.
  - cbv zeta. cbn [fold_left List.length]. split; [exact Hnd|]. split; [exact Hall|].
    rewrite Nat.add_0_r. reflexivity.
  - cbn [fold_left]. cbv zeta.
    assert (Hnd' : NoDup (map fst (addToGroup keyOf groups event)))
      by exact (proj1 (mapSet_keys _ _ _ Hnd)).
    assert (Hall' : Forall (fun entry => snd entry <> [] /\
                       Forall (fun event => keyOf event = fst entry) (snd entry))
                      (addToGroup keyOf groups event)).
    { unfold addToGroup. apply mapSet_entries; [|exact Hall]. cbn [fst snd]. split.
      - intro Hnil. apply app_eq_nil in Hnil as [_ Hnil]. discriminate Hnil.
      - apply Forall_app. split; [|repeat constructor].
        destruct (mapGet (keyOf event) groups) as [group|] eqn:Eg; [|constructor].
        apply mapGet_In in Eg. rewrite Forall_forall in Hall.
        exact (proj2 (Hall _ Eg)). }
    destruct (IH _ Hnd' Hall') as (H1 & H2 & H3).
    split; [exact H1|]. split; [exact H2|]. rewrite H3.
    unfold addToGroup.
    pose proof (mapSet_size (@List.length ChangeEvent.t) (keyOf event)
                  (match mapGet (keyOf event) groups with
                   | Some group => group | None => [] end ++ [event]) groups) as Hsize.
    rewrite length_app in Hsize. cbn [List.length] in *.
    destruct (mapGet (keyOf event) groups); cbn [List.length] in Hsize; lia.
Qed.

(** X16.  The grouping is a partition of the input: no key occurs twice, no
    group is empty, every event of a group carries the key of the group,
    and the sizes of the groups add up to the number of events. *)
Theorem groupChangeEvents_partition (events : list ChangeEvent.t) :
  (NoDup (map fst (groupChangeEventsByFile events)) /\
   Forall (fun entry => snd entry <> [] /\
                        Forall (fun event => fileUri event = fst entry) (snd entry))
          (groupChangeEventsByFile events) /\
   list_sum (map (fun entry => List.length (snd entry)) (groupChangeEventsByFile events)) =
     List.length events) /\
  (NoDup (map fst (groupChangeEventsBySession events)) /\
   Forall (fun entry => snd entry <> [] /\
                        Forall (fun event => sessionId event = fst entry) (snd entry))
          (groupChangeEventsBySession events) /\
   list_sum (map (fun entry => List.length (snd entry)) (groupChangeEventsBySession events)) =
     List.length events).
Proof.
  split.
  - exact (fold_addToGroup_partition fileUri events [] (NoDup_nil _) (Forall_nil _)).
  - exact (fold_addToGroup_partition sessionId events [] (NoDup_nil _) (Forall_nil _)).
Qed.

End EventUtilityProperties.

(** ** The review analyzer *)

Module ReviewInvariants.
Import ChangeEvent ReviewAnalyzer.

Lemma addIf_bounds (condition : bool) (points score : Q) :
  0 <= points -> score <= addIf condition points score /\
                 addIf condition points score <= score + points.
Proof.
  intro Hp. unfold addIf. destruct condition; split; lra.
Qed.

Lemma scoreBreakdown_bounds (timeMetrics : TimeMetrics.t) (editPatterns : EditPatterns.t)
  (reviewIndicators : ReviewIndicators.t) :
  let breakdown := calculateScoreBreakdown timeMetrics editPatterns reviewIndicators in
  (0 <= ReviewScoreBreakdown.timeInvestmentScore breakdown /\
   ReviewScoreBreakdown.timeInvestmentScore breakdown <= 3) /\
  (0 <= ReviewScoreBreakdown.iterationScore breakdown /\
   ReviewScoreBreakdown.iterationScore breakdown <= 3) /\
  (0 <= ReviewScoreBreakdown.refinementScore breakdown /\
   ReviewScoreBreakdown.refinementScore breakdown <= 2) /\
  (0 <= ReviewScoreBreakdown.thoughtfulnessScore breakdown /\
   ReviewScoreBreakdown.thoughtfulnessScore breakdown <= 2) /\
  ReviewScoreBreakdown.finalScore breakdown =
    ReviewScoreBreakdown.timeInvestmentScore breakdown +
    ReviewScoreBreakdown.iterationScore breakdown +
    ReviewScoreBreakdown.refinementScore breakdown +
    ReviewScoreBreakdown.thoughtfulnessScore breakdown.
Proof.
  cbv zeta. unfold calculateScoreBreakdown.
  cbn [ReviewScoreBreakdown.timeInvestmentScore ReviewScoreBreakdown.iterationScore
       ReviewScoreBreakdown.refinementScore ReviewScoreBreakdown.thoughtfulnessScore
       ReviewScoreBreakdown.finalScore].
  repeat (split; [unfold addIf;
                  repeat match goal with |- context [if ?b then _ else _] => destruct b end;
                  split; lra|]).
  reflexivity.
Qed.

Lemma assessQuality_nonempty (env : Environment) (this : State) (first : ChangeEvent.t)
  (rest : list ChangeEvent.t) (commitInfo : option CommitInfo.t) :
  let changes := first :: rest in
  let timeMetrics := calculateTimeMetrics changes commitInfo in
  let editPatterns := analyzeEditPatterns changes in
  let reviewIndicators := identifyReviewIndicators changes timeMetrics in
  let scoreBreakdown := calculateScoreBreakdown timeMetrics editPatterns reviewIndicators in
  fst (assessQuality env this changes commitInfo) =
  {| ReviewQualityAssessment.overallScore := ReviewScoreBreakdown.finalScore scoreBreakdown;
     ReviewQualityAssessment.breakdown := scoreBreakdown;
     ReviewQualityAssessment.patterns := createPatterns reviewIndicators timeMetrics editPatterns;
     ReviewQualityAssessment.evidence := extractEvidence changes timeMetrics;
     ReviewQualityAssessment.qualityLevel :=
       determineQualityLevel (ReviewScoreBreakdown.finalScore scoreBreakdown);
     ReviewQualityAssessment.confidence := calculateConfidence changes scoreBreakdown |}.
Proof. reflexivity. Qed.

(** X17.  The overall score is the sum of the four component scores of the
    breakdown; time investment and iteration lie in [[0,3]], refinement and
    thoughtfulness in [[0,2]], so the overall score lies in [[0,10]]. *)
Theorem assessQuality_score_range (env : Environment) (this : State)
  (changes : list ChangeEvent.t) (commitInfo : option CommitInfo.t) :
  let assessment := fst (assessQuality env this changes commitInfo) in
  let breakdown := ReviewQualityAssessment.breakdown assessment in
  ReviewQualityAssessment.overallScore assessment =
    ReviewScoreBreakdown.finalScore breakdown /\
  ReviewScoreBreakdown.finalScore breakdown ==
    ReviewScoreBreakdown.timeInvestmentScore breakdown +
    ReviewScoreBreakdown.iterationScore breakdown +
    ReviewScoreBreakdown.refinementScore breakdown +
    ReviewScoreBreakdown.thoughtfulnessScore breakdown /\
  (0 <= ReviewScoreBreakdown.timeInvestmentScore breakdown /\
   ReviewScoreBreakdown.timeInvestmentScore breakdown <= 3) /\
  (0 <= ReviewScoreBreakdown.iterationScore breakdown /\
   ReviewScoreBreakdown.iterationScore breakdown <= 3) /\
  (0 <= ReviewScoreBreakdown.refinementScore breakdown /\
   ReviewScoreBreakdown.refinementScore breakdown <= 2) /\
  (0 <= ReviewScoreBreakdown.thoughtfulnessScore breakdown /\
   ReviewScoreBreakdown.thoughtfulnessScore breakdown <= 2) /\
  (0 <= ReviewQualityAssessment.overallScore assessment /\
   ReviewQualityAssessment.overallScore assessment <= 10).
Proof.
  cbv zeta. destruct changes as [|first rest].
  - cbn. repeat split; try reflexivity; try discriminate.
  - rewrite assessQuality_nonempty. cbv zeta.
    cbn [ReviewQualityAssessment.overallScore ReviewQualityAssessment.breakdown].
    destruct (scoreBreakdown_bounds
                (calculateTimeMetrics (first :: rest) commitInfo)
                (analyzeEditPatterns (first :: rest))
                (identifyReviewIndicators (first :: rest)
                   (calculateTimeMetrics (first :: rest) commitInfo)))
      as (Ht & Hi & Hr & Hth & Hsum).
    cbv zeta in *. rewrite Hsum.
    split; [reflexivity|]. split; [reflexivity|].
    split; [exact Ht|]. split; [exact Hi|]. split; [exact Hr|]. split; [exact Hth|].
    split; lra.
Qed.

Lemma determineQualityLevel_thresholds (score : Q) :
  (determineQualityLevel score = immediate_commit <-> score <= 2) /\
  (determineQualityLevel score = light_review <-> 2 < score /\ score <= 5) /\
  (determineQualityLevel score = thorough_review <-> 5 < score /\ score <= 8) /\
  (determineQualityLevel score = extensive_review <-> 8 < score).
Proof.
  unfold determineQualityLevel.
  destruct (score <=? 2) eqn:E2;
    [apply NumFacts.leb_true in E2
    |assert (2 < score) by (apply Qnot_le_lt; intro Hle;
                            apply NumFacts.leb_true in Hle; congruence)].
  { repeat split; intros; try discriminate; try reflexivity; try lra. }
  destruct (score <=? 5) eqn:E5;
    [apply NumFacts.leb_true in E5
    |assert (5 < score) by (apply Qnot_le_lt; intro Hle;
                            apply NumFacts.leb_true in Hle; congruence)].
  { repeat split; intros; try discriminate; try reflexivity; try lra. }
  destruct (score <=? 8) eqn:E8;
    [apply NumFacts.leb_true in E8
    |assert (8 < score) by (apply Qnot_le_lt; intro Hle;
                            apply NumFacts.leb_true in Hle; congruence)].
  { repeat split; intros; try discriminate; try reflexivity; try lra. }
  repeat split; intros; try discriminate; try reflexivity; try lra.
Qed.

Lemma calculateConfidence_steps (changes : list ChangeEvent.t)
  (scoreBreakdown : ReviewScoreBreakdown.t) :
  let score := ReviewScoreBreakdown.finalScore scoreBreakdown in
  let confidence := calculateConfidence changes scoreBreakdown in
  0.7 <= confidence /\ confidence <= 1 /\
  (Num.len changes <= 10 -> confidence <= 0.8) /\
  (0.95 < confidence <-> 50 < Num.len changes /\ (score <= 2 \/ 8 <= score)).
Proof.
  cbv zeta. unfold calculateConfidence, addIf.
  destruct (Num.len changes >? 10) eqn:E10;
    [apply NumFacts.gtb_true in E10|apply NumFacts.gtb_false in E10];
  (destruct (Num.len changes >? 50) eqn:E50;
    [apply NumFacts.gtb_true in E50|apply NumFacts.gtb_false in E50]);
  (destruct (ReviewScoreBreakdown.finalScore scoreBreakdown <=? 2) eqn:E2;
    [apply NumFacts.leb_true in E2
    |assert (2 < ReviewScoreBreakdown.finalScore scoreBreakdown)
       by (apply Qnot_le_lt; intro Hle; apply NumFacts.leb_true in Hle; congruence)]);
  (destruct (ReviewScoreBreakdown.finalScore scoreBreakdown >=? 8) eqn:E8;
    [apply NumFacts.geb_true in E8|apply NumFacts.geb_false in E8]);
  cbn [orb];
  match goal with
  | |- context [Qmin ?a 1] =>
      assert (Hmin : Qmin a 1 == a) by (apply Q.min_l; lra); rewrite Hmin
  end;
  (split; [lra|]); (split; [lra|]); (split; [intro; lra|]);
  (split; [intro; first [lra|split; [lra|first [left; lra|right; lra]]]
          |intros [? [?|?]]; lra]).
Qed.

(** X18.  The quality level follows the overall score with the cut-offs 2, 5
    and 8, each included in the lower level.  For a non-empty input the
    confidence lies in [[0.7,1]], is at most 0.8 with ten changes or
    fewer, and is above 0.95 (all three additions of 0.1 were made)
    exactly with more than fifty changes and a score of at most 2 or at
    least 8. *)
Theorem assessQuality_level_and_confidence (env : Environment) (this : State)
  (changes : list ChangeEvent.t) (commitInfo : option CommitInfo.t) :
  let assessment := fst (assessQuality env this changes commitInfo) in
  let score := ReviewQualityAssessment.overallScore assessment in
  let level := ReviewQualityAssessment.qualityLevel assessment in
  let confidence := ReviewQualityAssessment.confidence assessment in
  (level = immediate_commit <-> score <= 2) /\
  (level = light_review <-> 2 < score /\ score <= 5) /\
  (level = thorough_review <-> 5 < score /\ score <= 8) /\
  (level = extensive_review <-> 8 < score) /\
  (changes <> [] ->
   0.7 <= confidence /\ confidence <= 1 /\
   (Num.len changes <= 10 -> confidence <= 0.8) /\
   (0.95 < confidence <-> 50 < Num.len changes /\ (score <= 2 \/ 8 <= score))).
Proof.
  cbv zeta. destruct changes as [|first rest].
  - cbn [assessQuality List.length Nat.eqb fst createEmptyAssessment
         ReviewQualityAssessment.overallScore ReviewQualityAssessment.qualityLevel].
    split; [split; [intros _; lra|reflexivity]|].
    split; [split; [discriminate|intros [? _]; lra]|].
    split; [split; [discriminate|intros [? _]; lra]|].
    split; [split; [discriminate|intro; lra]|].
    intro Hne. congruence.
  - rewrite assessQuality_nonempty. cbv zeta.
    cbn [ReviewQualityAssessment.overallScore ReviewQualityAssessment.qualityLevel
         ReviewQualityAssessment.confidence].
    set (scoreBreakdown := calculateScoreBreakdown _ _ _).
    destruct (determineQualityLevel_thresholds
                (ReviewScoreBreakdown.finalScore scoreBreakdown)) as (H1 & H2 & H3 & H4).
    split; [exact H1|]. split; [exact H2|]. split; [exact H3|]. split; [exact H4|].
    intros _. exact (calculateConfidence_steps (first :: rest) scoreBreakdown).
Qed.

(** *** Edit sessions *)

Lemma last_cons {A : Type} (rest : list A) :
  forall x default : A, List.last (x :: rest) default = List.last rest x.
Proof.
  induction rest as [|y rest IH]; intros x default; [reflexivity|].
  change (List.last (x :: y :: rest) default) with (List.last (y :: rest) default).
  rewrite (IH y default), (IH y x). reflexivity.
Qed.

Lemma sessionsFrom_partition (gapThreshold : Q) (rest : list ChangeEvent.t) :
  forall (previous : ChangeEvent.t) (sessionStart sessionChangeCount : Q),
  let sessions :=
    sessionsFrom gapThreshold previous sessionStart (timestamp previous)
                 sessionChangeCount rest in
  let longGaps := filter (fun pause => pause >? gapThreshold) (pausesFrom previous rest) in
  Num.sumBy EditSession.changeCount sessions == sessionChangeCount + Num.len rest /\
  (1 <= sessionChangeCount ->
   forall session, In session sessions ->
     1 <= EditSession.changeCount session /\
     EditSession.duration session = EditSession.end_ session - EditSession.start session) /\
  List.length sessions = S (List.length longGaps) /\
  Num.sumBy EditSession.duration sessions + Num.sumBy (fun pause => pause) longGaps ==
    timestamp (List.last rest previous) - sessionStart.
Proof.
  induction rest as [|current rest IH]; intros previous sessionStart sessionChangeCount.
  - cbv zeta. cbn [sessionsFrom pausesFrom filter List.length List.last].
    rewrite NumFacts.sumBy_cons.
    cbn [EditSession.changeCount EditSession.duration].
    change (Num.sumBy EditSession.changeCount []) with 0.
    change (Num.sumBy (fun pause : Q => pause) []) with 0.
    split; [change (Num.len (@nil ChangeEvent.t)) with 0; lra|].
    split.
    + intros Hc session [<-|[]]. cbn. split; [exact Hc|reflexivity].
    + split; [reflexivity|]. rewrite NumFacts.sumBy_cons.
      cbn [EditSession.duration]. change (Num.sumBy EditSession.duration []) with 0. lra.
  - cbv zeta. cbn [sessionsFrom pausesFrom filter].
    rewrite last_cons, NumFacts.len_cons.
    destruct (timestamp current - timestamp previous >? gapThreshold) eqn:E.
    + destruct (IH current (timestamp current) 1) as (H1 & H2 & H3 & H4).
      cbv zeta in *. cbv beta iota.
      rewrite !NumFacts.sumBy_cons. cbn [EditSession.changeCount EditSession.duration].
      split; [rewrite H1; lra|]. split.
      * intros Hc session [<-|Hin].
        -- cbn. split; [exact Hc|reflexivity].
        -- apply H2; [lra|exact Hin].
      * cbn [List.length]. split; [rewrite H3; reflexivity|]. lra.
    + destruct (IH current sessionStart (sessionChangeCount + 1)) as (H1 & H2 & H3 & H4).
      cbv zeta in *.
      split; [rewrite H1; lra|]. split.
      * intros Hc session Hin. apply H2; [lra|exact Hin].
      * split; [exact H3|exact H4].
Qed.




(** *** Time metrics of changes in time order *)

Lemma pausesFrom_sum (previous : ChangeEvent.t) (rest : list ChangeEvent.t) :
  Num.sumBy (fun pause => pause) (pausesFrom previous rest) ==
  timestamp (List.last rest previous) - timestamp previous.
Proof.
  revert previous. induction rest as [|current rest IH]; intro previous.
  - cbn [pausesFrom List.last]. change (Num.sumBy (fun pause : Q => pause) []) with 0. lra.
  - cbn [pausesFrom]. rewrite NumFacts.sumBy_cons, IH, last_cons. lra.
Qed.

Lemma pausesFrom_nonneg (previous : ChangeEvent.t) (rest : list ChangeEvent.t) :
  BucketAnalyzer.nonDecreasing (previous :: rest) ->
  forall pause, In pause (pausesFrom previous rest) -> 0 <= pause.
Proof.
  revert previous. induction rest as [|current rest IH]; intros previous Hs pause Hin.
  - destruct Hin.
  - destruct Hs as [Hhead Htail]. cbn [pausesFrom] in Hin. destruct Hin as [<-|Hin].
    + lra.
    + exact (IH current Htail pause Hin).
Qed.

Lemma sessionsFrom_durations_nonneg (gapThreshold : Q) (rest : list ChangeEvent.t) :
  forall (previous : ChangeEvent.t) (sessionStart sessionChangeCount : Q),
  BucketAnalyzer.nonDecreasing (previous :: rest) ->
  sessionStart <= timestamp previous ->
  forall session,
    In session (sessionsFrom gapThreshold previous sessionStart (timestamp previous)
                             sessionChangeCount rest) ->
    0 <= EditSession.duration session.
Proof.
  induction rest as [|current rest IH];
    intros previous sessionStart sessionChangeCount Hs Hstart session Hin.
  - cbn [sessionsFrom] in Hin. destruct Hin as [<-|[]]. cbn [EditSession.duration]. lra.
  - destruct Hs as [Hhead Htail]. cbn [sessionsFrom] in Hin.
    destruct (timestamp current - timestamp previous >? gapThreshold).
    + destruct Hin as [<-|Hin]; [cbn [EditSession.duration]; lra|].
      refine (IH current _ _ Htail _ session Hin). lra.
    + refine (IH current _ _ Htail _ session Hin). lra.
Qed.

Lemma member_at_most_sum (values : list Q) (value : Q) :
  (forall x, In x values -> 0 <= x) -> In value values ->
  value <= Num.sumBy (fun x => x) values.
Proof.
  induction values as [|x values IH]; intros Hnn Hin; [destruct Hin|].
  rewrite NumFacts.sumBy_cons.
  assert (0 <= x) by (apply Hnn; left; reflexivity).
  assert (0 <= Num.sumBy (fun x => x) values)
    by (apply NumFacts.sumBy_nonneg; intros y Hy; apply Hnn; right; exact Hy).
  destruct Hin as [<-|Hin]; [lra|].
  assert (value <= Num.sumBy (fun x => x) values)
    by (apply IH; [intros y Hy; apply Hnn; right; exact Hy|exact Hin]).
  lra.
Qed.

(** X21.  For changes in time order the time metrics are consistent: the
    longest pause is the largest difference between consecutive changes,
    and it and the average session length lie between 0 and the total
    development time; a non-empty input has at least one edit session. *)
Theorem calculateTimeMetrics_in_time_order (changes : list ChangeEvent.t)
  (commitInfo : option CommitInfo.t) :
  BucketAnalyzer.nonDecreasing changes ->
  let metrics := calculateTimeMetrics changes commitInfo in
  (0 <= TimeMetrics.longestPauseBetweenEdits metrics /\
   TimeMetrics.longestPauseBetweenEdits metrics <= TimeMetrics.totalDevelopmentTime metrics) /\
  (forall pause, In pause (pausesOf changes) ->
     pause <= TimeMetrics.longestPauseBetweenEdits metrics) /\
  (pausesOf changes <> [] ->
   In (TimeMetrics.longestPauseBetweenEdits metrics) (pausesOf changes)) /\
  (0 <= TimeMetrics.averageSessionLength metrics /\
   TimeMetrics.averageSessionLength metrics <= TimeMetrics.totalDevelopmentTime metrics) /\
  (changes <> [] -> 1 <= TimeMetrics.numberOfEditSessions metrics).
Proof.
  intro Hs. cbv zeta. destruct changes as [|first rest].
  - cbn. repeat split; try discriminate; try tauto.
  - cbn [calculateTimeMetrics TimeMetrics.longestPauseBetweenEdits
         TimeMetrics.totalDevelopmentTime TimeMetrics.averageSessionLength
         TimeMetrics.numberOfEditSessions pausesOf identifyEditSessions].
    rewrite last_cons.
    pose proof (pausesFrom_sum first rest) as Hsum.
    pose proof (pausesFrom_nonneg first rest Hs) as Hnn.
    destruct (sessionsFrom_partition (30 * 60 * 1000) rest first (timestamp first) 1)
      as (_ & _ & Hlen & Htime).
    cbv zeta in Hlen, Htime.
    pose proof (sessionsFrom_durations_nonneg (30 * 60 * 1000) rest first (timestamp first) 1
                  Hs (Qle_refl _)) as Hdur.
    set (sessions := sessionsFrom _ first _ _ 1 rest) in *.
    set (longGaps := filter _ (pausesFrom first rest)) in *.
    assert (Htotal : 0 <= timestamp (List.last rest first) - timestamp first).
    { rewrite <- Hsum. apply NumFacts.sumBy_nonneg. exact Hnn. }
    assert (Hgaps : 0 <= Num.sumBy (fun pause => pause) longGaps).
    { apply NumFacts.sumBy_nonneg. intros pause Hin. subst longGaps.
      apply filter_In in Hin as [Hin _]. exact (Hnn pause Hin). }
    assert (Hdurs : 0 <= Num.sumBy EditSession.duration sessions)
      by (apply NumFacts.sumBy_nonneg; exact Hdur).
    assert (Hcount : 1 <= Num.len sessions).
    { unfold Num.len. rewrite Hlen. change 1 with (inject_Z 1). rewrite <- Zle_Qle. lia. }
    split.
    { destruct (pausesFrom first rest) as [|pause pauses] eqn:Ep; [split; lra|].
      destruct (BucketInvariants.maxOf_bounds pause pauses) as [Hmem Hmax].
      change (BucketAnalysis.maxOf pause pauses) with (maxOf pause pauses) in *.
      split; [apply (Hnn _ Hmem)|].
      rewrite <- Hsum. apply member_at_most_sum; [exact Hnn|exact Hmem]. }
    split.
    { destruct (pausesFrom first rest) as [|pause pauses] eqn:Ep; [intros p []|].
      destruct (BucketInvariants.maxOf_bounds pause pauses) as [Hmem Hmax].
      exact Hmax. }
    split.
    { destruct (pausesFrom first rest) as [|pause pauses] eqn:Ep; [congruence|].
      intros _. exact (proj1 (BucketInvariants.maxOf_bounds pause pauses)). }
    split; [|intros _; exact Hcount].
    rewrite Hlen. change (Nat.ltb 0 (S (List.length longGaps))) with true. cbv iota.
    assert (Hpos : 0 < Num.len sessions) by lra.
    split.
    + apply Qle_shift_div_l; [exact Hpos|]. lra.
    + apply Qle_shift_div_r; [exact Hpos|].
      assert (Num.sumBy EditSession.duration sessions <=
              timestamp (List.last rest first) - timestamp first) by lra.
      nra.
Qed.

Lemma calculateTimeMetrics_in_time_order_witness :
  BucketAnalyzer.nonDecreasing Fixtures.reviewSession /\
  TimeMetrics.longestPauseBetweenEdits (calculateTimeMetrics Fixtures.reviewSession None)
    == 2400000 /\
  TimeMetrics.longestPauseBetweenEdits (calculateTimeMetrics Fixtures.reviewSession None) <=
    TimeMetrics.totalDevelopmentTime (calculateTimeMetrics Fixtures.reviewSession None).
Proof.
  assert (Hs : BucketAnalyzer.nonDecreasing Fixtures.reviewSession).
  { cbn [BucketAnalyzer.nonDecreasing Fixtures.reviewSession].
    split; [vm_compute; discriminate|]. split; [vm_compute; discriminate|].
    split; exact I. }
  split; [exact Hs|]. split; [vm_compute; reflexivity|].
  exact (proj2 (proj1 (calculateTimeMetrics_in_time_order Fixtures.reviewSession None Hs))).
Defined.

(** *** Evidence *)

Lemma pauseAnalysisFrom_entries (previous : ChangeEvent.t) (rest : list ChangeEvent.t) :
  (List.length (pauseAnalysisFrom previous rest) <= List.length rest)%nat /\
  forall entry, In entry (pauseAnalysisFrom previous rest) ->
    30000 < PauseAnalysisEntry.duration entry /\
    In (PauseAnalysisEntry.duration entry) (pausesFrom previous rest) /\
    (PauseAnalysisEntry.likelyActivity entry = "extended-break" /\
       300000 < PauseAnalysisEntry.duration entry \/
     PauseAnalysisEntry.likelyActivity entry = "thinking-reviewing" /\
       60000 < PauseAnalysisEntry.duration entry /\
       PauseAnalysisEntry.duration entry <= 300000 \/
     PauseAnalysisEntry.likelyActivity entry = "brief-pause" /\
       PauseAnalysisEntry.duration entry <= 60000).
Proof.
  revert previous. induction rest as [|current rest IH]; intro previous.
  - cbn. split; [lia|intros entry []].
  - destruct (IH current) as [IHlen IHin]. cbn [pauseAnalysisFrom pausesFrom].
    rewrite length_app. split.
    + destruct (timestamp current - timestamp previous >? 30000); cbn [List.length]; lia.
    + intros entry Hin. apply in_app_or in Hin as [Hin|Hin].
      * destruct (timestamp current - timestamp previous >? 30000) eqn:E; [|destruct Hin].
        destruct Hin as [<-|[]]. apply NumFacts.gtb_true in E.
        cbn [PauseAnalysisEntry.duration PauseAnalysisEntry.likelyActivity].
        split; [exact E|]. split; [left; reflexivity|].
        destruct (timestamp current - timestamp previous >? 300000) eqn:E3.
        { left. apply NumFacts.gtb_true in E3. auto. }
        apply NumFacts.gtb_false in E3.
        destruct (timestamp current - timestamp previous >? 60000) eqn:E6.
        { right. left. apply NumFacts.gtb_true in E6. auto. }
        right. right. apply NumFacts.gtb_false in E6. auto.
      * destruct (IHin entry Hin) as (H1 & H2 & H3).
        split; [exact H1|]. split; [right; exact H2|exact H3].
Qed.

Lemma length_substring_bounds (n : nat) (text : string) :
  String.length (String.substring 0 n text) = Nat.min n (String.length text).
Proof.
  revert text. induction n as [|n IH]; intro text.
  - destruct text; reflexivity.
  - destruct text as [|ch text]; [reflexivity|].
    cbn [String.substring String.length Nat.min]. rewrite IH. reflexivity.
Qed.

(** X22.  The evidence of an assessment: the edit timeline has one entry per
    change, in order, with a significance of 1, 2 or 3; the pause analysis
    lists only pauses of more than thirty seconds, labelled by their
    length; there are at most five refinement examples, each a non-empty
    text of at most fifty characters. *)
Theorem assessQuality_evidence_bounds (env : Environment) (this : State)
  (changes : list ChangeEvent.t) (commitInfo : option CommitInfo.t) :
  let evidence :=
    ReviewQualityAssessment.evidence (fst (assessQuality env this changes commitInfo)) in
  map EditTimelineEntry.timestamp (ReviewEvidence.editTimeline evidence) =
    map timestamp changes /\
  (forall entry, In entry (ReviewEvidence.editTimeline evidence) ->
     EditTimelineEntry.significance entry = 1 \/
     EditTimelineEntry.significance entry = 2 \/
     EditTimelineEntry.significance entry = 3) /\
  (List.length (ReviewEvidence.pauseAnalysis evidence) <= Nat.pred (List.length changes))%nat /\
  (forall entry, In entry (ReviewEvidence.pauseAnalysis evidence) ->
     30000 < PauseAnalysisEntry.duration entry /\
     In (PauseAnalysisEntry.duration entry) (pausesOf changes) /\
     (PauseAnalysisEntry.likelyActivity entry = "extended-break" /\
        300000 < PauseAnalysisEntry.duration entry \/
      PauseAnalysisEntry.likelyActivity entry = "thinking-reviewing" /\
        60000 < PauseAnalysisEntry.duration entry /\
        PauseAnalysisEntry.duration entry <= 300000 \/
      PauseAnalysisEntry.likelyActivity entry = "brief-pause" /\
        PauseAnalysisEntry.duration entry <= 60000)) /\
  (List.length (ReviewEvidence.refinementExamples evidence) <= 5)%nat /\
  (forall example, In example (ReviewEvidence.refinementExamples evidence) ->
     (1 <= String.length example <= 50)%nat).
Proof.
  cbv zeta. destruct changes as [|first rest].
  - cbn. split; [reflexivity|]. split; [intros entry []|]. split; [lia|].
    split; [intros entry []|]. split; [lia|intros example []].
  - rewrite assessQuality_nonempty. cbv zeta.
    cbn [ReviewQualityAssessment.evidence]. unfold extractEvidence.
    cbn [ReviewEvidence.editTimeline ReviewEvidence.pauseAnalysis
         ReviewEvidence.refinementExamples].
    split; [rewrite map_map; reflexivity|].
    split.
    { intros entry Hin. apply in_map_iff in Hin as (change & <- & _).
      cbn [EditTimelineEntry.significance].
      destruct (contentLength change >? 100); [auto|].
      destruct (contentLength change >? 20); auto. }
    destruct (pauseAnalysisFrom_entries first rest) as [Hlen Hin].
    split; [exact Hlen|]. split; [exact Hin|].
    split; [apply firstn_le_length|].
    intros example Hex.
    assert (Hall : In example
              (map (fun change =>
                      match content change with
                      | Some text => String.substring 0 50 text
                      | None => ""
                      end)
                   (filter (fun change =>
                      (timeSinceLastChange change >? 10000) &&
                      (contentLength change <? 100) && hasContent change) (first :: rest)))).
    { rewrite <- (firstn_skipn 5). apply in_or_app. left. exact Hex. }
    apply in_map_iff in Hall as (change & <- & Hchange).
    apply filter_In in Hchange as [_ Hchange].
    apply andb_true_iff in Hchange as [_ Hcontent]. unfold hasContent in Hcontent.
    destruct (content change) as [[|ch text]|]; try discriminate Hcontent.
    rewrite length_substring_bounds. cbn [String.length]. lia.
Qed.
(** *** Editing velocity *)




End ReviewInvariants.

(** ** The change log *)

Module FileHistoryProperties.
Import ChangeEvent FileHistory.

Lemma insertByTimestamp_permutation (event : ChangeEvent.t) (sorted : list ChangeEvent.t) :
  Permutation (event :: sorted) (insertByTimestamp event sorted).
Proof.
  induction sorted as [|next rest IH]; [apply Permutation_refl|].
  cbn [insertByTimestamp]. destruct (timestamp event <=? timestamp next).
  - apply Permutation_refl.
  - apply Permutation_trans with (next :: event :: rest); [apply perm_swap|].
    apply perm_skip. exact IH.
Qed.

Lemma sortByTimestamp_permutation (events : list ChangeEvent.t) :
  Permutation events (sortByTimestamp events).
Proof.
  induction events as [|event events IH]; [apply Permutation_refl|].
  cbn [sortByTimestamp fold_right].
  apply Permutation_trans with (event :: sortByTimestamp events).
  - apply perm_skip. exact IH.
  - apply insertByTimestamp_permutation.
Qed.

Lemma insertByTimestamp_nonDecreasing (event : ChangeEvent.t) (sorted : list ChangeEvent.t) :
  BucketAnalyzer.nonDecreasing sorted ->
  BucketAnalyzer.nonDecreasing (insertByTimestamp event sorted).
Proof.
  induction sorted as [|next rest IH]; intro Hs.
  - cbn. auto.
  - cbn [insertByTimestamp]. destruct (timestamp event <=? timestamp next) eqn:E.
    + apply NumFacts.leb_true in E. split; [exact E|exact Hs].
    + assert (Hlt : timestamp next < timestamp event).
      { apply Qnot_le_lt. intro Hle. apply NumFacts.leb_true in Hle. congruence. }
      destruct Hs as [Hhead Htail]. specialize (IH Htail).
      cbn [BucketAnalyzer.nonDecreasing]. split; [|exact IH].
      destruct rest as [|next' rest'].
      * cbn [insertByTimestamp]. apply Qlt_le_weak. exact Hlt.
      * cbn [insertByTimestamp]. destruct (timestamp event <=? timestamp next').
        -- apply Qlt_le_weak. exact Hlt.
        -- exact Hhead.
Qed.

Lemma sortByTimestamp_nonDecreasing (events : list ChangeEvent.t) :
  BucketAnalyzer.nonDecreasing (sortByTimestamp events).
Proof.
  induction events as [|event events IH]; [exact I|].
  cbn [sortByTimestamp fold_right]. apply insertByTimestamp_nonDecreasing. exact IH.
Qed.

Lemma sortByTimestamp_sorted (events : list ChangeEvent.t) :
  BucketAnalyzer.nonDecreasing events -> sortByTimestamp events = events.
Proof.
  induction events as [|event events IH]; intro Hs; [reflexivity|].
  destruct Hs as [Hhead Htail]. cbn [sortByTimestamp fold_right].
  fold (sortByTimestamp events). rewrite (IH Htail).
  destruct events as [|next rest]; [reflexivity|].
  cbn [insertByTimestamp]. apply NumFacts.leb_true in Hhead. rewrite Hhead. reflexivity.
Qed.

Lemma nonDecreasing_head (first : ChangeEvent.t) (rest : list ChangeEvent.t) :
  BucketAnalyzer.nonDecreasing (first :: rest) ->
  forall event, In event rest -> timestamp first <= timestamp event.
Proof.
  revert first. induction rest as [|next rest IH]; intros first Hs event Hin; [destruct Hin|].
  destruct Hs as [Hhead Htail]. destruct Hin as [<-|Hin]; [exact Hhead|].
  apply Qle_trans with (timestamp next); [exact Hhead|exact (IH next Htail event Hin)].
Qed.

Lemma nonDecreasing_cons (first : ChangeEvent.t) (rest : list ChangeEvent.t) :
  (forall event, In event rest -> timestamp first <= timestamp event) ->
  BucketAnalyzer.nonDecreasing rest -> BucketAnalyzer.nonDecreasing (first :: rest).
Proof.
  intros Hhead Htail. split; [|exact Htail].
  destruct rest as [|next rest]; [exact I|]. apply Hhead. left. reflexivity.
Qed.

Lemma filter_nonDecreasing (f : ChangeEvent.t -> bool) (events : list ChangeEvent.t) :
  BucketAnalyzer.nonDecreasing events -> BucketAnalyzer.nonDecreasing (filter f events).
Proof.
  induction events as [|event events IH]; intro Hs; [exact I|].
  pose proof (nonDecreasing_head event events Hs) as Hhead.
  destruct Hs as [_ Htail]. cbn [filter]. destruct (f event); [|exact (IH Htail)].
  apply nonDecreasing_cons; [|exact (IH Htail)].
  intros e Hin. apply filter_In in Hin as [Hin _]. exact (Hhead e Hin).
Qed.

(** X24.  [getChangeEventsForFile] returns the logged events of the file that
    [fromTime] allows (a [fromTime] of [0] allows every event, like a
    missing one), each as often as it is logged, in non-decreasing order
    of their timestamps.  When the log itself is in that order, the events
    come back in the order of the log. *)
Theorem getChangeEventsForFile_sorted (events : list ChangeEvent.t) (uri : string)
  (fromTime : option Q) :
  let result := getChangeEventsForFile (Some events) uri fromTime in
  let selected :=
    filter (fromTimeAllows fromTime) (EventUtilities.filterChangeEventsByFile events uri) in
  BucketAnalyzer.nonDecreasing result /\
  Permutation selected result /\
  (forall event, In event result <->
     In event events /\ fileUri event = uri /\
     match fromTime with
     | None => True
     | Some t => t == 0 \/ t <= timestamp event
     end) /\
  (BucketAnalyzer.nonDecreasing events -> result = selected).
Proof.
  cbv zeta. unfold getChangeEventsForFile, EventUtilities.filterChangeEventsByFile.
  set (selected := filter (fromTimeAllows fromTime) _).
  split; [apply sortByTimestamp_nonDecreasing|].
  split; [apply sortByTimestamp_permutation|].
  split.
  - intro event. split.
    + intro Hin.
      apply (Permutation_in _ (Permutation_sym (sortByTimestamp_permutation selected))) in Hin.
      subst selected. apply filter_In in Hin as [Hin Hfrom].
      apply filter_In in Hin as [Hin Huri]. apply String.eqb_eq in Huri.
      split; [exact Hin|]. split; [exact Huri|].
      destruct fromTime as [t|]; [|exact I]. cbn [fromTimeAllows] in Hfrom.
      apply orb_true_iff in Hfrom as [Hzero|Hge].
      * left. apply Qeq_bool_iff. exact Hzero.
      * right. apply NumFacts.geb_true. exact Hge.
    + intros (Hin & Huri & Hfrom).
      apply (Permutation_in _ (sortByTimestamp_permutation selected)).
      subst selected. apply filter_In. split.
      * apply filter_In. split; [exact Hin|]. apply String.eqb_eq. exact Huri.
      * destruct fromTime as [t|]; [|reflexivity]. cbn [fromTimeAllows].
        apply orb_true_iff. destruct Hfrom as [Hzero|Hge].
        -- left. apply Qeq_bool_iff. exact Hzero.
        -- right. apply NumFacts.geb_true. exact Hge.
  - intro Hs. apply sortByTimestamp_sorted. subst selected.
    apply filter_nonDecreasing, filter_nonDecreasing. exact Hs.
Qed.

(** X25.  When the log cannot be read, or holds no event of the file that
    [fromTime] allows, [analyzeFileHistory] answers with the empty
    assessment (score 0, immediate-commit, confidence 1.0) and logs no
    metrics record. *)
Theorem analyzeFileHistory_without_events (env : ReviewAnalyzer.Environment)
  (this : ReviewAnalyzer.State) (logged : option (list ChangeEvent.t)) (uri : string)
  (fromTime : option Q) :
  (forall events event, logged = Some events -> In event events ->
     fileUri event = uri -> fromTimeAllows fromTime event = false) ->
  analyzeFileHistory env this logged uri fromTime = (ReviewAnalyzer.createEmptyAssessment, []) /\
  ReviewQualityAssessment.overallScore
    (fst (analyzeFileHistory env this logged uri fromTime)) = 0 /\
  ReviewQualityAssessment.confidence
    (fst (analyzeFileHistory env this logged uri fromTime)) = 1.0.
Proof.
  intro Hnone. unfold analyzeFileHistory.
  assert (Hempty : getChangeEventsForFile logged uri fromTime = []).
  { destruct logged as [events|]; [|reflexivity]. cbn [getChangeEventsForFile].
    assert (Hsel : filter (fromTimeAllows fromTime)
                     (filter (fun event => String.eqb (fileUri event) uri) events) = []).
    { destruct (filter _ (filter _ events)) as [|event selected] eqn:E; [reflexivity|].
      assert (Hin : In event (event :: selected)) by (left; reflexivity).
      rewrite <- E in Hin. apply filter_In in Hin as [Hin Hfrom].
      apply filter_In in Hin as [Hin Huri]. apply String.eqb_eq in Huri.
      rewrite (Hnone events event eq_refl Hin Huri) in Hfrom. discriminate Hfrom. }
    rewrite Hsel. reflexivity. }
  rewrite Hempty. repeat split.
Qed.

Lemma analyzeFileHistory_without_events_witness :
  let env := ReviewAnalyzer.mkEnvironment "analysis-1" 5000000 5000001 in
  let this := ReviewAnalyzer.mkState "session-1" in
  (forall events event, Some Samples.halfHour = Some events -> In event events ->
     fileUri event = "test://other.ts" -> fromTimeAllows None event = false) /\
  analyzeFileHistory env this (Some Samples.halfHour) "test://other.ts" None =
    (ReviewAnalyzer.createEmptyAssessment, []).
Proof.
  cbv zeta.
  assert (Hnone : forall events event, Some Samples.halfHour = Some events ->
                    In event events -> fileUri event = "test://other.ts" ->
                    fromTimeAllows None event = false).
  { intros events event [= <-] [<-|[<-|[<-|[<-|[]]]]] Huri; discriminate Huri. }
  split; [exact Hnone|].
  exact (proj1 (analyzeFileHistory_without_events _ _ _ _ _ Hnone)).
Defined.

(** X26.  [analyzeFileHistory] passes no commit information to the
    assessment: the pattern [immediateCommit] is reported for every file,
    the point for time before the commit is never given, and the overall
    score never exceeds 9. *)
Theorem analyzeFileHistory_without_commit (env : ReviewAnalyzer.Environment)
  (this : ReviewAnalyzer.State) (logged : option (list ChangeEvent.t)) (uri : string)
  (fromTime : option Q) :
  let assessment := fst (analyzeFileHistory env this logged uri fromTime) in
  ReviewPatterns.immediateCommit (ReviewQualityAssessment.patterns assessment) = true /\
  ReviewScoreBreakdown.timeInvestmentScore (ReviewQualityAssessment.breakdown assessment) <= 2 /\
  ReviewQualityAssessment.overallScore assessment <= 9.
Proof.
  cbv zeta. unfold analyzeFileHistory.
  destruct (getChangeEventsForFile logged uri fromTime) as [|first rest].
  - cbn. split; [reflexivity|]. split; discriminate.
  - rewrite ReviewInvariants.assessQuality_nonempty. cbv zeta.
    cbn [ReviewQualityAssessment.patterns ReviewQualityAssessment.breakdown
         ReviewQualityAssessment.overallScore].
    set (timeMetrics := ReviewAnalyzer.calculateTimeMetrics (first :: rest) None).
    assert (Hcommit : TimeMetrics.timeBeforeFirstCommit timeMetrics = 0) by reflexivity.
    destruct (ReviewInvariants.scoreBreakdown_bounds timeMetrics
                (ReviewAnalyzer.analyzeEditPatterns (first :: rest))
                (ReviewAnalyzer.identifyReviewIndicators (first :: rest) timeMetrics))
      as (_ & Hi & Hr & Hth & Hsum).
    cbv zeta in *. rewrite Hsum.
    assert (Htime : ReviewScoreBreakdown.timeInvestmentScore
                      (ReviewAnalyzer.calculateScoreBreakdown timeMetrics
                         (ReviewAnalyzer.analyzeEditPatterns (first :: rest))
                         (ReviewAnalyzer.identifyReviewIndicators (first :: rest) timeMetrics))
                    <= 2).
    { cbn [ReviewAnalyzer.calculateScoreBreakdown ReviewScoreBreakdown.timeInvestmentScore].
      rewrite Hcommit. change (0 >? 10 * 60 * 1000) with false.
      unfold ReviewAnalyzer.addIf.
      repeat match goal with |- context [if ?b then _ else _] => destruct b end; lra. }
    split.
    + cbn [ReviewAnalyzer.createPatterns ReviewPatterns.immediateCommit].
      rewrite Hcommit. reflexivity.
    + split; [exact Htime|lra].
Qed.

End FileHistoryProperties.

(** ** The event validator and typed configurations *)

Module EventValidationProperties.
Import Validation EventValidation.

Lemma unitInterval_finite (q : Q) :
  outsideUnitInterval (JSNum (Finite q)) = false <-> 0 <= q /\ q <= 1.
Proof.
  cbn [outsideUnitInterval]. unfold number_gtb. cbn [number_ltb].
  rewrite orb_false_iff, !NumFacts.ltb_false. reflexivity.
Qed.

Lemma nonNegative_finite (q : Q) :
  notNonNegative (JSNum (Finite q)) = false <-> 0 <= q.
Proof.
  cbn [notNonNegative number_ltb]. apply NumFacts.ltb_false.
Qed.

(** X27.  On a typed configuration the validator answers [true] exactly when
    every weight and every classification cut-off lies in [[0,1]], every
    threshold is at least 0 and the cut-offs are strictly increasing.  It
    reads neither [bucketConfig] nor the sum of the weights. *)
Theorem validateAIDetectionConfig_typed (config : AIDetectionConfig.t) :
  validateAIDetectionConfig (AIDetectionConfig_value config) = true <-> validConfig config.
Proof.
  destruct config as [[w1 w2 w3 w4 w5 w6] [t1 t2 t3 t4 t5] [c1 c2 c3] [b1 b2 b3]].
  unfold validConfig.
  cbn [AIDetectionConfig.weights AIDetectionConfig.thresholds AIDetectionConfig.classification
       Thresholds.bulkInsertionSize Thresholds.fastTypingSpeed Thresholds.pasteTimeThreshold
       Thresholds.longPauseThreshold Thresholds.rapidSequenceThreshold
       Classification.humanThreshold Classification.aiAssistedThreshold
       Classification.aiGeneratedThreshold].
  set (value := AIDetectionConfig_value _).
  assert (Hw : forall key q,
            In (key, q) [("bulkInsertionScore", w1); ("typingSpeedScore", w2);
                         ("pastePatternScore", w3); ("externalToolScore", w4);
                         ("contentPatternScore", w5); ("timingAnomalyScore", w6)] ->
            getProperty (getProperty value "weights") key = JSNum (Finite q)).
  { intros key q Hin. repeat (destruct Hin as [[= <- <-]|Hin]; [vm_compute; reflexivity|]).
    destruct Hin. }
  assert (Ht : forall key q,
            In (key, q) [("bulkInsertionSize", t1); ("fastTypingSpeed", t2);
                         ("pasteTimeThreshold", t3); ("longPauseThreshold", t4);
                         ("rapidSequenceThreshold", t5)] ->
            getProperty (getProperty value "thresholds") key = JSNum (Finite q)).
  { intros key q Hin. repeat (destruct Hin as [[= <- <-]|Hin]; [vm_compute; reflexivity|]).
    destruct Hin. }
  assert (Hc : forall key q,
            In (key, q) [("humanThreshold", c1); ("aiAssistedThreshold", c2);
                         ("aiGeneratedThreshold", c3)] ->
            getProperty (getProperty value "classification") key = JSNum (Finite q)).
  { intros key q Hin. repeat (destruct Hin as [[= <- <-]|Hin]; [vm_compute; reflexivity|]).
    destruct Hin. }
  assert (Ho : notAnObject value = false /\
               notAnObject (getProperty value "weights") = false /\
               notAnObject (getProperty value "thresholds") = false /\
               notAnObject (getProperty value "classification") = false)
    by (repeat split; vm_compute; reflexivity).
  destruct Ho as (Ho1 & Ho2 & Ho3 & Ho4).
  unfold validateAIDetectionConfig. rewrite Ho1, Ho2, Ho3, Ho4.
  cbn [existsb requiredWeights requiredThresholds requiredClassification].
  rewrite (Hw "bulkInsertionScore" w1), (Hw "typingSpeedScore" w2),
    (Hw "pastePatternScore" w3), (Hw "externalToolScore" w4),
    (Hw "contentPatternScore" w5), (Hw "timingAnomalyScore" w6) by (cbn; tauto).
  rewrite (Ht "bulkInsertionSize" t1), (Ht "fastTypingSpeed" t2),
    (Ht "pasteTimeThreshold" t3), (Ht "longPauseThreshold" t4),
    (Ht "rapidSequenceThreshold" t5) by (cbn; tauto).
  rewrite (Hc "humanThreshold" c1), (Hc "aiAssistedThreshold" c2),
    (Hc "aiGeneratedThreshold" c3) by (cbn; tauto).
  split.
  - intro Hv.
    repeat match type of Hv with
           | (if ?b then _ else _) = _ =>
               let E := fresh "E" in destruct b eqn:E; [discriminate Hv|]
           end.
    repeat match goal with
           | H : (_ || _) = false |- _ => apply orb_false_iff in H as [? ?]
           end.
    repeat match goal with
           | H : outsideUnitInterval (JSNum (Finite _)) = false |- _ =>
               apply unitInterval_finite in H
           | H : notNonNegative (JSNum (Finite _)) = false |- _ =>
               apply nonNegative_finite in H
           | H : outOfOrder _ _ _ = false |- _ =>
               apply ValidationProperties.outOfOrder_false_finite in H
           end.
    split; [intros []; cbn [Weights.get Weights.bulkInsertionScore Weights.typingSpeedScore
                            Weights.pastePatternScore Weights.externalToolScore
                            Weights.contentPatternScore Weights.timingAnomalyScore];
            assumption|].
    tauto.
  - intros (Hweights & Hthresholds & Hclassification).
    pose proof (Hweights Heuristic.bulkInsertionScore) as W1.
    pose proof (Hweights Heuristic.typingSpeedScore) as W2.
    pose proof (Hweights Heuristic.pastePatternScore) as W3.
    pose proof (Hweights Heuristic.externalToolScore) as W4.
    pose proof (Hweights Heuristic.contentPatternScore) as W5.
    pose proof (Hweights Heuristic.timingAnomalyScore) as W6.
    cbn [Weights.get Weights.bulkInsertionScore Weights.typingSpeedScore
         Weights.pastePatternScore Weights.externalToolScore
         Weights.contentPatternScore Weights.timingAnomalyScore] in *.
    rewrite (proj2 (unitInterval_finite w1) W1), (proj2 (unitInterval_finite w2) W2),
      (proj2 (unitInterval_finite w3) W3), (proj2 (unitInterval_finite w4) W4),
      (proj2 (unitInterval_finite w5) W5), (proj2 (unitInterval_finite w6) W6).
    destruct Hthresholds as (T1 & T2 & T3 & T4 & T5).
    rewrite (proj2 (nonNegative_finite t1) T1), (proj2 (nonNegative_finite t2) T2),
      (proj2 (nonNegative_finite t3) T3), (proj2 (nonNegative_finite t4) T4),
      (proj2 (nonNegative_finite t5) T5).
    destruct Hclassification as (C1 & C12 & C23 & C3).
    rewrite (proj2 (unitInterval_finite c1)), (proj2 (unitInterval_finite c2)),
      (proj2 (unitInterval_finite c3)) by (split; lra).
    rewrite (proj2 (ValidationProperties.outOfOrder_false_finite c1 c2 c3))
      by (split; assumption).
    reflexivity.
Qed.

(** *** [validateChangeEvent] *)

Ltac typed_event e :=
  destruct e as [timestamp sessionId fileUri eventId changeType position content
                 contentLength timeSinceLastChange timeSinceSessionStart timeSinceFileOpen
                 source vsCodeActive cursorPosition selectionRange instantTypingSpeed
                 rollingTypingSpeed burstDetected pauseBeforeChange isCodeBlock isComment
                 isWhitespace languageConstruct indentationLevel externalToolSignature];
  destruct content, selectionRange, externalToolSignature, changeType, source.

(** X28.  Every typed event, with or without its optional fields, passes the
    validator. *)
Theorem validateChangeEvent_accepts_typed (event : ChangeEvent.t) :
  validateChangeEvent (ChangeEvent_value event) = Returns true.
Proof.
  typed_event event; vm_compute; reflexivity.
Qed.

(** X29.  The validator never looks at [content], [selectionRange] and
    [externalToolSignature], and of [cursorPosition] it checks only that
    [typeof] gives ['object']: an event whose [cursorPosition] is [null],
    or any other object, is accepted as an [EnhancedChangeEvent]. *)
Theorem validateChangeEvent_unchecked_fields (event : ChangeEvent.t) (value : JSValue) :
  validateChangeEvent (withProperty "content" value (ChangeEvent_value event)) =
    Returns true /\
  validateChangeEvent (withProperty "selectionRange" value (ChangeEvent_value event)) =
    Returns true /\
  validateChangeEvent (withProperty "externalToolSignature" value (ChangeEvent_value event)) =
    Returns true /\
  validateChangeEvent (withProperty "cursorPosition" JSNull (ChangeEvent_value event)) =
    Returns true /\
  (hasType typeof_object value = true ->
   validateChangeEvent (withProperty "cursorPosition" value (ChangeEvent_value event)) =
     Returns true).
Proof.
  split; [typed_event event; vm_compute; reflexivity|].
  split; [typed_event event; vm_compute; reflexivity|].
  split; [typed_event event; vm_compute; reflexivity|].
  split; [typed_event event; vm_compute; reflexivity|].
  intro Hobject. destruct value; try discriminate Hobject;
    typed_event event; vm_compute; reflexivity.
Qed.

Lemma andAlso_true (right : Completion bool) : andAlso (Returns true) right = right.
Proof. reflexivity. Qed.

Lemma andAlso_false (right : Completion bool) :
  andAlso (Returns false) right = Returns false.
Proof. reflexivity. Qed.

Lemma andAlso_throws (error : string) (right : Completion bool) :
  andAlso (Throws error) right = Throws error.
Proof. reflexivity. Qed.

(** X30.  The validator ends in a [TypeError], instead of answering [false],
    exactly on the objects that pass the checks before [position] and whose
    [position] is [null]: it reads [event.position.line] after checking
    only [typeof event.position === 'object']. *)
Theorem validateChangeEvent_throws_exactly_when (event : JSValue) (error : string) :
  validateChangeEvent event = Throws error <->
  error = "TypeError: Cannot read properties of null or undefined" /\
  isObject event /\
  hasType typeof_number (getProperty event "timestamp") = true /\
  hasType typeof_string (getProperty event "sessionId") = true /\
  hasType typeof_string (getProperty event "fileUri") = true /\
  hasType typeof_string (getProperty event "eventId") = true /\
  includes ["insert"; "delete"; "replace"] (getProperty event "changeType") = true /\
  getProperty event "position" = JSNull.
Proof.
  unfold isObject.
  destruct event as [| | | | | | | |properties];
    try (cbn; split; [discriminate|intros (_ & (p & Hp) & _); discriminate Hp]).
  unfold validateChangeEvent, fieldChecks. cbn [List.fold_right].
  set (event := JSObject properties).
  change (hasType typeof_object event) with true. change (notNull event) with true.
  rewrite !andAlso_true.
  do 5 (match goal with
        | |- andAlso (Returns ?b) _ = _ <-> _ =>
            destruct b;
            [rewrite andAlso_true
            |rewrite andAlso_false; split;
             [discriminate|intros (_ & _ & ? & ? & ? & ? & ? & _); discriminate]]
        end).
  destruct (getProperty event "position") as [| | | | | | | |position] eqn:Eposition;
    cbn [hasType typeof TypeofResult_eqb propertyHasType readProperty];
    rewrite ?andAlso_false, ?andAlso_true, ?andAlso_throws;
    try (split; [discriminate|intros (_ & _ & _ & _ & _ & _ & _ & Hnull); discriminate Hnull]).
  - split.
    + intros [= <-]. split; [reflexivity|]. split; [exists properties; reflexivity|].
      repeat (split; [reflexivity|]). reflexivity.
    + intros (-> & _). reflexivity.
  - split; [|intros (_ & _ & _ & _ & _ & _ & _ & Hnull); discriminate Hnull].
    repeat match goal with
           | |- andAlso (Returns ?b) _ = _ -> _ =>
               destruct b; [rewrite andAlso_true|rewrite andAlso_false; discriminate]
           end.
    discriminate.
Qed.

End EventValidationProperties.
